(** * Flowdos client library: validation, error normalisation, auth store,
      conversation cache and request clients

    A shallow embedding of the TypeScript sources under [src/], followed by
    the properties stated about them.

    Conventions of the embedding.
    - A JavaScript string is a [string]: one [ascii] per UTF-16 code unit, so
      the embedding covers the code units 0..255 and [String.length] is the
      JavaScript [length].
    - A value of type [any] is a [JsValue]: [undefined], [null], booleans,
      integer-valued numbers, strings and objects with data properties.
      Arrays, functions, fractional numbers and [NaN] are outside the model.
    - An operation that can throw returns a [Completion].
    - [localStorage] is a [gmap string string]; the clock and [fetch] are
      inputs of the functions that use them. *)

From Stdlib Require Import ZArith Ascii String List Bool Lia DecimalString.
From stdpp Require Import base decidable option list gmap strings fin_maps.

Local Open Scope string_scope.
Local Open Scope Z_scope.
Local Open Scope list_scope.

(* ===================================================================== *)
(** * JavaScript values and the built-ins the sources call *)
(* ===================================================================== *)

Module Js.

(** Where property lookup continues when an object has no own property of
    the requested name: [Object.prototype] for object literals, the results
    of [JSON.parse] and error instances; nowhere for [Object.create(null)]. *)
Inductive Proto := ObjectPrototype | NullPrototype.

#[warnings="-register-all"]
Inductive JsValue :=
| Undefined
| Null
| Bool (b : bool)
| Number (n : Z)
| Str (s : string)
| Object (proto : Proto) (fields : list (string * JsValue)).

(** What a [throw] carries. *)
Inductive Exception :=
| TypeError (message : string)
| Error (message : string).

Inductive Completion (A : Type) :=
| Return (a : A)
| Throw (e : Exception).
Arguments Return {A} a.
Arguments Throw {A} e.

Definition bind {A B} (c : Completion A) (k : A -> Completion B) : Completion B :=
  match c with
  | Return a => k a
  | Throw e => Throw e
  end.

Notation "'do' x <- c ; k" := (bind c (fun x => k))
  (at level 10, x name, c at level 100, k at level 200, only parsing).

(** [ToBoolean]. *)
Definition truthy (v : JsValue) : bool :=
  match v with
  | Undefined | Null => false
  | Bool b => b
  | Number n => negb (n =? 0)
  | Str s => negb (String.eqb s "")
  | Object _ _ => true
  end.

(** First binding of [key] in a property list. *)
Fixpoint lookup_field (key : string) (fields : list (string * JsValue)) : option JsValue :=
  match fields with
  | [] => None
  | (k, v) :: rest => if String.eqb k key then Some v else lookup_field key rest
  end.

(** The property names every object inherits from [Object.prototype]. *)
Definition object_prototype_keys : list string :=
  [ "constructor"; "__defineGetter__"; "__defineSetter__"; "hasOwnProperty";
    "__lookupGetter__"; "__lookupSetter__"; "isPrototypeOf";
    "propertyIsEnumerable"; "toString"; "valueOf"; "__proto__";
    "toLocaleString" ].

Definition mem_string (s : string) (l : list string) : bool :=
  existsb (String.eqb s) l.

(** [v.key] for a key that is neither on [Object.prototype] nor a built-in
    property of strings, numbers or booleans (the sources read [type],
    [message], [name], [status], [detail], [error]). Reading a property of
    [undefined] or [null] throws. *)
Definition get (v : JsValue) (key : string) : Completion JsValue :=
  match v with
  | Undefined | Null =>
      Throw (TypeError ("Cannot read properties of undefined or null (reading '"
                          +:+ key +:+ "')"))
  | Object _ fields =>
      Return (match lookup_field key fields with Some x => x | None => Undefined end)
  | Bool _ | Number _ | Str _ => Return Undefined
  end.

(** [key in obj] for an object [obj]: own properties, then the prototype. *)
Definition has_property (key : string) (proto : Proto) (fields : list (string * JsValue)) : bool :=
  match lookup_field key fields with
  | Some _ => true
  | None =>
      match proto with
      | ObjectPrototype => mem_string key object_prototype_keys
      | NullPrototype => false
      end
  end.

(** [obj.hasOwnProperty(key)] for an object [obj]: the method comes from
    [Object.prototype], so the call throws when the object has no prototype
    or has a data property of that name in the way. *)
Definition hasOwnProperty (proto : Proto) (fields : list (string * JsValue)) (key : string)
  : Completion bool :=
  match lookup_field "hasOwnProperty" fields, proto with
  | None, ObjectPrototype =>
      Return (match lookup_field key fields with Some _ => true | None => false end)
  | _, _ => Throw (TypeError "hasOwnProperty is not a function")
  end.

(** Decimal rendering of an integer-valued number, as JavaScript prints the
    integers below 10^21 in absolute value. *)
Definition Number_toString (n : Z) : string :=
  NilZero.string_of_int (Z.to_int n).

(** [ToString], as template literals and [new Error(x)] apply it. An object
    is rendered by the [toString] it inherits from [Object.prototype]; with
    no prototype, or with a data property named [toString] in the way, there
    is nothing to call. *)
Definition ToString (v : JsValue) : Completion string :=
  match v with
  | Undefined => Return "undefined"
  | Null => Return "null"
  | Bool true => Return "true"
  | Bool false => Return "false"
  | Number n => Return (Number_toString n)
  | Str s => Return s
  | Object proto fields =>
      match lookup_field "toString" fields, proto with
      | None, ObjectPrototype => Return "[object Object]"
      | _, _ => Throw (TypeError "Cannot convert object to primitive value")
      end
  end.

(** ** Strings *)

(** [s.length]. *)
Definition String_length (s : string) : Z := Z.of_nat (String.length s).

(** [hay.includes(needle)]. *)
Fixpoint includes (needle hay : string) : bool :=
  String.prefix needle hay ||
  match hay with
  | EmptyString => false
  | String _ rest => includes needle rest
  end.

(** [s.startsWith(prefix)]. *)
Definition startsWith (prefix s : string) : bool := String.prefix prefix s.

(** [s.replace(/[cls]/g, replacement)] for a class of single characters and
    a replacement without [$] patterns. *)
Fixpoint replace_all (cls : ascii -> bool) (replacement : string) (s : string) : string :=
  match s with
  | EmptyString => EmptyString
  | String c rest =>
      if cls c then replacement +:+ replace_all cls replacement rest
      else String c (replace_all cls replacement rest)
  end.

(** [/[cls]/.test(s)]. *)
Fixpoint test_class (cls : ascii -> bool) (s : string) : bool :=
  match s with
  | EmptyString => false
  | String c rest => cls c || test_class cls rest
  end.

Definition is_char (c : ascii) : ascii -> bool := Ascii.eqb c.

Definition one_of (cs : string) (c : ascii) : bool :=
  existsb (Ascii.eqb c) (list_ascii_of_string cs).

Definition in_range (lo hi : ascii) (c : ascii) : bool :=
  (nat_of_ascii lo <=? nat_of_ascii c)%nat && (nat_of_ascii c <=? nat_of_ascii hi)%nat.

(** White space and line terminators among the code units 0..255:
    TAB, LF, VT, FF, CR, SP and NBSP. *)
Definition is_white_space (c : ascii) : bool :=
  let n := nat_of_ascii c in
  ((9 <=? n)%nat && (n <=? 13)%nat) || (n =? 32)%nat || (n =? 160)%nat.

Fixpoint trim_start (s : string) : string :=
  match s with
  | EmptyString => EmptyString
  | String c rest => if is_white_space c then trim_start rest else s
  end.

(** Drops the trailing white space: a character is kept when something that
    is kept follows it or when it is not white space itself. *)
Fixpoint trim_end (s : string) : string :=
  match s with
  | EmptyString => EmptyString
  | String c rest =>
      match trim_end rest with
      | EmptyString => if is_white_space c then EmptyString else String c EmptyString
      | kept => String c kept
      end
  end.

(** [s.trim()]. *)
Definition trim (s : string) : string := trim_end (trim_start s).

(** ** [JSON.stringify] on values *)

Definition hex_digit (n : nat) : ascii :=
  match List.nth_error (list_ascii_of_string "0123456789abcdef") n with
  | Some c => c
  | None => "0"%char
  end.

(** One code unit inside a JSON string literal. *)
Definition json_escape_char (c : ascii) : string :=
  let n := nat_of_ascii c in
  if (n =? 34)%nat then String "\"%char (String c EmptyString)
  else if (n =? 92)%nat then "\\"
  else if (n =? 8)%nat then "\b"
  else if (n =? 12)%nat then "\f"
  else if (n =? 10)%nat then "\n"
  else if (n =? 13)%nat then "\r"
  else if (n =? 9)%nat then "\t"
  else if (n <? 32)%nat then
    "\u00" +:+ String (hex_digit (n / 16)) (String (hex_digit (n mod 16)) EmptyString)
  else String c EmptyString.

Fixpoint json_escape (s : string) : string :=
  match s with
  | EmptyString => EmptyString
  | String c rest => json_escape_char c +:+ json_escape rest
  end.

Definition double_quote : ascii := ascii_of_nat 34.

(** A JSON string literal. *)
Definition json_quote (s : string) : string :=
  String double_quote (json_escape s +:+ String double_quote EmptyString).

Fixpoint join (sep : string) (parts : list string) : string :=
  match parts with
  | [] => EmptyString
  | [p] => p
  | p :: rest => p +:+ sep +:+ join sep rest
  end.

(** [JSON.stringify(v)]; [None] is the [undefined] it yields for
    [undefined]. Properties whose value is [undefined] are left out; the
    others come in the order of the property list, which is the order of
    JavaScript when the keys are distinct and none is an array index. *)
Fixpoint JSON_stringify (v : JsValue) : option string :=
  match v with
  | Undefined => None
  | Null => Some "null"
  | Bool true => Some "true"
  | Bool false => Some "false"
  | Number n => Some (Number_toString n)
  | Str s => Some (json_quote s)
  | Object _ fields =>
      let members :=
        (fix go (fs : list (string * JsValue)) : list string :=
           match fs with
           | [] => []
           | (k, x) :: rest =>
               match JSON_stringify x with
               | Some text => (json_quote k +:+ ":" +:+ text) :: go rest
               | None => go rest
               end
           end) fields in
      Some ("{" +:+ join "," members +:+ "}")
  end.

End Js.

(* ===================================================================== *)
(** * Validation module (src/unnamed/part_002) *)
(* ===================================================================== *)

Module Validation.
Import Js.

Record ValidationResult := {
  isValid : bool;
  errors : list string;
  warnings : option (list string)   (* [None] is [undefined] *)
}.

(** [errors.length === 0]. *)
Definition no_errors (errs : list string) : bool := (List.length errs =? 0)%nat.

(** [warnings.length > 0 ? warnings : undefined]. *)
Definition warnings_or_undefined (ws : list string) : option (list string) :=
  if (0 <? List.length ws)%nat then Some ws else None.

Definition result (errs ws : list string) : ValidationResult :=
  {| isValid := no_errors errs; errors := errs; warnings := warnings_or_undefined ws |}.

(** A result built without the [warnings] key. *)
Definition result_without_warnings (valid : bool) (errs : list string) : ValidationResult :=
  {| isValid := valid; errors := errs; warnings := None |}.

(** [errors.push(x)] under a condition. *)
Definition push_if (cond : bool) (x : string) (l : list string) : list string :=
  if cond then l ++ [x] else l.

Definition too_long_message (len : Z) : string :=
  "Message exceeds maximum length of 4000 characters ("
    +:+ Number_toString len +:+ " characters)".

Definition special_characters_warning : string :=
  "Message contains special characters that may be sanitized by the server".

(** The class of the five special characters: the angle brackets, the
    apostrophe, the double quote and the ampersand. *)
Definition special_character (c : ascii) : bool :=
  one_of "<>'&" c || is_char double_quote c.

Definition validateMessage (message : string) : ValidationResult :=
  let errors := [] in
  let warnings := [] in
  let errors :=
    push_if (String.eqb message "" || (String_length (trim message) =? 0))
            "Message cannot be empty" errors in
  let errors :=
    push_if (4000 <? String_length message)
            (too_long_message (String_length message)) errors in
  let warnings :=
    push_if (test_class special_character message)
            special_characters_warning warnings in
  result errors warnings.

(** [id: string | null]. *)
Definition validateConversationId (id : option string) : ValidationResult :=
  match id with
  | None => result_without_warnings true []
  | Some id =>
      let errors :=
        if String.eqb id "" then ["Conversation ID must be a valid string or null"]
        else if 100 <? String_length id
             then ["Conversation ID exceeds maximum length of 100 characters"]
             else [] in
      result_without_warnings (no_errors errors) errors
  end.

(** A regular expression of the shape [^c1{n1}c2{n2}...$]: a sequence of
    character classes, each repeated a fixed number of times. *)
Definition Pattern := list ((ascii -> bool) * nat).

Fixpoint expand (p : Pattern) : list (ascii -> bool) :=
  match p with
  | [] => []
  | (cls, n) :: rest => repeat cls n ++ expand rest
  end.

Fixpoint match_classes (classes : list (ascii -> bool)) (s : string) : bool :=
  match classes, s with
  | [], EmptyString => true
  | cls :: classes', String c rest => cls c && match_classes classes' rest
  | _, _ => false
  end.

Definition Pattern_test (p : Pattern) (s : string) : bool :=
  match_classes (expand p) s.

(** Classes under the [i] flag. *)
Definition hex_i (c : ascii) : bool :=
  in_range "0" "9" c || in_range "a" "f" c || in_range "A" "F" c.

Definition digit_0_5 (c : ascii) : bool := in_range "0" "5" c.

Definition variant_089ab_i (c : ascii) : bool := one_of "089abAB" c.

Definition dash : ascii -> bool := is_char "-".

(** [/^[0-9a-f]{8}-[0-9a-f]{4}-[0-5][0-9a-f]{3}-[089ab][0-9a-f]{3}-[0-9a-f]{12}$/i] *)
Definition uuidRegex : Pattern :=
  [ (hex_i, 8); (dash, 1); (hex_i, 4); (dash, 1);
    (digit_0_5, 1); (hex_i, 3); (dash, 1);
    (variant_089ab_i, 1); (hex_i, 3); (dash, 1); (hex_i, 12) ]%nat.

Definition validateUserId (userId : string) : ValidationResult :=
  let errors :=
    if String.eqb userId "" then ["User ID must be a valid string"]
    else if 100 <? String_length userId
         then ["User ID exceeds maximum length of 100 characters"]
         else [] in
  let errors :=
    push_if (negb (Pattern_test uuidRegex userId))
            "User ID must be a valid UUID format" errors in
  result_without_warnings (no_errors errors) errors.

Definition forbiddenKeys : list string := ["__proto__"; "constructor"; "prototype"].

Definition forbidden_key_message (key : string) : string :=
  "Metadata cannot contain '" +:+ key +:+ "' key".

Definition metadata_too_large_message (size : Z) : string :=
  "Metadata exceeds maximum size of 10KB ("
    +:+ Number_toString size +:+ " characters)".

(** [metadata: any]. *)
Definition validateMetadata (metadata : JsValue) : ValidationResult :=
  match metadata with
  | Null | Undefined => result_without_warnings true []
  | Object proto fields =>
      let metadataSize :=
        match JSON_stringify metadata with
        | Some text => String_length text
        | None => 0               (* not reached: an object has a text *)
        end in
      let errors :=
        push_if (10000 <? metadataSize) (metadata_too_large_message metadataSize) [] in
      let errors :=
        fold_left (fun errs key =>
                     push_if (has_property key proto fields) (forbidden_key_message key) errs)
                  forbiddenKeys errors in
      result_without_warnings (no_errors errors) errors
  | _ => result_without_warnings false ["Metadata must be an object"]
  end.

(** The argument of [validateChatRequest] and [prepareChatRequest]:
    [conversation_id?: string | null] is absent ([None]), [null]
    ([Some None]) or a string; an absent [metadata] is [Undefined]. *)
Record ChatRequest := {
  message : string;
  conversation_id : option (option string);
  metadata : JsValue
}.

(** [errors.push(...xs)] under a condition. *)
Definition push_all_if (cond : bool) (xs : list string) (l : list string) : list string :=
  if cond then l ++ xs else l.

Definition validateChatRequest (request : ChatRequest) : ValidationResult :=
  let errs := [] in
  let warns := [] in
  let messageValidation := validateMessage (message request) in
  let '(errs, warns) :=
    if negb (isValid messageValidation) then
      (errs ++ errors messageValidation,
       match warnings messageValidation with
       | Some ws => warns ++ ws
       | None => warns
       end)
    else (errs, warns) in
  let errs :=
    match conversation_id request with
    | Some id =>
        let conversationValidation := validateConversationId id in
        push_all_if (negb (isValid conversationValidation))
                    (errors conversationValidation) errs
    | None => errs
    end in
  let errs :=
    match metadata request with
    | Undefined => errs
    | m =>
        let metadataValidation := validateMetadata m in
        push_all_if (negb (isValid metadataValidation))
                    (errors metadataValidation) errs
    end in
  result errs warns.

(** [response: any]. The three checks call [response.hasOwnProperty]. *)
Definition validateChatResponse (response : JsValue) : Completion ValidationResult :=
  match response with
  | Object proto fields =>
      do has_conversation_id <- hasOwnProperty proto fields "conversation_id";
      let errors :=
        push_if (negb has_conversation_id) "Response must include conversation_id" [] in
      do has_response <- hasOwnProperty proto fields "response";
      do has_response_or_message <-
        (if has_response then Return true
         else hasOwnProperty proto fields "message");
      let errors :=
        push_if (negb has_response_or_message)
                "Response must include response or message field" errors in
      do has_status <- hasOwnProperty proto fields "status";
      let errors :=
        push_if (negb has_status) "Response must include status field" errors in
      Return (result_without_warnings (no_errors errors) errors)
  | _ => Return (result_without_warnings false ["Response must be an object"])
  end.

Definition validateApiEndpoint (userId endpoint : string) : ValidationResult :=
  let errs := [] in
  let userIdValidation := validateUserId userId in
  let errs := push_all_if (negb (isValid userIdValidation)) (errors userIdValidation) errs in
  let errs :=
    if String.eqb endpoint "" then errs ++ ["Endpoint must be a valid string"]
    else if negb (startsWith "/" endpoint)
         then errs ++ [String.append "Endpoint must start with " (json_quote "/")]
         else errs in
  result_without_warnings (no_errors errs) errs.

Definition sanitizeMessage (message : string) : string :=
  let sanitized := replace_all (one_of "<>") "" message in
  let sanitized := replace_all (is_char double_quote) "&quot;" sanitized in
  let sanitized := replace_all (is_char "'") "&#39;" sanitized in
  let sanitized := replace_all (is_char "&") "&amp;" sanitized in
  sanitized.

Definition prepareChatRequest (request : ChatRequest) : ChatRequest * ValidationResult :=
  let validation := validateChatRequest request in
  if negb (isValid validation) then (request, validation)
  else
    let sanitizedRequest :=
      {| message := sanitizeMessage (message request);
         conversation_id := conversation_id request;
         metadata := metadata request |} in
    (sanitizedRequest, validation).

End Validation.

(* ===================================================================== *)
(** * Error normaliser (src/unnamed/part_000) *)
(* ===================================================================== *)

Module ErrorHandler.
Import Js.

(** The object literal [{ type, message, status, details }]. *)
Definition createChatKitError (type message : string) (status details : JsValue) : JsValue :=
  Object ObjectPrototype
    [ ("type", Str type); ("message", Str message);
      ("status", status); ("details", details) ].

(** [v.includes(needle)]: the string method when [v] is a string; reading
    the method off [undefined] or [null] throws, and on any other modelled
    value there is no such method to call. *)
Definition call_includes (v : JsValue) (needle : string) : Completion bool :=
  match v with
  | Str s => Return (includes needle s)
  | Undefined | Null =>
      Throw (TypeError "Cannot read properties of undefined or null (reading 'includes')")
  | _ => Throw (TypeError "includes is not a function")
  end.

(** [a === 'text']. *)
Definition strict_equals_string (a : JsValue) (text : string) : bool :=
  match a with
  | Str s => String.eqb s text
  | _ => false
  end.

Definition handleChatKitError (error : JsValue) : Completion JsValue :=
  (* if (error.type && error.message) return error; *)
  do type <- get error "type";
  do already <- (if truthy type
                 then do message <- get error "message"; Return (truthy message)
                 else Return false);
  if already then Return error
  else
    (* if (error.name === 'TypeError' || error.message.includes('fetch')) *)
    do name <- get error "name";
    do network <- (if strict_equals_string name "TypeError" then Return true
                   else do message <- get error "message";
                        call_includes message "fetch");
    if network then
      Return (createChatKitError "network"
                "Network connection failed. Please check your internet connection."
                Undefined error)
    else
      do status <- get error "status";
      if truthy status then
        match status with
        | Number 401 =>
            Return (createChatKitError "authentication"
                      "Authentication required. Please sign in to continue."
                      (Number 401) error)
        | Number 403 =>
            Return (createChatKitError "authentication"
                      "Access denied. Please verify your permissions."
                      (Number 403) error)
        | Number 422 =>
            Return (createChatKitError "validation"
                      "Invalid request data. Please check your input."
                      (Number 422) error)
        | Number 429 =>
            Return (createChatKitError "server"
                      "Rate limit exceeded. Please try again later."
                      (Number 429) error)
        | Number 500 | Number 502 | Number 503 | Number 504 =>
            Return (createChatKitError "server"
                      "Service temporarily unavailable. Please try again later."
                      status error)
        | _ =>
            do text <- ToString status;
            Return (createChatKitError "server"
                      ("Server error (" +:+ text +:+ "). Please try again.")
                      status error)
        end
      else
        Return (createChatKitError "unknown"
                  "An unexpected error occurred. Please try again."
                  Undefined error).

End ErrorHandler.

(* ===================================================================== *)
(** * The browser: [window], [localStorage], the clock, [JSON] on records *)
(* ===================================================================== *)

Module Browser.

(** The ambient state the library reads and writes. [window_defined] is
    [typeof window !== 'undefined']; [localStorage] maps a key to the text
    stored under it; the [n]-th evaluation of [new Date().toISOString()]
    yields [clock n]; [location_pathname] and [location_href] are the two
    properties of [window.location] in use. Calls on [localStorage] are
    taken to succeed (no quota, no denied access). *)
Record Env := {
  window_defined : bool;
  localStorage : gmap string string;
  clock : nat -> string;
  clock_reads : nat;
  location_pathname : string;
  location_href : string
}.

Definition with_localStorage (ls : gmap string string) (env : Env) : Env :=
  {| window_defined := window_defined env; localStorage := ls;
     clock := clock env; clock_reads := clock_reads env;
     location_pathname := location_pathname env;
     location_href := location_href env |}.

Definition getItem (key : string) (env : Env) : option string :=
  localStorage env !! key.

Definition setItem (key value : string) (env : Env) : Env :=
  with_localStorage (<[key := value]> (localStorage env)) env.

Definition removeItem (key : string) (env : Env) : Env :=
  with_localStorage (delete key (localStorage env)) env.

(** [new Date().toISOString()]: the reading and the environment after it. *)
Definition Date_now_toISOString (env : Env) : string * Env :=
  (clock env (clock_reads env),
   {| window_defined := window_defined env; localStorage := localStorage env;
      clock := clock env; clock_reads := S (clock_reads env);
      location_pathname := location_pathname env;
      location_href := location_href env |}).

Definition set_location_href (href : string) (env : Env) : Env :=
  {| window_defined := window_defined env; localStorage := localStorage env;
     clock := clock env; clock_reads := clock_reads env;
     location_pathname := location_pathname env;
     location_href := href |}.

(** [JSON.stringify] and [JSON.parse] at the type [A] a call site declares
    for the text. [JSON_parse_as] answers [None] where the call throws or
    yields something that is not of that type. *)
Class JsonCodec (A : Type) := {
  JSON_stringify_as : A -> string;
  JSON_parse_as : string -> option A
}.

(** [!s] for [s: string | null]. *)
Definition falsy (s : option string) : bool :=
  match s with
  | None => true
  | Some s => String.eqb s ""
  end.

End Browser.

(* ===================================================================== *)
(** * Auth store (src/src/lib/auth-helper.ts) *)
(* ===================================================================== *)

Module AuthHelper.
Import Browser.

Definition TOKEN_KEY : string := "access_token".
Definition USER_KEY : string := "user".

Record StoredUser := {
  user_id : string;
  user_name : string;
  user_email : string
}.

#[export] Instance StoredUser_eq_dec : EqDecision StoredUser.
Proof. solve_decision. Defined.

Section WithJson.
Context `{JsonCodec StoredUser}.

Definition storeAuth (token : string) (user : StoredUser) (env : Env) : Env :=
  if window_defined env then
    setItem USER_KEY (JSON_stringify_as user) (setItem TOKEN_KEY token env)
  else env.

Definition getStoredUser (env : Env) : option StoredUser :=
  if negb (window_defined env) then None
  else
    let userJson := getItem USER_KEY env in
    if falsy userJson then None
    else match userJson with
         | Some text => JSON_parse_as text
         | None => None
         end.

End WithJson.

Definition getToken (env : Env) : option string :=
  if negb (window_defined env) then None
  else getItem TOKEN_KEY env.

Definition clearAuth (env : Env) : Env :=
  if window_defined env then removeItem USER_KEY (removeItem TOKEN_KEY env)
  else env.

Definition isAuthenticated (env : Env) : bool :=
  match getToken env with
  | Some _ => true
  | None => false
  end.

End AuthHelper.

(* ===================================================================== *)
(** * Conversation cache (src/src/lib/conversation-storage.ts) *)
(* ===================================================================== *)

Module ConversationStorage.
Import Browser.

Definition CONVERSATION_STORAGE_KEY : string := "chatkit_conversations".
Definition CURRENT_CONVERSATION_KEY : string := "chatkit_current_conversation".

(** An optional property is [None] when the object has no such key. *)
Record ConversationMetadata := {
  id : string;
  userId : string;
  title : option string;
  createdAt : string;
  updatedAt : string;
  lastMessage : option string
}.

#[export] Instance ConversationMetadata_eq_dec : EqDecision ConversationMetadata.
Proof. solve_decision. Defined.

(** [{ ...old, ...conversation, updatedAt: now }]: every key of
    [conversation] wins, and the keys its type requires are always there; an
    optional key it lacks keeps the value of [old]. *)
Definition spread_update (old conversation : ConversationMetadata) (now : string)
  : ConversationMetadata :=
  {| id := id conversation;
     userId := userId conversation;
     title := match title conversation with Some t => Some t | None => title old end;
     createdAt := createdAt conversation;
     updatedAt := now;
     lastMessage := match lastMessage conversation with
                    | Some m => Some m
                    | None => lastMessage old
                    end |}.

(** [{ ...conversation, createdAt: created, updatedAt: now }]. *)
Definition spread_new (conversation : ConversationMetadata) (created now : string)
  : ConversationMetadata :=
  {| id := id conversation;
     userId := userId conversation;
     title := title conversation;
     createdAt := created;
     updatedAt := now;
     lastMessage := lastMessage conversation |}.

(** [l.findIndex(p)], with [None] for [-1]. *)
Fixpoint findIndex {A} (p : A -> bool) (l : list A) : option nat :=
  match l with
  | [] => None
  | x :: rest => if p x then Some 0%nat else S <$> findIndex p rest
  end.

Definition has_id (i : string) (conv : ConversationMetadata) : bool :=
  String.eqb (id conv) i.

Definition of_user (u : string) (conv : ConversationMetadata) : bool :=
  String.eqb (userId conv) u.

Definition getCurrentConversationId (env : Env) : option string :=
  if negb (window_defined env) then None
  else getItem CURRENT_CONVERSATION_KEY env.

(** [conversationId: string | null]. *)
Definition setCurrentConversationId (conversationId : option string) (env : Env) : Env :=
  if negb (window_defined env) then env
  else if negb (falsy conversationId) then
         match conversationId with
         | Some cid => setItem CURRENT_CONVERSATION_KEY cid env
         | None => env
         end
       else removeItem CURRENT_CONVERSATION_KEY env.

(** What the cache relies on: parsing undoes stringifying, the text of the
    empty array parses to the empty array, and no array has an empty text. *)
Class JsonLaws `{JsonCodec (list ConversationMetadata)} : Prop := {
  parse_stringify :
    forall l : list ConversationMetadata, JSON_parse_as (JSON_stringify_as l) = Some l;
  parse_empty_array :
    JSON_parse_as "[]" = Some ([] : list ConversationMetadata);
  stringify_not_empty :
    forall l : list ConversationMetadata, JSON_stringify_as l <> EmptyString
}.

Section WithJson.
Context `{JsonCodec (list ConversationMetadata)}.

Definition getUserConversations (user : string) (env : Env) : list ConversationMetadata :=
  if negb (window_defined env) then []
  else
    let stored := getItem CONVERSATION_STORAGE_KEY env in
    if falsy stored then []
    else
      match stored with
      | Some text =>
          match JSON_parse_as text with
          | Some allConversations => List.filter (of_user user) allConversations
          | None => []          (* caught and logged *)
          end
      | None => []
      end.

Definition saveConversation (conversation : ConversationMetadata) (env : Env) : Env :=
  if negb (window_defined env) then env
  else
    let existing := getUserConversations (userId conversation) env in
    let existingIndex := findIndex (has_id (id conversation)) existing in
    let '(existing, env) :=
      match existingIndex with
      | Some i =>
          match existing !! i with
          | Some old =>
              let '(now, env) := Date_now_toISOString env in
              (<[i := spread_update old conversation now]> existing, env)
          | None => (existing, env)   (* not reached: [i] is an index of [existing] *)
          end
      | None =>
          let '(created, env) :=
            if negb (String.eqb (createdAt conversation) "")
            then (createdAt conversation, env)
            else Date_now_toISOString env in
          let '(now, env) := Date_now_toISOString env in
          (existing ++ [spread_new conversation created now], env)
      end in
    setItem CONVERSATION_STORAGE_KEY (JSON_stringify_as existing) env.

(** [localStorage.getItem(CONVERSATION_STORAGE_KEY) || '[]']. *)
Definition stored_or_empty_array (env : Env) : string :=
  match getItem CONVERSATION_STORAGE_KEY env with
  | Some text => if String.eqb text "" then "[]" else text
  | None => "[]"
  end.

Definition removeConversation (conversationId user : string) (env : Env) : Env :=
  if negb (window_defined env) then env
  else
    let existing := getUserConversations user env in
    let filtered := List.filter (fun conv => negb (has_id conversationId conv)) existing in
    match JSON_parse_as (stored_or_empty_array env) with
    | Some allConversations =>
        let otherUsersConversations :=
          List.filter (fun conv => negb (of_user user conv)) allConversations in
        let updatedConversations := otherUsersConversations ++ filtered in
        setItem CONVERSATION_STORAGE_KEY (JSON_stringify_as updatedConversations) env
    | None => env               (* caught and logged *)
    end.

Definition clearUserConversations (user : string) (env : Env) : Env :=
  if negb (window_defined env) then env
  else
    match JSON_parse_as (stored_or_empty_array env) with
    | Some allConversations =>
        let filtered := List.filter (fun conv => negb (of_user user conv)) allConversations in
        let env := setItem CONVERSATION_STORAGE_KEY (JSON_stringify_as filtered) env in
        let currentId := getCurrentConversationId env in
        if negb (falsy currentId) then
          match currentId with
          | Some cid =>
              match List.find (fun conv => has_id cid conv && of_user user conv)
                              allConversations with
              | Some _ => setCurrentConversationId None env
              | None => env
              end
          | None => env
          end
        else env
    | None => env               (* caught and logged *)
    end.

End WithJson.

End ConversationStorage.

(* ===================================================================== *)
(** * HTTP: what the clients hand to [fetch] and get back *)
(* ===================================================================== *)

Module Http.
Import Js.

Definition Headers := list (string * string).

(** [headers[name] = value]: overwrites in place or appends. *)
Fixpoint set_header (name value : string) (headers : Headers) : Headers :=
  match headers with
  | [] => [(name, value)]
  | (k, v) :: rest =>
      if String.eqb k name then (k, value) :: rest
      else (k, v) :: set_header name value rest
  end.

(** [{ ...base, ...extra }]. *)
Definition spread_headers (base extra : Headers) : Headers :=
  fold_left (fun acc kv => set_header kv.1 kv.2 acc) extra base.

(** [RequestInit]: the options a caller passes. *)
Record RequestInit := {
  init_method : option string;
  init_headers : Headers;
  init_body : option string
}.

Definition no_options : RequestInit :=
  {| init_method := None; init_headers := []; init_body := None |}.

Record Request := {
  url : string;
  method : option string;
  headers : Headers;
  body : option string
}.

(** A response: its status line and what [response.json()] settles to. *)
Record Response := {
  status : Z;
  statusText : string;
  json : Completion JsValue
}.

(** [response.ok]. *)
Definition ok (response : Response) : bool :=
  (200 <=? status response) && (status response <=? 299).

(** What [await fetch(...)] gives: a response, or the rejection raised when
    the network fails. *)
Inductive FetchResult :=
| Resolves (response : Response)
| Rejects (e : Exception).

(** [response.json().catch(() => fallback)]. *)
Definition json_or (fallback : JsValue) (response : Response) : JsValue :=
  match json response with
  | Return v => v
  | Throw _ => fallback
  end.

Definition upper_hex_digit (n : nat) : ascii :=
  match List.nth_error (list_ascii_of_string "0123456789ABCDEF") n with
  | Some c => c
  | None => "0"%char
  end.

Definition percent_byte (n : nat) : string :=
  String "%" (String (upper_hex_digit (n / 16))
                     (String (upper_hex_digit (n mod 16)) EmptyString)).

Definition uri_unreserved (c : ascii) : bool :=
  in_range "A" "Z" c || in_range "a" "z" c || in_range "0" "9" c
  || one_of "-_.!~*'()" c.

(** [encodeURIComponent] on the code units 0..255: unreserved characters
    stay, the others become the percent-encoded bytes of their UTF-8 form. *)
Fixpoint encodeURIComponent (s : string) : string :=
  match s with
  | EmptyString => EmptyString
  | String c rest =>
      let n := nat_of_ascii c in
      (if uri_unreserved c then String c EmptyString
       else if (n <? 128)%nat then percent_byte n
            else percent_byte (192 + n / 64) +:+ percent_byte (128 + n mod 64))
        +:+ encodeURIComponent rest
  end.

End Http.

(* ===================================================================== *)
(** * Request clients *)
(* ===================================================================== *)

Module Clients.
Import Js Browser AuthHelper Http.

Section WithFetch.

(** The network: the outcome of each request. *)
Variable fetch : Request -> FetchResult.

(** [`Bearer ${token}`]. *)
Definition bearer (token : string) : string := "Bearer " +:+ token.

Definition http_error_status (response : Response) : string :=
  "HTTP error! status: " +:+ Number_toString (status response).

(** ** src/src/lib/api/reminder_client.ts *)

(** [new ReminderClient()]: [baseUrl] is [process.env.NEXT_PUBLIC_API_URL || '']. *)
Record ReminderClient := { reminder_baseUrl : string }.

(** The error branch shared by [request] and [deleteReminder], after the
    401 case: [throw new Error(errorData.detail || `HTTP error! ...`)]. *)
Definition throw_detail_or_status {A} (response : Response) : Completion A :=
  let errorData := json_or (Object ObjectPrototype []) response in
  do detail <- get errorData "detail";
  do errorMessage <- (if truthy detail then ToString detail
                      else Return (http_error_status response));
  Throw (Error errorMessage).

Definition ReminderClient_request (this : ReminderClient)
    (endpoint : string) (options : RequestInit) (env : Env)
  : Env * Completion JsValue :=
  let url := reminder_baseUrl this +:+ endpoint in
  let token := getToken env in
  let headers :=
    spread_headers [("Content-Type", "application/json")] (init_headers options) in
  let headers :=
    match token with
    | Some t => if negb (String.eqb t "") then set_header "Authorization" (bearer t) headers
                else headers
    | None => headers
    end in
  match fetch {| url := url; method := init_method options;
                 headers := headers; body := init_body options |} with
  | Rejects e => (env, Throw e)
  | Resolves response =>
      if negb (ok response) then
        if status response =? 401 then
          (clearAuth env, Throw (Error "Authentication failed. Please log in again."))
        else (env, throw_detail_or_status response)
      else (env, json response)
  end.

Definition ReminderClient_deleteReminder (this : ReminderClient)
    (userId reminderId : string) (env : Env)
  : Env * Completion unit :=
  let token := getToken env in
  let headers := [("Content-Type", "application/json")] in
  let headers :=
    match token with
    | Some t => if negb (String.eqb t "") then set_header "Authorization" (bearer t) headers
                else headers
    | None => headers
    end in
  let url := reminder_baseUrl this +:+ "/api/" +:+ userId +:+ "/reminders/" +:+ reminderId in
  match fetch {| url := url; method := Some "DELETE"; headers := headers; body := None |} with
  | Rejects e => (env, Throw e)
  | Resolves response =>
      if negb (ok response) then
        if status response =? 401 then
          (clearAuth env, Throw (Error "Authentication failed. Please log in again."))
        else (env, throw_detail_or_status response)
      else (env, Return tt)
  end.

(** ** src/unnamed/part_001: the chat client *)

(** [new ChatAPIClient(options)]: [baseUrl] is [options.baseUrl ||
    process.env.NEXT_PUBLIC_API_BASE_URL || 'http://localhost:8000']. *)
Record ChatAPIClient := { chat_baseUrl : string }.

Record ChatRequest := {
  chat_message : string;
  chat_conversation_id : option string
}.

Definition ChatRequest_to_value (request : ChatRequest) : JsValue :=
  Object ObjectPrototype
    [ ("message", Str (chat_message request));
      ("conversation_id", match chat_conversation_id request with
                          | Some c => Str c
                          | None => Undefined
                          end) ].

Definition ChatAPIClient_sendMessage (this : ChatAPIClient)
    (userId : string) (request : ChatRequest) (env : Env)
  : Env * Completion JsValue :=
  let token := match getToken env with
               | Some t => t            (* [getToken() || ''] *)
               | None => ""
               end in
  match fetch {| url := chat_baseUrl this +:+ "/api/" +:+ userId +:+ "/chat";
                 method := Some "POST";
                 headers := [ ("Content-Type", "application/json");
                              ("Authorization", bearer token) ];
                 body := JSON_stringify (ChatRequest_to_value request) |} with
  | Rejects e => (env, Throw e)
  | Resolves response =>
      if negb (ok response) then (env, Throw (Error (http_error_status response)))
      else (env, json response)
  end.

(** ** src/src/lib/api-conversation-wrapper.ts *)

(** [process.env.NEXT_PUBLIC_API_URL || 'http://localhost:8000']. *)
Variable API_BASE_URL : string.

(** [throw new Error(errorData.detail || errorData.error || `HTTP error! ...`)]
    with [{ error: 'Unknown error' }] standing in for an unreadable body. *)
Definition throw_detail_or_error {A} (response : Response) : Completion A :=
  let errorData :=
    json_or (Object ObjectPrototype [("error", Str "Unknown error")]) response in
  do detail <- get errorData "detail";
  do errorMessage <-
    (if truthy detail then ToString detail
     else do error <- get errorData "error";
          if truthy error then ToString error
          else Return (http_error_status response));
  Throw (Error errorMessage).

(** What [fetchUserConversations] resolves to: [data.conversations] when
    it is truthy, and a new empty array otherwise. *)
Inductive ConversationList :=
| FromBackend (conversations : JsValue)
| EmptyArray.

Definition fetchUserConversations (userId : string) (env : Env)
  : Env * Completion ConversationList :=
  match getToken env with
  | Some token =>
      if String.eqb token "" then (env, Throw (Error "User not authenticated"))
      else
        match fetch {| url := API_BASE_URL +:+ "/api/" +:+ userId +:+ "/conversations";
                       method := Some "GET";
                       headers := [ ("Content-Type", "application/json");
                                    ("Authorization", bearer token) ];
                       body := None |} with
        | Rejects e => (env, Throw e)
        | Resolves response =>
            if negb (ok response) then (env, throw_detail_or_error response)
            else (env, do data <- json response;
                       do conversations <- get data "conversations";
                       Return (if truthy conversations then FromBackend conversations
                               else EmptyArray))
        end
  | None => (env, Throw (Error "User not authenticated"))
  end.

Definition fetchConversation (userId conversationId : string) (env : Env)
  : Env * Completion JsValue :=
  match getToken env with
  | Some token =>
      if String.eqb token "" then (env, Throw (Error "User not authenticated"))
      else
        match fetch {| url := API_BASE_URL +:+ "/api/" +:+ userId
                                +:+ "/conversations/" +:+ conversationId;
                       method := Some "GET";
                       headers := [ ("Content-Type", "application/json");
                                    ("Authorization", bearer token) ];
                       body := None |} with
        | Rejects e => (env, Throw e)
        | Resolves response =>
            if negb (ok response) then (env, throw_detail_or_error response)
            else (env, json response)
        end
  | None => (env, Throw (Error "User not authenticated"))
  end.

(** [title || undefined]. *)
Definition title_or_undefined (title : option string) : JsValue :=
  match title with
  | Some t => if String.eqb t "" then Undefined else Str t
  | None => Undefined
  end.

Definition createConversation (userId : string) (title : option string) (env : Env)
  : Env * Completion JsValue :=
  match getToken env with
  | Some token =>
      if String.eqb token "" then (env, Throw (Error "User not authenticated"))
      else
        match fetch {| url := API_BASE_URL +:+ "/api/" +:+ userId +:+ "/conversations";
                       method := Some "POST";
                       headers := [ ("Content-Type", "application/json");
                                    ("Authorization", bearer token) ];
                       body := JSON_stringify
                                 (Object ObjectPrototype
                                    [("title", title_or_undefined title)]) |} with
        | Rejects e => (env, Throw e)
        | Resolves response =>
            if negb (ok response) then (env, throw_detail_or_error response)
            else (env, json response)
        end
  | None => (env, Throw (Error "User not authenticated"))
  end.

Definition updateConversation (userId conversationId : string) (updates : JsValue)
    (env : Env) : Env * Completion JsValue :=
  match getToken env with
  | Some token =>
      if String.eqb token "" then (env, Throw (Error "User not authenticated"))
      else
        match fetch {| url := API_BASE_URL +:+ "/api/" +:+ userId
                                +:+ "/conversations/" +:+ conversationId;
                       method := Some "PUT";
                       headers := [ ("Content-Type", "application/json");
                                    ("Authorization", bearer token) ];
                       body := JSON_stringify updates |} with
        | Rejects e => (env, Throw e)
        | Resolves response =>
            if negb (ok response) then (env, throw_detail_or_error response)
            else (env, json response)
        end
  | None => (env, Throw (Error "User not authenticated"))
  end.

Definition deleteConversation (userId conversationId : string) (env : Env)
  : Env * Completion unit :=
  match getToken env with
  | Some token =>
      if String.eqb token "" then (env, Throw (Error "User not authenticated"))
      else
        match fetch {| url := API_BASE_URL +:+ "/api/" +:+ userId
                                +:+ "/conversations/" +:+ conversationId;
                       method := Some "DELETE";
                       headers := [ ("Content-Type", "application/json");
                                    ("Authorization", bearer token) ];
                       body := None |} with
        | Rejects e => (env, Throw e)
        | Resolves response =>
            if negb (ok response) then (env, throw_detail_or_error response)
            else (env, Return tt)
        end
  | None => (env, Throw (Error "User not authenticated"))
  end.

(** ** src/unnamed/part_003: the primary API module *)

Record ApiResponse := {
  data : JsValue;
  error : JsValue;
  response_status : Z
}.

Definition handleUnauthorized (env : Env) : Env :=
  let env := clearAuth env in
  if window_defined env then
    let currentPath := location_pathname env in
    let loginUrl := "/login?redirect=" +:+ encodeURIComponent currentPath in
    set_location_href loginUrl env
  else env.

(** [error instanceof Error ? error.message : "Unknown error"]: both kinds
    of exception in the model are instances of [Error]. *)
Definition exception_message (e : Exception) : string :=
  match e with
  | TypeError m => m
  | Error m => m
  end.

Definition caught (e : Exception) : ApiResponse :=
  {| data := Null; error := Str (exception_message e); response_status := 0 |}.

Definition apiRequest (endpoint : string) (options : RequestInit) (env : Env)
  : Env * ApiResponse :=
  let token := getToken env in
  let headers :=
    spread_headers [("Content-Type", "application/json")] (init_headers options) in
  let headers :=
    match token with
    | Some t => if negb (String.eqb t "") then set_header "Authorization" (bearer t) headers
                else headers
    | None => headers
    end in
  match fetch {| url := API_BASE_URL +:+ endpoint; method := init_method options;
                 headers := headers; body := init_body options |} with
  | Rejects e => (env, caught e)
  | Resolves response =>
      if status response =? 401 then
        (handleUnauthorized env,
         {| data := Null; error := Str "Unauthorized - Please log in again";
            response_status := 401 |})
      else if negb (ok response) then
        let errorMessage := Str ("HTTP " +:+ Number_toString (status response)) in
        let errorMessage :=
          match (do errorData <- json response; get errorData "detail") with
          | Return detail => if truthy detail then detail else errorMessage
          | Throw _ => errorMessage      (* JSON parse errors are ignored *)
          end in
        (env, {| data := Null; error := errorMessage;
                 response_status := status response |})
      else
        match json response with
        | Return d => (env, {| data := d; error := Null;
                               response_status := status response |})
        | Throw e => (env, caught e)
        end
  end.

End WithFetch.

End Clients.

(* ===================================================================== *)
(** * A concrete codec *)
(* ===================================================================== *)

(** An instance of [JsonCodec] on which the storage functions run: the text
    of a list is the two brackets when the list is empty and otherwise an
    opening bracket followed by the binary numeral of the list's code. It
    obeys [JsonLaws]. *)
Module BinaryCodec.
Import Browser AuthHelper ConversationStorage.

Fixpoint bits (p : positive) : string :=
  match p with
  | xH => EmptyString
  | xO q => String "0" (bits q)
  | xI q => String "1" (bits q)
  end.

Fixpoint of_bits (s : string) : option positive :=
  match s with
  | EmptyString => Some xH
  | String c rest =>
      if Ascii.eqb c "0" then xO <$> of_bits rest
      else if Ascii.eqb c "1" then xI <$> of_bits rest
      else None
  end.

Definition to_tuple (c : ConversationMetadata)
  : string * string * option string * string * string * option string :=
  (id c, userId c, title c, createdAt c, updatedAt c, lastMessage c).

Definition of_tuple
    (t : string * string * option string * string * string * option string)
  : ConversationMetadata :=
  let '(i, u, t, c, m, l) := t in
  {| id := i; userId := u; title := t; createdAt := c; updatedAt := m; lastMessage := l |}.

#[export] Instance ConversationMetadata_countable : Countable ConversationMetadata.
Proof. apply (inj_countable' to_tuple of_tuple). by intros []. Defined.

Definition user_to_tuple (u : AuthHelper.StoredUser) : string * string * string :=
  (AuthHelper.user_id u, AuthHelper.user_name u, AuthHelper.user_email u).

Definition user_of_tuple (t : string * string * string) : AuthHelper.StoredUser :=
  let '(i, n, e) := t in
  {| AuthHelper.user_id := i; AuthHelper.user_name := n; AuthHelper.user_email := e |}.

#[export] Instance StoredUser_countable : Countable AuthHelper.StoredUser.
Proof. apply (inj_countable' user_to_tuple user_of_tuple). by intros []. Defined.

(** The text of a stored user: an opening brace and the numeral of its code. *)
#[export] Instance user_codec : JsonCodec AuthHelper.StoredUser := {|
  JSON_stringify_as u := String "{" (bits (encode u));
  JSON_parse_as text :=
    match text with
    | String "{"%char numeral => of_bits numeral ≫= decode
    | _ => None
    end
|}.

#[export] Instance codec : JsonCodec (list ConversationMetadata) := {|
  JSON_stringify_as l :=
    match l with
    | [] => "[]"
    | _ => String "[" (bits (encode l))
    end;
  JSON_parse_as text :=
    if String.eqb text "[]" then Some []
    else match text with
         | String "["%char numeral => of_bits numeral ≫= decode
         | _ => None
         end
|}.

End BinaryCodec.

(* ===================================================================== *)
(** * Error boundary and response check (src/unnamed/part_000) *)
(* ===================================================================== *)

Module ErrorBoundary.
Import Js ErrorHandler Http.

(** How a promise settles: with a value, with a thrown error instance, or
    with a thrown value that is not an error instance. *)
Inductive Settled (A : Type) :=
| Fulfilled (a : A)
| RejectedWith (e : Exception)
| RejectedWithValue (v : JsValue).
Arguments Fulfilled {A} a.
Arguments RejectedWith {A} e.
Arguments RejectedWithValue {A} v.

(** [createChatKitError] at a call site whose message is not known to be a
    string: the same object literal. *)
Definition createChatKitError_any (type : string) (message status details : JsValue)
  : JsValue :=
  Object ObjectPrototype
    [ ("type", Str type); ("message", message);
      ("status", status); ("details", details) ].

(** [a || b]. *)
Definition or_else (a b : JsValue) : JsValue := if truthy a then a else b.

(** [v?.key]. *)
Definition get_optional (v : JsValue) (key : string) : Completion JsValue :=
  match v with
  | Undefined | Null => Return Undefined
  | _ => get v key
  end.

(** [`HTTP ${response.status}: ${response.statusText}`]. *)
Definition http_status_line (response : Response) : string :=
  "HTTP " +:+ Number_toString (status response) +:+ ": " +:+ statusText response.

Definition validateApiResponse (response : Response) : Settled JsValue :=
  if negb (ok response) then
    let errorBody := json_or (Object ObjectPrototype []) response in
    match (do error <- get errorBody "error";
           do message <- get_optional error "message";
           do detail <- get errorBody "detail";
           Return (or_else (or_else message detail) (Str (http_status_line response)))) with
    | Return errorMessage =>
        RejectedWithValue
          (createChatKitError_any "server" errorMessage (Number (status response)) errorBody)
    | Throw e => RejectedWith e
    end
  else
    match json response with
    | Return v => Fulfilled v
    | Throw e => RejectedWith e
    end.

(** An error instance as a value: its [name] and [message]. *)
Definition exception_value (e : Exception) : JsValue :=
  match e with
  | TypeError m => Object ObjectPrototype [("name", Str "TypeError"); ("message", Str m)]
  | Error m => Object ObjectPrototype [("name", Str "Error"); ("message", Str m)]
  end.

(** The two shapes [execute] resolves to. *)
Inductive ExecuteResult :=
| Success (data : JsValue)          (* [{ success: true, data }] *)
| Failure (error : JsValue).        (* [{ success: false, error }] *)

Section WithWorld.

(** Whatever the registered callback acts on. A callback is taken to
    return normally. *)
Variable World : Type.

(** [class ChatKitErrorBoundary]: its one field. *)
Record ChatKitErrorBoundary := {
  onErrorCallback : option (JsValue -> World -> World)
}.

(** [new ChatKitErrorBoundary(onError)]. *)
Definition new_ChatKitErrorBoundary (onError : option (JsValue -> World -> World))
  : ChatKitErrorBoundary :=
  {| onErrorCallback := onError |}.

(** [boundary.onError(callback)]. *)
Definition onError (callback : JsValue -> World -> World) (this : ChatKitErrorBoundary)
  : ChatKitErrorBoundary :=
  {| onErrorCallback := Some callback |}.

(** The [catch] block of [execute]. *)
Definition execute_catch (this : ChatKitErrorBoundary) (rawError : JsValue) (world : World)
  : Completion ExecuteResult * World :=
  match handleChatKitError rawError with
  | Return error =>
      let world :=
        match onErrorCallback this with
        | Some callback => callback error world
        | None => world
        end in
      (Return (Failure error), world)
  | Throw e => (Throw e, world)
  end.

(** [boundary.execute(fn)], given how [fn()] settles. *)
Definition execute (this : ChatKitErrorBoundary) (settled : Settled JsValue) (world : World)
  : Completion ExecuteResult * World :=
  match settled with
  | Fulfilled data => (Return (Success data), world)
  | RejectedWith e => execute_catch this (exception_value e) world
  | RejectedWithValue v => execute_catch this v world
  end.

End WithWorld.

Arguments onErrorCallback {World} _.
Arguments new_ChatKitErrorBoundary {World} _.
Arguments onError {World} _ _.
Arguments execute_catch {World} _ _ _.
Arguments execute {World} _ _ _.

End ErrorBoundary.

(* ===================================================================== *)
(** * More request clients *)
(* ===================================================================== *)

Module MoreClients.
Import Js Browser AuthHelper Http Clients.

Section WithFetch.

Variable fetch : Request -> FetchResult.

(** [process.env.NEXT_PUBLIC_API_URL || 'http://localhost:8000']. *)
Variable API_BASE_URL : string.

(** ** src/unnamed/part_003, chat adapter: [sendMessage] *)

(** [{ message, conversation_id: conversationId }]. *)
Definition SendMessageRequest_to_value (message : string) (conversationId : option string)
  : JsValue :=
  Object ObjectPrototype
    [ ("message", Str message);
      ("conversation_id", match conversationId with
                          | Some c => Str c
                          | None => Undefined
                          end) ].

Definition sendMessage (userId message : string) (conversationId : option string) (env : Env)
  : Env * Completion JsValue :=
  match getToken env with
  | Some token =>
      if String.eqb token "" then (env, Throw (Error "User not authenticated"))
      else
        match fetch {| url := API_BASE_URL +:+ "/api/" +:+ userId +:+ "/chat";
                       method := Some "POST";
                       headers := [ ("Content-Type", "application/json");
                                    ("Authorization", bearer token) ];
                       body := JSON_stringify
                                 (SendMessageRequest_to_value message conversationId) |} with
        | Rejects e => (env, Throw e)
        | Resolves response =>
            if negb (ok response) then (env, throw_detail_or_error response)
            else (env, json response)
        end
  | None => (env, Throw (Error "User not authenticated"))
  end.

(** ** src/src/lib/api/reminder_client.ts: [createReminder] *)

Record CreateReminderRequest := {
  user_id : string;
  task_id : string;
  remind_at : string;
  repeat_interval_minutes : option Z;
  repeat_count : option Z
}.

(** [reminderData.repeat_interval_minutes && reminderData.repeat_count] as a
    condition: both present and neither zero. *)
Definition both_repeat_fields (reminderData : CreateReminderRequest) : option (Z * Z) :=
  match repeat_interval_minutes reminderData, repeat_count reminderData with
  | Some interval, Some count =>
      if negb (interval =? 0) && negb (count =? 0) then Some (interval, count) else None
  | _, _ => None
  end.

Definition createReminder (this : ReminderClient) (reminderData : CreateReminderRequest)
    (env : Env) : Env * Completion JsValue :=
  let body := [ ("task_id", Str (task_id reminderData));
                ("remind_at", Str (remind_at reminderData)) ] in
  let body :=
    match both_repeat_fields reminderData with
    | Some (interval, count) =>
        body ++ [ ("repeat_interval_minutes", Number interval);
                  ("repeat_count", Number count) ]
    | None => body
    end in
  ReminderClient_request fetch this
    ("/api/" +:+ user_id reminderData +:+ "/reminders")
    {| init_method := Some "POST";
       init_headers := [("Content-Type", "application/json")];
       init_body := JSON_stringify (Object ObjectPrototype body) |}
    env.

End WithFetch.

(** ** src/unnamed/part_003, chat adapter: [getLastConversation] *)

(** [`last-conversation-${userId}`]. *)
Definition last_conversation_key (userId : string) : string :=
  "last-conversation-" +:+ userId.

(** [{ conversation_id: '' }]. *)
Definition no_last_conversation : JsValue :=
  Object ObjectPrototype [("conversation_id", Str "")].

Section WithJson.
Context `{JsonCodec JsValue}.

(** The inner [try]: what the parsed cache gives, [None] when it has no
    truthy [conversationId] or reading it throws. *)
Definition cached_last_conversation (text : string) : option JsValue :=
  match JSON_parse_as text with
  | Some cached =>
      match get cached "conversationId" with
      | Return conversationId =>
          if truthy conversationId then
            match get cached "title", get cached "lastActivity" with
            | Return title, Return lastActivity =>
                Some (Object ObjectPrototype
                        [ ("conversation_id", conversationId);
                          ("title", title);
                          ("updated_at", lastActivity) ])
            | _, _ => None
            end
          else None
      | Throw _ => None         (* caught and logged *)
      end
  | None => None                (* caught and logged *)
  end.

(** The function reads [localStorage] without asking for [window]: outside
    a browser the access throws, and the outer [catch] logs and rethrows. *)
Definition getLastConversation (userId : string) (env : Env) : Completion JsValue :=
  if negb (window_defined env) then Throw (Error "localStorage is not defined")
  else
    let cachedLastConversation := getItem (last_conversation_key userId) env in
    if falsy cachedLastConversation then Return no_last_conversation
    else
      match cachedLastConversation with
      | Some text =>
          match cached_last_conversation text with
          | Some found => Return found
          | None => Return no_last_conversation
          end
      | None => Return no_last_conversation
      end.

End WithJson.

End MoreClients.

(* ===================================================================== *)
(** * Loading state and call limiting (src/src/lib/loadingState.tsx) *)
(* ===================================================================== *)

Module LoadingStateHooks.

(** [progress] is an integer here. [error] is [None] when the object has no
    such key. *)
Record LoadingState := {
  isLoading : bool;
  progress : Z;
  message : string;
  error : option string
}.

(** The initial state of [useLoadingState]. *)
Definition initial : LoadingState :=
  {| isLoading := false; progress := 0; message := ""; error := None |}.

(** Each callback of the hook, as the state it makes of the previous one.
    An omitted argument is [None]. *)

Definition startLoading (message : option string) (prev : LoadingState) : LoadingState :=
  {| isLoading := true; progress := 0;
     message := match message with Some m => m | None => "Loading..." end;
     error := None |}.

Definition updateProgress (progress : Z) (message : option string) (prev : LoadingState)
  : LoadingState :=
  {| isLoading := isLoading prev;
     progress := progress;
     message := match message with        (* [message || prev.message] *)
                | Some m => if String.eqb m "" then LoadingStateHooks.message prev else m
                | None => LoadingStateHooks.message prev
                end;
     error := error prev |}.

Definition stopLoading (prev : LoadingState) : LoadingState :=
  {| isLoading := false; progress := 100; message := "Completed"; error := None |}.

Definition setError (error : string) (prev : LoadingState) : LoadingState :=
  {| isLoading := false; progress := progress prev;
     message := message prev; error := Some error |}.

Definition reset (prev : LoadingState) : LoadingState :=
  {| isLoading := false; progress := 0; message := ""; error := None |}.

(** A call of one of the callbacks. *)
Inductive Call :=
| StartLoading (message : option string)
| UpdateProgress (progress : Z) (message : option string)
| StopLoading
| SetError (error : string)
| Reset.

Definition apply_call (state : LoadingState) (call : Call) : LoadingState :=
  match call with
  | StartLoading m => startLoading m state
  | UpdateProgress p m => updateProgress p m state
  | StopLoading => stopLoading state
  | SetError e => setError e state
  | Reset => reset state
  end.

(** The state of the hook after a sequence of calls. *)
Definition after (calls : list Call) : LoadingState :=
  fold_left apply_call calls initial.

(** What [ChatKitLoadingIndicator] displays: the message, the percentage
    under the bar when there is a bar, and the error text when there is an
    error block. Styling is left out. *)
Record IndicatorView := {
  shown_message : string;
  shown_percentage : option string;
  shown_error : option string
}.

(** [None] is the [null] the component returns. *)
Definition ChatKitLoadingIndicator (loadingState : LoadingState) : option IndicatorView :=
  if negb (isLoading loadingState) then None
  else
    Some {| shown_message := message loadingState;
            shown_percentage :=
              if 0 <? progress loadingState
              then Some (Js.Number_toString (progress loadingState) +:+ "%")
              else None;
            shown_error :=
              match error loadingState with
              | Some e => if String.eqb e "" then None else Some ("Error: " +:+ e)
              | None => None
              end |}.

(** ** [throttle] *)

(** The closure [throttle(func, delay)] returns keeps [lastCall]; a call
    reads [Date.now()] and runs [func] or not. *)
Record Throttle := {
  delay : Z;
  lastCall : Z
}.

Definition throttle (delay : Z) : Throttle := {| delay := delay; lastCall := 0 |}.

(** One call at clock reading [now]: whether [func] ran, and the closure
    afterwards. *)
Definition throttled_call (now : Z) (t : Throttle) : bool * Throttle :=
  if delay t <=? now - lastCall t
  then (true, {| delay := delay t; lastCall := now |})
  else (false, t).

(** The clock readings at which [func] ran, for calls made at the given
    readings. *)
Fixpoint runs (t : Throttle) (readings : list Z) : list Z :=
  match readings with
  | [] => []
  | now :: rest =>
      let '(ran, t') := throttled_call now t in
      if ran then now :: runs t' rest else runs t' rest
  end.

End LoadingStateHooks.

(* ===================================================================== *)
(** * Vocabulary of the properties *)
(* ===================================================================== *)

Module Spec.
Import Js Validation Browser AuthHelper ConversationStorage Http.

(** A message made of white space only (the empty message included). *)
Fixpoint blank (s : string) : bool :=
  match s with
  | EmptyString => true
  | String c rest => is_white_space c && blank rest
  end.

(** The error that reports the length of a message. *)
Definition length_related (e : string) : bool :=
  String.prefix "Message exceeds maximum length" e.

(** The five special characters, in one message. *)
Definition all_special : string := "<>&'" +:+ String double_quote EmptyString.

Definition hex_upper_or_lower (c : ascii) : bool :=
  in_range "0" "9" c || in_range "a" "f" c || in_range "A" "F" c.

(** The textual form of a UUID: 8-4-4-4-12 hexadecimal digits. *)
Definition uuid_shape : Pattern :=
  [ (hex_upper_or_lower, 8); (dash, 1); (hex_upper_or_lower, 4); (dash, 1);
    (hex_upper_or_lower, 4); (dash, 1); (hex_upper_or_lower, 4); (dash, 1);
    (hex_upper_or_lower, 12) ]%nat.

(** A version-4 UUID: version digit 4, variant digit 8, 9, a or b. *)
Definition uuid_v4_shape : Pattern :=
  [ (hex_upper_or_lower, 8); (dash, 1); (hex_upper_or_lower, 4); (dash, 1);
    (is_char "4", 1); (hex_upper_or_lower, 3); (dash, 1);
    (one_of "89abAB", 1); (hex_upper_or_lower, 3); (dash, 1);
    (hex_upper_or_lower, 12) ]%nat.

(** One character class is at most as permissive as another. *)
Definition class_le (c1 c2 : ascii -> bool) : Prop :=
  forall a, c1 a = true -> c2 a = true.

Definition is_uuid (s : string) : bool := Pattern_test uuid_shape s.
Definition is_uuid_v4 (s : string) : bool := Pattern_test uuid_v4_shape s.

(** The errors of the sub-validators [validateChatRequest] consults, in the
    order it consults them. *)
Definition sub_validator_errors (request : ChatRequest) : list string :=
  errors (validateMessage (message request))
  ++ match conversation_id request with
     | Some id => errors (validateConversationId id)
     | None => []
     end
  ++ match metadata request with
     | Undefined => []
     | m => errors (validateMetadata m)
     end.

(** The kind the status table gives to an HTTP status: 401 and 403 are
    authentication errors, 422 is a validation error, and 429, 500, 502,
    503, 504 and every other status are server errors. *)
Definition status_kind (status : Z) : string :=
  if (status =? 401) || (status =? 403) then "authentication"
  else if status =? 422 then "validation"
  else "server".

(** Number of records with the given id. *)
Definition count_id (i : string) (l : list ConversationMetadata) : nat :=
  List.length (List.filter (has_id i) l).

(** A list is [existing] with [c] upserted: the first record with the id of
    [c] has been overwritten by the merge of that record and [c], or, when
    no record has this id, [c] has been appended with its time stamps. *)
Definition upserted (c : ConversationMetadata) (existing l' : list ConversationMetadata)
  : Prop :=
  (exists i old now,
      findIndex (has_id (id c)) existing = Some i
      /\ existing !! i = Some old
      /\ l' = <[i := spread_update old c now]> existing)
  \/ (exists created now,
         findIndex (has_id (id c)) existing = None
         /\ l' = existing ++ [spread_new c created now]).

(** The pointer, when set through [setCurrentConversationId], is never the
    empty string: the setter removes the key instead. *)
Definition pointer_wf (env : Env) : Prop :=
  getItem CURRENT_CONVERSATION_KEY env <> Some "".

(** The network answers every request with status 401. *)
Definition answers_401 (fetch : Request -> FetchResult) : Prop :=
  forall request, exists response,
    fetch request = Resolves response /\ status response = 401.

(** The network answers this request with status 401. *)
Definition answers_401_at (fetch : Request -> FetchResult) (request : Request) : Prop :=
  exists response, fetch request = Resolves response /\ status response = 401.

(** What a call does whenever its HTTP request is answered with status 401:
    there is one request, to the given address, such that on every network
    that answers this request with 401 the result of the call has the
    property. The request does not depend on the network, so it is the one
    the call sends whenever the property fails on some other answer. *)
Definition on_401 {R : Type} (call : (Request -> FetchResult) -> R) (address : string)
    (outcome : R -> Prop) : Prop :=
  exists request,
    url request = address
    /\ forall fetch, answers_401_at fetch request -> outcome (call fetch).

(** Token and stored user are gone from the store. *)
Definition auth_cleared (env : Env) : Prop :=
  getItem TOKEN_KEY env = None /\ getItem USER_KEY env = None.

End Spec.

(* ===================================================================== *)
(** * Concrete inputs *)
(* ===================================================================== *)

Module Examples.
Import Js Browser AuthHelper ConversationStorage BinaryCodec Http Clients.

Definition example_clock (n : nat) : string :=
  "2024-01-01T00:00:0" +:+ Number_toString (Z.of_nat n) +:+ ".000Z".

(** A browser whose store holds the given entries. *)
Definition browser (entries : list (string * string)) : Env :=
  {| window_defined := true;
     localStorage := list_to_map entries;
     clock := example_clock;
     clock_reads := 0;
     location_pathname := "/tasks";
     location_href := "http://localhost:3000/tasks" |}.

Definition conversation (i u t : string) : ConversationMetadata :=
  {| id := i; userId := u; title := Some t;
     createdAt := "2023-12-31T00:00:00.000Z";
     updatedAt := "2023-12-31T00:00:00.000Z";
     lastMessage := None |}.

Definition alice_chat : ConversationMetadata := conversation "c-1" "alice" "Groceries".
Definition bob_chat : ConversationMetadata := conversation "c-2" "bob" "Holidays".

(** Both users have a record in the cache; the pointer is on Alice's. *)
Definition shared_browser : Env :=
  browser [ (CONVERSATION_STORAGE_KEY, JSON_stringify_as [alice_chat; bob_chat]);
            (CURRENT_CONVERSATION_KEY, "c-1") ].

Definition alice : StoredUser :=
  {| user_id := "alice"; user_name := "Alice"; user_email := "alice@example.org" |}.

(** A browser after Alice has signed in. *)
Definition signed_in_browser : Env := storeAuth "secret-token" alice (browser []).

Definition unauthorized : Response :=
  {| status := 401; statusText := "Unauthorized";
     json := Return (Object ObjectPrototype [("detail", Str "Not authenticated")]) |}.

(** A network that refuses every request. *)
Definition refusing_network (request : Request) : FetchResult := Resolves unauthorized.

Definition example_uuid_v4 : string := "123e4567-e89b-42d3-a456-426614174000".

(** A message of 4001 characters. *)
Definition long_message : string := string_of_list_ascii (repeat "a"%char 4001).

End Examples.

(* ===================================================================== *)
(** * Vocabulary of the further properties *)
(* ===================================================================== *)

Module MoreSpec.
Import Js Validation ErrorHandler Browser AuthHelper ConversationStorage Http Clients.

(** The object has an own property of this name. *)
Definition has_own (key : string) (fields : list (string * JsValue)) : bool :=
  match lookup_field key fields with
  | Some _ => true
  | None => false
  end.

(** The value of a header, if the request has it. *)
Fixpoint header (name : string) (headers : Headers) : option string :=
  match headers with
  | [] => None
  | (k, v) :: rest => if String.eqb k name then Some v else header name rest
  end.

(** The headers [ReminderClient.request] and [apiRequest] build before they
    call [fetch]. *)
Definition sent_headers (options : RequestInit) (env : Env) : Headers :=
  let headers :=
    spread_headers [("Content-Type", "application/json")] (init_headers options) in
  match getToken env with
  | Some t => if negb (String.eqb t "") then set_header "Authorization" (bearer t) headers
              else headers
  | None => headers
  end.

(** The [Authorization] header a request is expected to carry: the bearer
    form of the stored token, or none when no token or an empty one is
    stored. *)
Definition expected_authorization (env : Env) : option string :=
  match getToken env with
  | Some t => if String.eqb t "" then None else Some (bearer t)
  | None => None
  end.

(** The error [handleChatKitError] makes of a network failure. *)
Definition network_error (details : JsValue) : JsValue :=
  createChatKitError "network"
    "Network connection failed. Please check your internet connection."
    Undefined details.

(** Every character of the string is in the class. *)
Fixpoint all_in (cls : ascii -> bool) (s : string) : bool :=
  match s with
  | EmptyString => true
  | String c rest => cls c && all_in cls rest
  end.

(** The characters [encodeURIComponent] can produce: the unreserved ones
    and the percent sign. *)
Definition uri_safe (c : ascii) : bool := uri_unreserved c || is_char "%" c.

(** Every ampersand of the string starts the entity of the ampersand. *)
Fixpoint ampersands_escaped (s : string) : bool :=
  match s with
  | EmptyString => true
  | String c rest =>
      (if Ascii.eqb c "&" then String.prefix "amp;" rest else true)
      && ampersands_escaped rest
  end.

(** The stringified size [validateMetadata] measures. *)
Definition metadata_size (metadata : JsValue) : Z :=
  match JSON_stringify metadata with
  | Some text => String_length text
  | None => 0
  end.

(** Consecutive readings are at least [d] apart. *)
Fixpoint spaced (d : Z) (readings : list Z) : Prop :=
  match readings with
  | a :: (b :: _) as rest => d <= b - a /\ spaced d rest
  | _ => True
  end.

(** The records of a list that do not have the given id. *)
Definition without_id (i : string) (l : list ConversationMetadata)
  : list ConversationMetadata :=
  List.filter (fun conv => negb (has_id i conv)) l.

(** What the stored-user codec must do for the auth store: parsing undoes
    stringifying, and no user has an empty text. *)
Class JsonUserLaws `{JsonCodec StoredUser} : Prop := {
  parse_stringify_user :
    forall u : StoredUser, JSON_parse_as (JSON_stringify_as u) = Some u;
  stringify_user_not_empty :
    forall u : StoredUser, JSON_stringify_as u <> EmptyString
}.

(** The ids of the conversations every user reads are distinct. *)
Definition ids_unique `{JsonCodec (list ConversationMetadata)} (env : Env) : Prop :=
  forall u i, (Spec.count_id i (getUserConversations u env) <= 1)%nat.

(** A loading state keeps an error only while it is not loading. *)
Definition error_means_stopped (state : LoadingStateHooks.LoadingState) : Prop :=
  LoadingStateHooks.error state <> None -> LoadingStateHooks.isLoading state = false.

End MoreSpec.

Module MoreExamples.
Import Js Browser AuthHelper ConversationStorage Http Clients Examples.

(** A response with a JSON body. *)
Definition response_with (code : Z) (body : JsValue) : Response :=
  {| status := code; statusText := "status text"; json := Return body |}.

(** A server that accepts exactly the requests carrying the given token. *)
Definition guarded_network (token : string) (request : Request) : FetchResult :=
  if bool_decide (MoreSpec.header "Authorization" (headers request) = Some (bearer token))
  then Resolves (response_with 200 (Str "welcome"))
  else Resolves unauthorized.

(** A server that accepts exactly the requests without credentials. *)
Definition open_network (request : Request) : FetchResult :=
  if bool_decide (MoreSpec.header "Authorization" (headers request) = None)
  then Resolves (response_with 200 (Str "welcome"))
  else Resolves unauthorized.

(** A server in trouble. *)
Definition failing_network (request : Request) : FetchResult :=
  Resolves (response_with 503 (Object ObjectPrototype [("detail", Str "busy")])).

(** A parser that knows the three literal names of JSON and nothing else. *)
#[export] Instance literal_codec : JsonCodec JsValue := {|
  JSON_stringify_as v :=
    match JSON_stringify v with
    | Some text => text
    | None => "undefined"
    end;
  JSON_parse_as text :=
    if String.eqb text "null" then Some Null
    else if String.eqb text "true" then Some (Bool true)
    else if String.eqb text "false" then Some (Bool false)
    else None
|}.

(** A version-7 UUID. *)
Definition example_uuid_v7 : string := "018f4e6a-7b3c-7d2e-9f10-123456789abc".

(** An error instance with a status attached, as a value. *)
Definition http_error (code : Z) (text : string) : JsValue :=
  Object ObjectPrototype [("name", Str "Error"); ("message", Str text); ("status", Number code)].

End MoreExamples.

(* ===================================================================== *)
(** * Properties of the string built-ins *)
(* ===================================================================== *)

Module JsFacts.
Import Js Spec.

Lemma String_length_eqb_zero (s : string) :
  (String_length s =? 0) = String.eqb s "".
Proof.
  destruct s; [reflexivity |].
  unfold String_length. simpl String.length. simpl String.eqb.
  apply Z.eqb_neq. lia.
Qed.

Lemma trim_start_head (s : string) :
  trim_start s = EmptyString \/
  exists c rest, trim_start s = String c rest /\ is_white_space c = false.
Proof.
  induction s as [| c s IH]; simpl; [by left |].
  destruct (is_white_space c) eqn:E; [exact IH |].
  right. by exists c, s.
Qed.

Lemma trim_start_blank (s : string) :
  trim_start s = EmptyString <-> blank s = true.
Proof.
  induction s as [| c s IH]; simpl; [done |].
  destruct (is_white_space c); simpl; [exact IH |].
  split; discriminate.
Qed.

Lemma trim_end_keeps (c : ascii) (s : string) :
  is_white_space c = false -> trim_end (String c s) <> EmptyString.
Proof.
  intros E. simpl. destruct (trim_end s); [by rewrite E | done].
Qed.

(** [trim] leaves nothing exactly when the string is blank. *)
Lemma trim_empty_iff_blank (s : string) :
  trim s = EmptyString <-> blank s = true.
Proof.
  unfold trim. rewrite <- trim_start_blank.
  destruct (trim_start_head s) as [E | (c & rest & E & Hc)]; rewrite E.
  - done.
  - split; [| discriminate]. intros F. by apply trim_end_keeps in F.
Qed.

Lemma blank_trim_length (s : string) :
  (String.eqb s "" || (String_length (trim s) =? 0)) = blank s.
Proof.
  rewrite String_length_eqb_zero.
  destruct (blank s) eqn:B.
  - apply trim_empty_iff_blank in B. rewrite B. simpl. apply orb_true_r.
  - assert (T : trim s <> EmptyString).
    { intros T. apply trim_empty_iff_blank in T. congruence. }
    destruct s; [discriminate |]. simpl String.eqb at 1. simpl.
    apply String.eqb_neq. exact T.
Qed.

Lemma prefix_cons_ne (a c : ascii) (n s : string) :
  a <> c -> String.prefix (String a n) (String c s) = false.
Proof.
  intros Hne. simpl. destruct (ascii_dec a c); [done | reflexivity].
Qed.

(** A needle cannot start at a character other than its first. *)
Lemma includes_cons_ne (a c : ascii) (n s : string) :
  a <> c -> includes (String a n) (String c s) = includes (String a n) s.
Proof.
  intros Hne. cbn [includes]. by rewrite prefix_cons_ne.
Qed.

Lemma test_class_replace_all_removed (cls : ascii -> bool) (s : string) :
  test_class cls (replace_all cls "" s) = false.
Proof.
  induction s as [| c s IH]; simpl; [done |].
  destruct (cls c) eqn:E; simpl; [exact IH |].
  by rewrite E, IH.
Qed.

Lemma test_class_app (cls : ascii -> bool) (s t : string) :
  test_class cls (s +:+ t) = test_class cls s || test_class cls t.
Proof.
  induction s as [| c s IH]; simpl; [done |].
  by rewrite IH, orb_assoc.
Qed.

(** Replacing characters outside a class by text outside the class keeps a
    string free of the class. *)
Lemma test_class_replace_all_other (cls target : ascii -> bool) (r s : string) :
  test_class cls r = false ->
  test_class cls s = false ->
  test_class cls (replace_all target r s) = false.
Proof.
  intros Hr. induction s as [| c s IH]; simpl; [done |].
  intros Hs. apply orb_false_iff in Hs as [Hc Hs].
  destruct (target c); simpl.
  - rewrite test_class_app, Hr. simpl. by apply IH.
  - rewrite Hc. simpl. by apply IH.
Qed.

End JsFacts.

(* ===================================================================== *)
(** * Properties of the validation module *)
(* ===================================================================== *)

Module ValidationFacts.
Import Js Validation Spec JsFacts.

Lemma no_errors_iff (errs : list string) : no_errors errs = true <-> errs = [].
Proof.
  unfold no_errors. destruct errs; simpl; split; intros E; done.
Qed.

Lemma result_sound (errs ws : list string) :
  isValid (result errs ws) = true <-> errors (result errs ws) = [].
Proof. apply no_errors_iff. Qed.

Lemma validateMessage_sound (m : string) :
  isValid (validateMessage m) = true <-> errors (validateMessage m) = [].
Proof. apply result_sound. Qed.

Lemma validateConversationId_sound (id : option string) :
  isValid (validateConversationId id) = true <-> errors (validateConversationId id) = [].
Proof.
  destruct id as [id |]; simpl; [| done].
  apply no_errors_iff.
Qed.

Lemma validateUserId_sound (u : string) :
  isValid (validateUserId u) = true <-> errors (validateUserId u) = [].
Proof. apply no_errors_iff. Qed.

Lemma validateMetadata_sound (m : JsValue) :
  isValid (validateMetadata m) = true <-> errors (validateMetadata m) = [].
Proof.
  destruct m; simpl; try done.
  apply no_errors_iff.
Qed.

Lemma validateChatRequest_sound (r : ChatRequest) :
  isValid (validateChatRequest r) = true <-> errors (validateChatRequest r) = [].
Proof.
  unfold validateChatRequest.
  destruct (negb (isValid (validateMessage (message r)))); cbv zeta iota beta;
    apply result_sound.
Qed.

Lemma validateChatResponse_sound (response : JsValue) (v : ValidationResult) :
  validateChatResponse response = Return v ->
  isValid v = true <-> errors v = [].
Proof.
  unfold validateChatResponse. intros R.
  destruct response;
    try (inversion R; subst; simpl; split; discriminate).
  repeat match type of R with
         | context [bind ?c _] => destruct c; cbn [bind] in R
         | context [if ?b then _ else _] => destruct b
         end;
    try discriminate R; inversion R; subst; apply no_errors_iff.
Qed.

Lemma validateApiEndpoint_sound (u endpoint : string) :
  isValid (validateApiEndpoint u endpoint) = true
  <-> errors (validateApiEndpoint u endpoint) = [].
Proof. apply no_errors_iff. Qed.

(** C10. Every result returned by [validateMessage],
    [validateConversationId], [validateUserId], [validateMetadata] and
    [validateChatRequest] has [isValid] true exactly when its [errors] list
    is empty; so has every result of the two other validators of the
    module, [validateApiEndpoint] and, when it returns, [validateChatResponse]. *)
Theorem validators_isValid_iff_no_errors :
  (forall m, isValid (validateMessage m) = true <-> errors (validateMessage m) = [])
  /\ (forall id, isValid (validateConversationId id) = true
                 <-> errors (validateConversationId id) = [])
  /\ (forall u, isValid (validateUserId u) = true <-> errors (validateUserId u) = [])
  /\ (forall m, isValid (validateMetadata m) = true <-> errors (validateMetadata m) = [])
  /\ (forall r, isValid (validateChatRequest r) = true
                <-> errors (validateChatRequest r) = [])
  /\ (forall u e, isValid (validateApiEndpoint u e) = true
                  <-> errors (validateApiEndpoint u e) = [])
  /\ (forall r v, validateChatResponse r = Return v ->
                  isValid v = true <-> errors v = []).
Proof.
  split_and!; intros;
    first [ apply validateMessage_sound | apply validateConversationId_sound
          | apply validateUserId_sound | apply validateMetadata_sound
          | apply validateChatRequest_sound | apply validateApiEndpoint_sound
          | by eapply validateChatResponse_sound ].
Qed.

Lemma validators_isValid_iff_no_errors_witness :
  errors (validateMessage "hello") = []
  /\ isValid (validateMetadata (Object NullPrototype [("topic", Str "tasks")])) = true
  /\ errors (validateChatRequest
               {| message := ""; conversation_id := None; metadata := Undefined |}) <> []
  /\ errors (result_without_warnings true []) = [].
Proof.
  destruct validators_isValid_iff_no_errors
    as (Message & _ & _ & Metadata & Request & _ & Response).
  split_and!.
  - by apply Message.
  - by apply Metadata.
  - intros E. by apply Request in E.
  - apply (Response (Object ObjectPrototype
                       [ ("conversation_id", Str "c-1"); ("response", Str "hi");
                         ("status", Str "ok") ])); reflexivity.
Defined.

(** ** [validateChatRequest] *)

(** Appending the errors of a sub-validator only when it is invalid appends
    them always: a valid result has none. *)
Lemma push_all_if_invalid (v : ValidationResult) (l : list string) :
  (isValid v = true <-> errors v = []) ->
  push_all_if (negb (isValid v)) (errors v) l = l ++ errors v.
Proof.
  intros S. unfold push_all_if. destruct (isValid v); simpl; [| done].
  rewrite (proj1 S eq_refl). by rewrite app_nil_r.
Qed.

(** The errors of [validateChatRequest] are the errors of the message, of
    the conversation id and of the metadata, in this order: none of the three
    checks is skipped because an earlier one failed. *)
Lemma validateChatRequest_errors (r : ChatRequest) :
  errors (validateChatRequest r) = sub_validator_errors r.
Proof.
  unfold validateChatRequest, sub_validator_errors.
  pose proof (validateMessage_sound (message r)) as Sm.
  set (mv := validateMessage (message r)) in *.
  assert (E1 : (if negb (isValid mv)
                then ([] ++ errors mv,
                      match warnings mv with Some ws => [] ++ ws | None => [] end)
                else ([], [])).1 = errors mv).
  { destruct (isValid mv); simpl; [| done]. symmetry. by apply Sm. }
  destruct (if negb (isValid mv) then _ else _) as [errs warns].
  cbn [fst] in E1. subst errs. cbv beta iota zeta.
  destruct (conversation_id r) as [id |]; destruct (metadata r) eqn:M;
    rewrite ?push_all_if_invalid
      by (apply validateMetadata_sound || apply validateConversationId_sound);
    rewrite ?app_nil_r, <- ?app_assoc; reflexivity.
Qed.

(** C5. On the request whose only field is the message [a<b],
    [validateMessage] warns about the special character, and
    [validateChatRequest] returns no warnings at all: it copies the warnings
    of the message only when the message is invalid. *)
Theorem validateChatRequest_drops_warnings_of_valid_message :
  let request := {| message := "a<b"; conversation_id := None; metadata := Undefined |} in
  warnings (validateMessage (message request)) = Some [special_characters_warning]
  /\ isValid (validateMessage (message request)) = true
  /\ warnings (validateChatRequest request) = None.
Proof. vm_compute. by split_and!. Qed.

(** The warnings of an invalid message do reach the composite result. *)
Lemma validateChatRequest_warnings_of_invalid_message (r : ChatRequest) (ws : list string) :
  isValid (validateMessage (message r)) = false ->
  warnings (validateMessage (message r)) = Some ws ->
  warnings (validateChatRequest r) = warnings_or_undefined ws.
Proof.
  intros V W. unfold validateChatRequest. rewrite V, W. reflexivity.
Qed.

(** The warnings of a valid message never do. *)
Lemma validateChatRequest_warnings_of_valid_message (r : ChatRequest) :
  isValid (validateMessage (message r)) = true ->
  warnings (validateChatRequest r) = None.
Proof.
  intros V. unfold validateChatRequest. rewrite V. reflexivity.
Qed.

(** ** [validateMessage] *)

Lemma validateMessage_unfold (m : string) :
  validateMessage m =
  result (push_if (4000 <? String_length m) (too_long_message (String_length m))
            (push_if (blank m) "Message cannot be empty" []))
         (push_if (test_class special_character m) special_characters_warning []).
Proof. unfold validateMessage. by rewrite blank_trim_length. Qed.

(** A message that is not blank and has at most 4000 characters is valid,
    whatever characters it contains. *)
Lemma validateMessage_accepts (m : string) :
  blank m = false -> String_length m <= 4000 ->
  isValid (validateMessage m) = true /\ errors (validateMessage m) = [].
Proof.
  intros B L. rewrite validateMessage_unfold, B.
  assert (E : (4000 <? String_length m) = false) by (apply Z.ltb_ge; lia).
  rewrite E. by split.
Qed.

(** A blank message is invalid. *)
Lemma validateMessage_rejects_blank (m : string) :
  blank m = true ->
  isValid (validateMessage m) = false /\ errors (validateMessage m) <> [].
Proof.
  intros B. rewrite validateMessage_unfold, B.
  destruct (4000 <? String_length m); by split.
Qed.

Lemma too_long_message_4001 :
  length_related (too_long_message 4001) = true
  /\ includes "4001" (too_long_message 4001) = true.
Proof. by vm_compute. Qed.

(** A message of 4001 characters gets exactly one error about its length,
    and this error mentions 4001. *)
Lemma validateMessage_4001 (m : string) :
  String_length m = 4001 ->
  exists e, List.filter length_related (errors (validateMessage m)) = [e]
            /\ includes "4001" e = true.
Proof.
  intros L. exists (too_long_message 4001).
  split; [| apply too_long_message_4001].
  rewrite validateMessage_unfold, L.
  change (4000 <? 4001) with true.
  destruct (blank m); reflexivity.
Qed.

(** A message of more than 4000 characters is invalid. *)
Lemma validateMessage_rejects_too_long (m : string) :
  4000 < String_length m ->
  isValid (validateMessage m) = false /\ errors (validateMessage m) <> [].
Proof.
  intros L. rewrite validateMessage_unfold.
  rewrite (proj2 (Z.ltb_lt _ _) L).
  destruct (blank m); by split.
Qed.

(** C6. [validateMessage] accepts exactly the messages that are not blank
    and have at most 4000 characters: a message is valid if and only if it
    is such a message, whatever characters it contains, and a valid message
    has no errors. The empty message and the message of three spaces are
    invalid with a non-empty list of errors; a message of 4001 characters
    gets exactly one length-related error, which contains [4001]. *)
Theorem validateMessage_accepts_exactly_non_blank_bounded :
  (forall m, isValid (validateMessage m) = true
             <-> blank m = false /\ String_length m <= 4000)
  /\ (forall m, blank m = false -> String_length m <= 4000 ->
                isValid (validateMessage m) = true /\ errors (validateMessage m) = [])
  /\ (isValid (validateMessage "") = false /\ errors (validateMessage "") <> [])
  /\ (isValid (validateMessage "   ") = false /\ errors (validateMessage "   ") <> [])
  /\ (forall m, String_length m = 4001 ->
        exists e, List.filter length_related (errors (validateMessage m)) = [e]
                  /\ includes "4001" e = true).
Proof.
  split_and!.
  - intros m. split.
    + intros V. destruct (blank m) eqn:B.
      * destruct (validateMessage_rejects_blank m B) as [I _]. congruence.
      * split; [done |]. destruct (Z.le_gt_cases (String_length m) 4000) as [L | L]; [done |].
        destruct (validateMessage_rejects_too_long m) as [I _]; [lia | congruence].
    + intros [B L]. by apply validateMessage_accepts.
  - apply validateMessage_accepts.
  - by apply validateMessage_rejects_blank.
  - by apply validateMessage_rejects_blank.
  - by apply validateMessage_rejects_blank.
  - by apply validateMessage_rejects_blank.
  - apply validateMessage_4001.
Qed.

Lemma validateMessage_accepts_exactly_non_blank_bounded_witness :
  (isValid (validateMessage "hello <world>") = true
   /\ errors (validateMessage "hello <world>") = [])
  /\ isValid (validateMessage Examples.long_message) = false
  /\ (exists e,
         List.filter length_related (errors (validateMessage Examples.long_message)) = [e]
         /\ includes "4001" e = true).
Proof.
  destruct validateMessage_accepts_exactly_non_blank_bounded
    as (Exactly & Accepts & _ & _ & Long).
  split; [| split].
  - apply Accepts; [reflexivity | by vm_compute].
  - destruct (isValid (validateMessage Examples.long_message)) eqn:V; [| done].
    apply Exactly in V as [_ L]. vm_compute in L. exfalso. by apply L.
  - apply Long. by vm_compute.
Defined.

(** ** [validateUserId] *)

(** One class list accepts whatever another accepts when it is at least as
    permissive position by position. *)
Lemma match_classes_mono (cs1 cs2 : list (ascii -> bool)) :
  Forall2 class_le cs1 cs2 ->
  forall s, match_classes cs1 s = true -> match_classes cs2 s = true.
Proof.
  induction 1 as [| c1 c2 cs1 cs2 Hc _ IH]; intros s; [done |].
  destruct s as [| a s]; simpl; [done |].
  intros M. apply andb_true_iff in M as [Ma Ms].
  apply andb_true_iff. split; [by apply Hc | by apply IH].
Qed.

Lemma match_classes_length (cs : list (ascii -> bool)) (s : string) :
  match_classes cs s = true -> String.length s = List.length cs.
Proof.
  revert s. induction cs as [| c cs IH]; intros [| a s]; simpl; try done.
  intros M. apply andb_true_iff in M as [_ Ms]. f_equal. by apply IH.
Qed.

(** Decides a comparison of classes by running both on every character. *)
Ltac class_le_by_cases :=
  let a := fresh "a" in
  intros a; destruct a as [[] [] [] [] [] [] [] []]; vm_compute;
  intros; first [reflexivity | discriminate].

Lemma hex_le_hex_i : class_le hex_upper_or_lower hex_i.
Proof. intros a. exact id. Qed.

Lemma four_le_digit_0_5 : class_le (is_char "4") digit_0_5.
Proof. class_le_by_cases. Qed.

Lemma v4_variant_le_variant : class_le (one_of "89abAB") variant_089ab_i.
Proof. class_le_by_cases. Qed.

Lemma hex_i_le_hex : class_le hex_i hex_upper_or_lower.
Proof. intros a. exact id. Qed.

Lemma digit_0_5_le_hex : class_le digit_0_5 hex_upper_or_lower.
Proof. class_le_by_cases. Qed.

Lemma variant_le_hex : class_le variant_089ab_i hex_upper_or_lower.
Proof. class_le_by_cases. Qed.

Lemma class_le_refl (c : ascii -> bool) : class_le c c.
Proof. intros a. exact id. Qed.

Create HintDb classes.
#[local] Hint Resolve hex_le_hex_i four_le_digit_0_5 v4_variant_le_variant
  hex_i_le_hex digit_0_5_le_hex variant_le_hex class_le_refl : classes.

(** Every version-4 UUID matches the pattern of [validateUserId]. *)
Lemma uuid_v4_matches_uuidRegex (s : string) :
  is_uuid_v4 s = true -> Pattern_test uuidRegex s = true.
Proof.
  apply match_classes_mono. cbn. repeat constructor; auto with classes.
Qed.

(** Whatever matches the pattern of [validateUserId] has the form of a UUID. *)
Lemma uuidRegex_matches_uuid (s : string) :
  Pattern_test uuidRegex s = true -> is_uuid s = true.
Proof.
  apply match_classes_mono. cbn. repeat constructor; auto with classes.
Qed.

Lemma uuidRegex_length (s : string) :
  Pattern_test uuidRegex s = true -> String_length s = 36.
Proof.
  intros M. apply match_classes_length in M. unfold String_length.
  rewrite M. reflexivity.
Qed.

Lemma no_errors_snoc (l : list string) (x : string) : no_errors (l ++ [x]) = false.
Proof. unfold no_errors. rewrite length_app. simpl. apply Nat.eqb_neq. lia. Qed.

Lemma validateUserId_accepts_match (s : string) :
  Pattern_test uuidRegex s = true -> isValid (validateUserId s) = true.
Proof.
  intros M. pose proof (uuidRegex_length s M) as L.
  unfold validateUserId. rewrite M, L. simpl.
  destruct s; [discriminate | reflexivity].
Qed.

Lemma validateUserId_rejects_mismatch (s : string) :
  Pattern_test uuidRegex s = false -> isValid (validateUserId s) = false.
Proof.
  intros M. unfold validateUserId. rewrite M. simpl.
  apply no_errors_snoc.
Qed.

(** C7. [validateUserId] accepts every version-4 UUID, rejects every string
    that does not have the form of a UUID, and rejects every string of more
    than 100 characters. *)
Theorem validateUserId_accepts_uuid_v4_rejects_others (s : string) :
  (is_uuid_v4 s = true -> isValid (validateUserId s) = true)
  /\ (is_uuid s = false -> isValid (validateUserId s) = false)
  /\ (100 < String_length s -> isValid (validateUserId s) = false).
Proof.
  split_and!.
  - intros V. by apply validateUserId_accepts_match, uuid_v4_matches_uuidRegex.
  - intros U. apply validateUserId_rejects_mismatch.
    destruct (Pattern_test uuidRegex s) eqn:M; [| done].
    apply uuidRegex_matches_uuid in M. congruence.
  - intros L. apply validateUserId_rejects_mismatch.
    destruct (Pattern_test uuidRegex s) eqn:M; [| done].
    apply uuidRegex_length in M. lia.
Qed.

Lemma validateUserId_accepts_uuid_v4_rejects_others_witness :
  isValid (validateUserId Examples.example_uuid_v4) = true
  /\ isValid (validateUserId "not-a-uuid") = false
  /\ isValid (validateUserId Examples.long_message) = false.
Proof.
  split_and!.
  - destruct (validateUserId_accepts_uuid_v4_rejects_others Examples.example_uuid_v4)
      as (Accepts & _ & _).
    apply Accepts. reflexivity.
  - destruct (validateUserId_accepts_uuid_v4_rejects_others "not-a-uuid")
      as (_ & Shape & _).
    apply Shape. reflexivity.
  - destruct (validateUserId_accepts_uuid_v4_rejects_others Examples.long_message)
      as (_ & _ & Long).
    apply Long. by vm_compute.
Defined.

(** ** [sanitizeMessage] and [prepareChatRequest] *)

(** After the ampersands are escaped, an ampersand is always followed by
    [amp;], so no entity other than [&amp;] starts anywhere in the text. *)
Lemma no_entity_after_escaping_ampersands (c : ascii) (n s : string) :
  c <> "a"%char ->
  includes (String "&" (String c n)) (replace_all (is_char "&") "&amp;" s) = false.
Proof.
  intros Hc. induction s as [| c0 s IH]; [reflexivity |].
  cbn [replace_all]. unfold is_char at 1.
  destruct (Ascii.eqb_spec "&" c0) as [<- | Hne].
  - change ("&amp;" +:+ ?r) with (String "&" (String "a" (String "m" (String "p" (String ";" r))))).
    cbn [includes]. rewrite IH.
    replace (String.prefix _ _) with false; [reflexivity |].
    simpl. destruct (ascii_dec c "a"); [done | reflexivity].
  - rewrite includes_cons_ne by done. exact IH.
Qed.

(** [sanitizeMessage] never yields the entity of the double quote, nor that
    of the apostrophe: the ampersand that starts them is escaped last. *)
Lemma sanitizeMessage_has_no_quote_entity (m : string) :
  includes "&quot;" (sanitizeMessage m) = false
  /\ includes "&#39;" (sanitizeMessage m) = false.
Proof.
  unfold sanitizeMessage. split; by apply no_entity_after_escaping_ampersands.
Qed.

(** [sanitizeMessage] leaves no angle bracket. *)
Lemma sanitizeMessage_has_no_angle_bracket (m : string) :
  test_class (one_of "<>") (sanitizeMessage m) = false.
Proof.
  unfold sanitizeMessage.
  do 3 (apply test_class_replace_all_other; [by vm_compute |]).
  apply test_class_replace_all_removed.
Qed.

(** A request that passes validation comes back with its message sanitised
    and the other fields as they were. *)
Lemma prepareChatRequest_valid (r : ChatRequest) :
  isValid (validateChatRequest r) = true ->
  prepareChatRequest r =
    ({| message := sanitizeMessage (message r);
        conversation_id := conversation_id r;
        metadata := metadata r |},
     validateChatRequest r).
Proof. intros V. unfold prepareChatRequest. by rewrite V. Qed.

(** A request that fails validation comes back untouched. *)
Lemma prepareChatRequest_invalid (r : ChatRequest) :
  isValid (validateChatRequest r) = false ->
  prepareChatRequest r = (r, validateChatRequest r).
Proof. intros V. unfold prepareChatRequest. by rewrite V. Qed.

(** C2. On the valid request whose message is the five special characters
    [<>&'] and the double quote, [prepareChatRequest] returns the message
    [&amp;&amp;#39;&amp;quot;]: the angle brackets are gone, and neither
    [&quot;] nor [&#39;] occurs in it, because the ampersands of these two
    entities have been escaped once more. *)
Theorem prepareChatRequest_escapes_entities_twice :
  let request := {| message := all_special; conversation_id := None;
                    metadata := Undefined |} in
  let prepared := prepareChatRequest request in
  isValid (validateMessage all_special) = true
  /\ isValid prepared.2 = true
  /\ message prepared.1 = "&amp;&amp;#39;&amp;quot;"
  /\ test_class (one_of "<>") (message prepared.1) = false
  /\ includes "&quot;" (message prepared.1) = false
  /\ includes "&#39;" (message prepared.1) = false.
Proof. vm_compute. by split_and!. Qed.

End ValidationFacts.

(* ===================================================================== *)
(** * Properties of the error normaliser *)
(* ===================================================================== *)

Module ErrorHandlerFacts.
Import Js ErrorHandler.

(** C1. [handleChatKitError({status: 401})] and
    [handleChatKitError({status: 500})] do not return: neither object has a
    [message], and the test for a network failure calls [includes] on it
    before the status is looked at. *)
Theorem handleChatKitError_throws_on_bare_status :
  handleChatKitError (Object ObjectPrototype [("status", Number 401)])
    = Throw (TypeError "Cannot read properties of undefined or null (reading 'includes')")
  /\ handleChatKitError (Object ObjectPrototype [("status", Number 500)])
    = Throw (TypeError "Cannot read properties of undefined or null (reading 'includes')").
Proof. split; reflexivity. Qed.

(** With a message that does not mention [fetch], the status is classified:
    401 is an authentication error, 500 a server error. *)
Lemma handleChatKitError_status_with_message (m : string) :
  includes "fetch" m = false ->
  let e401 := Object ObjectPrototype [("message", Str m); ("status", Number 401)] in
  let e500 := Object ObjectPrototype [("message", Str m); ("status", Number 500)] in
  handleChatKitError e401
    = Return (createChatKitError "authentication"
                "Authentication required. Please sign in to continue." (Number 401) e401)
  /\ handleChatKitError e500
    = Return (createChatKitError "server"
                "Service temporarily unavailable. Please try again later."
                (Number 500) e500).
Proof.
  intros F. unfold handleChatKitError.
  cbn [get lookup_field String.eqb Ascii.eqb Bool.eqb bind truthy
       strict_equals_string call_includes].
  rewrite F. by split.
Qed.

(** The status table, for an object that has a message without [fetch], no
    [type] and no [name]: the error returned has the kind the table gives
    to the status, the status itself, and the object as its details. *)
Lemma handleChatKitError_status_table (m : string) (n : Z) :
  includes "fetch" m = false -> n <> 0 ->
  let e := Object ObjectPrototype [("message", Str m); ("status", Number n)] in
  exists e', handleChatKitError e = Return e'
             /\ get e' "type" = Return (Str (Spec.status_kind n))
             /\ get e' "status" = Return (Number n)
             /\ get e' "details" = Return e.
Proof.
  intros F Hn. unfold handleChatKitError.
  cbn [get lookup_field String.eqb Ascii.eqb Bool.eqb bind truthy
       strict_equals_string call_includes].
  rewrite F. rewrite (proj2 (Z.eqb_neq n 0) Hn). cbn [negb].
  destruct n as [| p | p]; [done | |];
    repeat match goal with
           | |- context [match ?q with xH => _ | _ => _ end] => destruct q
           end;
    eexists; (split; [reflexivity | by split_and!]).
Qed.

(** [handleChatKitError({name: "TypeError"})] is a network error. *)
Lemma handleChatKitError_TypeError_is_network :
  let e := Object ObjectPrototype [("name", Str "TypeError")] in
  handleChatKitError e
    = Return (createChatKitError "network"
                "Network connection failed. Please check your internet connection."
                Undefined e).
Proof. reflexivity. Qed.

(** A value whose [type] and [message] are both truthy is returned as it is. *)
Lemma handleChatKitError_passes_classified (e ty msg : JsValue) :
  get e "type" = Return ty -> truthy ty = true ->
  get e "message" = Return msg -> truthy msg = true ->
  handleChatKitError e = Return e.
Proof.
  intros Gt Tt Gm Tm. unfold handleChatKitError.
  rewrite Gt. cbn [bind]. rewrite Tt, Gm. cbn [bind]. by rewrite Tm.
Qed.

(** An object with both fields is classified anew when its message is the
    empty string. *)
Lemma handleChatKitError_reclassifies_empty_message :
  let e := Object ObjectPrototype [("type", Str "server"); ("message", Str "")] in
  handleChatKitError e
    = Return (createChatKitError "unknown"
                "An unexpected error occurred. Please try again." Undefined e).
Proof. reflexivity. Qed.

Ltac split_handler H :=
  repeat match type of H with
         | context [bind ?c _] => destruct c eqn:?; cbn [bind] in H
         | context [if ?b then _ else _] => destruct b eqn:?
         | context [match ?s with _ => _ end] => destruct s
         end;
  try discriminate H.

(** What [handleChatKitError] returns is its argument, already classified,
    or a fresh error with a type and a message that are not empty. *)
Lemma handleChatKitError_output (e e' : JsValue) :
  handleChatKitError e = Return e' ->
  (e' = e /\ exists ty msg, get e "type" = Return ty /\ truthy ty = true
                            /\ get e "message" = Return msg /\ truthy msg = true)
  \/ (exists ty msg st d, e' = createChatKitError ty msg st d
                          /\ ty <> EmptyString /\ msg <> EmptyString).
Proof.
  unfold handleChatKitError. intros H.
  destruct (get e "type") as [ty |] eqn:Gt; cbn [bind] in H; [| discriminate].
  destruct (truthy ty) eqn:Tt.
  - destruct (get e "message") as [msg |] eqn:Gm; cbn [bind] in H; [| discriminate].
    destruct (truthy msg) eqn:Tm.
    + left. inversion H; subst. split; [done |]. by exists ty, msg.
    + right. split_handler H; inversion H; subst;
        eexists _, _, _, _; (split; [reflexivity | split; discriminate]).
  - right. cbn [bind] in H. split_handler H; inversion H; subst;
      eexists _, _, _, _; (split; [reflexivity | split; discriminate]).
Qed.

Lemma handleChatKitError_passes_created (ty msg : string) (st d : JsValue) :
  ty <> EmptyString -> msg <> EmptyString ->
  handleChatKitError (createChatKitError ty msg st d)
    = Return (createChatKitError ty msg st d).
Proof.
  intros Hty Hmsg.
  apply (handleChatKitError_passes_classified _ (Str ty) (Str msg));
    try reflexivity; simpl; by rewrite (proj2 (String.eqb_neq _ _)).
Qed.

(** [handleChatKitError] is idempotent on what it returns. *)
Lemma handleChatKitError_idempotent (e e' : JsValue) :
  handleChatKitError e = Return e' -> handleChatKitError e' = Return e'.
Proof.
  intros H. destruct (handleChatKitError_output e e' H)
    as [[-> (ty & msg & Gt & Tt & Gm & Tm)] | (ty & msg & st & d & -> & Hty & Hmsg)].
  - by apply (handleChatKitError_passes_classified _ ty msg).
  - by apply handleChatKitError_passes_created.
Qed.

End ErrorHandlerFacts.

(* ===================================================================== *)
(** * Properties of the concrete codec *)
(* ===================================================================== *)

Module BinaryCodecFacts.
Import Browser ConversationStorage BinaryCodec.

Lemma of_bits_bits (p : positive) : of_bits (bits p) = Some p.
Proof. induction p as [p IH | p IH |]; simpl; by rewrite ?IH. Qed.

Lemma bits_no_bracket (p : positive) : bits p <> "]".
Proof. destruct p; discriminate. Qed.

#[export] Instance codec_laws : JsonLaws.
Proof.
  split.
  - intros [| c l]; [reflexivity |].
    cbn [JSON_stringify_as JSON_parse_as codec].
    destruct (String.eqb_spec (String "[" (bits (encode (c :: l)))) "[]") as [E | _].
    + inversion E as [E']. by apply bits_no_bracket in E'.
    + cbn. rewrite of_bits_bits. cbn. apply decode_encode.
  - reflexivity.
  - intros [| c l]; discriminate.
Qed.

End BinaryCodecFacts.

(* ===================================================================== *)
(** * Properties of the conversation cache *)
(* ===================================================================== *)

Module StorageFacts.
Import Browser AuthHelper ConversationStorage Spec.

(** ** The store, key by key *)

Lemma getItem_setItem (k v : string) (env : Env) : getItem k (setItem k v env) = Some v.
Proof. unfold getItem, setItem. simpl. apply lookup_insert_eq. Qed.

Lemma getItem_setItem_ne (k k' v : string) (env : Env) :
  k <> k' -> getItem k' (setItem k v env) = getItem k' env.
Proof. intros Hne. unfold getItem, setItem. simpl. by apply lookup_insert_ne. Qed.

Lemma getItem_removeItem (k : string) (env : Env) : getItem k (removeItem k env) = None.
Proof. unfold getItem, removeItem. simpl. apply lookup_delete_eq. Qed.

Lemma getItem_removeItem_ne (k k' : string) (env : Env) :
  k <> k' -> getItem k' (removeItem k env) = getItem k' env.
Proof. intros Hne. unfold getItem, removeItem. simpl. by apply lookup_delete_ne. Qed.

Lemma key_ne : CONVERSATION_STORAGE_KEY <> CURRENT_CONVERSATION_KEY.
Proof. discriminate. Qed.

(** ** Lists of records *)

Lemma findIndex_Some {A} (p : A -> bool) (l : list A) (i : nat) :
  findIndex p l = Some i -> exists x, l !! i = Some x /\ p x = true.
Proof.
  revert i. induction l as [| y l IH]; intros i; simpl; [done |].
  destruct (p y) eqn:Py.
  - intros [= <-]. by exists y.
  - destruct (findIndex p l) as [j |]; simpl; [| done].
    intros [= <-]. destruct (IH j eq_refl) as (x & Hx & Px). by exists x.
Qed.

Lemma findIndex_None {A} (p : A -> bool) (l : list A) :
  findIndex p l = None <-> List.filter p l = [].
Proof.
  induction l as [| y l IH]; simpl; [done |].
  destruct (p y); [done |].
  destruct (findIndex p l); simpl.
  - split; [done |]. intros E. by apply IH in E.
  - split; [| done]. intros _. by apply IH.
Qed.

Lemma filter_insert_same {A} (p : A -> bool) (l : list A) (i : nat) (x y : A) :
  l !! i = Some x -> p x = p y ->
  List.length (List.filter p (<[i := y]> l)) = List.length (List.filter p l).
Proof.
  revert i. induction l as [| z l IH]; intros [| i]; simpl; try done.
  - intros [= ->] E. rewrite E. by destruct (p y).
  - intros Hx E. destruct (p z); simpl; by rewrite (IH i).
Qed.

Lemma filter_all {A} (p : A -> bool) (l : list A) :
  Forall (fun x => p x = true) l -> List.filter p l = l.
Proof. induction 1 as [| x l Hx _ IH]; simpl; [done |]. by rewrite Hx, IH. Qed.

Lemma filter_none {A} (p : A -> bool) (l : list A) :
  Forall (fun x => p x = false) l -> List.filter p l = [].
Proof. induction 1 as [| x l Hx _ IH]; simpl; [done |]. by rewrite Hx, IH. Qed.

Lemma of_user_true (u : string) (c : ConversationMetadata) :
  of_user u c = true <-> userId c = u.
Proof. apply String.eqb_eq. Qed.

Lemma has_id_true (i : string) (c : ConversationMetadata) :
  has_id i c = true <-> id c = i.
Proof. apply String.eqb_eq. Qed.

Lemma filter_of_user_Forall (u : string) (l : list ConversationMetadata) :
  Forall (fun c => userId c = u) (List.filter (of_user u) l).
Proof.
  apply List.Forall_forall. intros c Hc. apply List.filter_In in Hc as [_ Hc].
  by apply of_user_true.
Qed.

Lemma filter_other_user (u v : string) (l : list ConversationMetadata) :
  v <> u ->
  List.filter (of_user v) (List.filter (fun c => negb (of_user u c)) l)
  = List.filter (of_user v) l.
Proof.
  intros Hne. induction l as [| c l IH]; simpl; [done |].
  destruct (of_user u c) eqn:Eu; simpl.
  - apply of_user_true in Eu.
    destruct (of_user v c) eqn:Ev; [| done].
    apply of_user_true in Ev. congruence.
  - by rewrite IH.
Qed.

Lemma filter_same_user_removed (u : string) (l : list ConversationMetadata) :
  List.filter (of_user u) (List.filter (fun c => negb (of_user u c)) l) = [].
Proof.
  induction l as [| c l IH]; simpl; [done |].
  destruct (of_user u c) eqn:Eu; simpl; [done |]. by rewrite Eu.
Qed.

(** ** What [getUserConversations] reads *)

Section Reading.
Context `{JsonCodec (list ConversationMetadata)} `{!JsonLaws}.

Lemma getUserConversations_no_window (u : string) (env : Env) :
  window_defined env = false -> getUserConversations u env = [].
Proof. intros W. unfold getUserConversations. by rewrite W. Qed.

(** A store that parses reads as its records of the user. *)
Lemma getUserConversations_parsed (u : string) (env : Env) (all : list ConversationMetadata) :
  window_defined env = true ->
  JSON_parse_as (stored_or_empty_array env) = Some all ->
  getUserConversations u env = List.filter (of_user u) all.
Proof.
  intros W P. unfold getUserConversations, stored_or_empty_array in *. rewrite W. simpl.
  destruct (getItem CONVERSATION_STORAGE_KEY env) as [text |]; simpl.
  - destruct (String.eqb text "").
    + rewrite parse_empty_array in P. by inversion P.
    + by rewrite P.
  - rewrite parse_empty_array in P. by inversion P.
Qed.

(** A store that does not parse reads as empty. *)
Lemma getUserConversations_unparsed (u : string) (env : Env) :
  JSON_parse_as (stored_or_empty_array env) = None ->
  getUserConversations u env = [].
Proof.
  intros P. unfold getUserConversations, stored_or_empty_array in *.
  destruct (negb (window_defined env)); [done |].
  destruct (getItem CONVERSATION_STORAGE_KEY env) as [text |]; simpl; [| done].
  destruct (String.eqb text ""); [done |]. by rewrite P.
Qed.

Lemma stored_or_empty_array_written (l : list ConversationMetadata) (env : Env) :
  stored_or_empty_array (setItem CONVERSATION_STORAGE_KEY (JSON_stringify_as l) env)
  = JSON_stringify_as l.
Proof.
  unfold stored_or_empty_array. rewrite getItem_setItem.
  destruct (String.eqb_spec (JSON_stringify_as l) "") as [E | _]; [| done].
  by apply stringify_not_empty in E.
Qed.

Lemma getUserConversations_written (u : string) (l : list ConversationMetadata) (env : Env) :
  window_defined env = true ->
  getUserConversations u (setItem CONVERSATION_STORAGE_KEY (JSON_stringify_as l) env)
  = List.filter (of_user u) l.
Proof.
  intros W. apply getUserConversations_parsed; [done |].
  rewrite stored_or_empty_array_written. apply parse_stringify.
Qed.

End Reading.

(** ** Upserting *)

Lemma has_id_spread_update (j : string) (old c : ConversationMetadata) (now : string) :
  has_id j (spread_update old c now) = has_id j c.
Proof. reflexivity. Qed.

Lemma count_id_app (j : string) (l1 l2 : list ConversationMetadata) :
  count_id j (l1 ++ l2) = (count_id j l1 + count_id j l2)%nat.
Proof. unfold count_id. by rewrite List.filter_app, length_app. Qed.

Lemma upserted_Forall_user (c : ConversationMetadata) (existing l' : list ConversationMetadata) :
  upserted c existing l' ->
  Forall (fun r => userId r = userId c) existing ->
  Forall (fun r => userId r = userId c) l'.
Proof.
  intros [(i & old & now & _ & _ & ->) | (created & now & _ & ->)] F.
  - apply Forall_insert; [done | reflexivity].
  - apply Forall_app. split; [done |]. by constructor.
Qed.

Lemma upserted_count_other (c : ConversationMetadata) (existing l' : list ConversationMetadata)
    (j : string) :
  upserted c existing l' -> j <> id c -> count_id j l' = count_id j existing.
Proof.
  intros [(i & old & now & Fi & Hold & ->) | (created & now & _ & ->)] Hne.
  - apply (filter_insert_same _ _ _ old); [done |].
    apply findIndex_Some in Fi as (x & Hx & Px).
    assert (x = old) as -> by congruence.
    apply has_id_true in Px. rewrite has_id_spread_update.
    unfold has_id. rewrite Px. reflexivity.
  - rewrite count_id_app. unfold count_id at 2. simpl.
    unfold has_id. simpl.
    destruct (String.eqb_spec (id c) j) as [E | _]; [congruence |]. simpl. lia.
Qed.

(** The id of the upserted record is there once more only when it was not
    there at all. *)
Lemma upserted_count_same (c : ConversationMetadata) (existing l' : list ConversationMetadata) :
  upserted c existing l' ->
  count_id (id c) l' = Nat.max 1 (count_id (id c) existing).
Proof.
  intros [(i & old & now & Fi & Hold & ->) | (created & now & Fn & ->)].
  - apply findIndex_Some in Fi as (x & Hx & Px).
    assert (x = old) as -> by congruence.
    unfold count_id. rewrite (filter_insert_same _ _ _ old); [| done |].
    + assert (In old (List.filter (has_id (id c)) existing)) as Hin.
      { apply List.filter_In. split; [| done]. apply list_elem_of_In.
        by eapply list_elem_of_lookup_2. }
      destruct (List.filter (has_id (id c)) existing); [done |]. simpl. lia.
    + rewrite has_id_spread_update, Px. unfold has_id. symmetry. apply String.eqb_refl.
  - rewrite count_id_app. unfold count_id. apply findIndex_None in Fn. rewrite Fn.
    simpl. unfold has_id. simpl. by rewrite String.eqb_refl.
Qed.

Lemma upserted_length_when_present (c : ConversationMetadata)
    (existing l' : list ConversationMetadata) :
  upserted c existing l' ->
  (1 <= count_id (id c) existing)%nat ->
  List.length l' = List.length existing.
Proof.
  intros [(i & old & now & _ & _ & ->) | (created & now & Fn & ->)] C.
  - apply length_insert.
  - apply findIndex_None in Fn. unfold count_id in C. rewrite Fn in C. simpl in C. lia.
Qed.

(** ** What the writers leave in the store *)

Section Writing.
Context `{JsonCodec (list ConversationMetadata)} `{!JsonLaws}.

(** [saveConversation] ends with one write of the upserted list; before it,
    only the clock has been read. *)
Lemma saveConversation_writes (c : ConversationMetadata) (env : Env) :
  window_defined env = true ->
  exists l' env0,
    saveConversation c env = setItem CONVERSATION_STORAGE_KEY (JSON_stringify_as l') env0
    /\ window_defined env0 = true
    /\ localStorage env0 = localStorage env
    /\ upserted c (getUserConversations (userId c) env) l'.
Proof.
  intros W. unfold saveConversation. rewrite W. cbn [negb].
  set (existing := getUserConversations (userId c) env).
  destruct (findIndex (has_id (id c)) existing) as [i |] eqn:Fi.
  - destruct (findIndex_Some _ _ _ Fi) as (old & Hold & _). rewrite Hold.
    cbn. eexists _, _. split; [reflexivity |]. split_and!; try done.
    left. by eexists i, old, _.
  - destruct (negb (String.eqb (createdAt c) "")); cbn;
      (eexists _, _; split; [reflexivity |]; split_and!; try done;
       right; by eexists _, _).
Qed.

Lemma getUserConversations_Forall_user (u : string) (env : Env) :
  Forall (fun r => userId r = u) (getUserConversations u env).
Proof.
  unfold getUserConversations.
  destruct (negb (window_defined env)); [constructor |].
  destruct (falsy _); [constructor |].
  destruct (getItem _ env) as [text |]; [| constructor].
  destruct (JSON_parse_as text); [| constructor].
  apply filter_of_user_Forall.
Qed.

Lemma Forall_user_filter (u : string) (l : list ConversationMetadata) :
  Forall (fun r => userId r = u) l -> List.filter (of_user u) l = l.
Proof.
  intros F. apply filter_all. eapply Forall_impl; [exact F |].
  intros r. apply of_user_true.
Qed.

Lemma Forall_user_filter_other (u v : string) (l : list ConversationMetadata) :
  v <> u -> Forall (fun r => userId r = u) l -> List.filter (of_user v) l = [].
Proof.
  intros Hne F. apply filter_none. eapply Forall_impl; [exact F |].
  intros r E. simpl in E. unfold of_user. apply String.eqb_neq. congruence.
Qed.

(** What [saveConversation] leaves in the store. *)
Lemma saveConversation_result (c : ConversationMetadata) (env : Env) :
  window_defined env = true ->
  exists l',
    getItem CONVERSATION_STORAGE_KEY (saveConversation c env) = Some (JSON_stringify_as l')
    /\ window_defined (saveConversation c env) = true
    /\ upserted c (getUserConversations (userId c) env) l'
    /\ Forall (fun r => userId r = userId c) l'
    /\ (forall v, getUserConversations v (saveConversation c env) = List.filter (of_user v) l').
Proof.
  intros W. destruct (saveConversation_writes c env W) as (l' & env0 & -> & W0 & L0 & U).
  exists l'. split_and!.
  - apply getItem_setItem.
  - exact W0.
  - exact U.
  - apply (upserted_Forall_user _ _ _ U), getUserConversations_Forall_user.
  - intros v. by apply getUserConversations_written.
Qed.

(** C4. In a browser, [saveConversation c] writes back the conversations of
    the user of [c], as [getUserConversations] filtered them out of the
    store, with [c] upserted: every record of the list it writes has the
    user id of [c], this list is what the user of [c] reads afterwards, and
    every other user reads an empty list afterwards. *)
Theorem saveConversation_keeps_only_one_user (c : ConversationMetadata) (env : Env) :
  window_defined env = true ->
  exists l',
    getItem CONVERSATION_STORAGE_KEY (saveConversation c env) = Some (JSON_stringify_as l')
    /\ upserted c (getUserConversations (userId c) env) l'
    /\ Forall (fun r => userId r = userId c) l'
    /\ getUserConversations (userId c) (saveConversation c env) = l'
    /\ (forall v, v <> userId c -> getUserConversations v (saveConversation c env) = []).
Proof.
  intros W. destruct (saveConversation_result c env W) as (l' & G & _ & U & F & V).
  exists l'. split_and!; try done.
  - rewrite V. by apply Forall_user_filter.
  - intros v Hne. rewrite V. by apply Forall_user_filter_other with (u := userId c).
Qed.

(** C9. In a browser, a second [saveConversation] with the same [id] and
    [userId] updates the record the first one left: the user has as many
    conversations after the second call as after the first, as many of them
    with this id, and exactly one with this id when the cache held at most
    one before the calls. *)
Theorem saveConversation_twice_one_record (c1 c2 : ConversationMetadata) (env : Env) :
  window_defined env = true ->
  id c2 = id c1 -> userId c2 = userId c1 ->
  let u := userId c1 in
  let before := getUserConversations u env in
  let once := getUserConversations u (saveConversation c1 env) in
  let twice := getUserConversations u (saveConversation c2 (saveConversation c1 env)) in
  List.length twice = List.length once
  /\ count_id (id c1) twice = count_id (id c1) once
  /\ ((count_id (id c1) before <= 1)%nat -> count_id (id c1) twice = 1%nat).
Proof.
  intros W Ei Eu. cbv zeta.
  destruct (saveConversation_result c1 env W) as (l1 & _ & W1 & U1 & F1 & V1).
  destruct (saveConversation_result c2 _ W1) as (l2 & _ & _ & U2 & F2 & V2).
  rewrite Eu in U2, F2.
  rewrite V2, V1 in *.
  rewrite (Forall_user_filter _ _ F1) in *.
  rewrite (Forall_user_filter _ _ F2).
  pose proof (upserted_count_same _ _ _ U1) as C1.
  pose proof (upserted_count_same _ _ _ U2) as C2. rewrite Ei in C2.
  split_and!.
  - apply (upserted_length_when_present c2); [done |]. rewrite Ei. lia.
  - lia.
  - lia.
Qed.

Lemma getUserConversations_same_item (u : string) (env env0 : Env) :
  window_defined env0 = window_defined env ->
  getItem CONVERSATION_STORAGE_KEY env0 = getItem CONVERSATION_STORAGE_KEY env ->
  getUserConversations u env0 = getUserConversations u env.
Proof.
  intros W L. unfold getUserConversations. by rewrite W, L.
Qed.

(** Moving the pointer does not touch the conversations. *)
Lemma setCurrentConversationId_conversations (cid : option string) (u : string) (env : Env) :
  getUserConversations u (setCurrentConversationId cid env) = getUserConversations u env.
Proof.
  apply getUserConversations_same_item; unfold setCurrentConversationId;
    destruct (negb (window_defined env)); try done;
    destruct (negb (falsy cid)); try done; destruct cid; try done.
  - apply getItem_setItem_ne. by intros E; symmetry in E; apply key_ne in E.
  - apply getItem_removeItem_ne. by intros E; symmetry in E; apply key_ne in E.
  - apply getItem_removeItem_ne. by intros E; symmetry in E; apply key_ne in E.
Qed.

Lemma getCurrentConversationId_cleared (env : Env) :
  getCurrentConversationId (setCurrentConversationId None env) = None.
Proof.
  unfold getCurrentConversationId, setCurrentConversationId.
  destruct (window_defined env) eqn:W; simpl; [| by rewrite W].
  rewrite W. simpl. apply getItem_removeItem.
Qed.

Lemma find_some_of_elem (p : ConversationMetadata -> bool) (l : list ConversationMetadata)
    (c : ConversationMetadata) :
  c ∈ l -> p c = true -> exists x, List.find p l = Some x.
Proof.
  intros Hc Pc. destruct (List.find p l) as [x |] eqn:F; [by exists x |].
  apply list_elem_of_In in Hc.
  pose proof (List.find_none _ _ F c Hc). congruence.
Qed.

(** C8. After [clearUserConversations u], [getUserConversations u] is
    empty, every other user reads the conversations read before the call,
    and a pointer that named one of the conversations of [u] is gone. *)
Theorem clearUserConversations_clears_one_user (u : string) (env : Env) :
  let env' := clearUserConversations u env in
  getUserConversations u env' = []
  /\ (forall v, v <> u -> getUserConversations v env' = getUserConversations v env)
  /\ (pointer_wf env ->
      forall c, c ∈ getUserConversations u env ->
                getCurrentConversationId env = Some (id c) ->
                getCurrentConversationId env' = None).
Proof.
  cbv zeta. unfold clearUserConversations.
  destruct (window_defined env) eqn:W; cbn [negb].
  2:{ split_and!.
      - by apply getUserConversations_no_window.
      - done.
      - intros _ c Hc. rewrite getUserConversations_no_window in Hc by done.
        by apply elem_of_nil in Hc. }
  destruct (JSON_parse_as (stored_or_empty_array env)) as [all |] eqn:P.
  2:{ split_and!.
      - by apply getUserConversations_unparsed.
      - done.
      - intros _ c Hc. rewrite getUserConversations_unparsed in Hc by done.
        by apply elem_of_nil in Hc. }
  set (filtered := List.filter (fun conv => negb (of_user u conv)) all).
  set (env1 := setItem CONVERSATION_STORAGE_KEY (JSON_stringify_as filtered) env).
  assert (G1 : forall v, getUserConversations v env1 = List.filter (of_user v) filtered).
  { intros v. by apply getUserConversations_written. }
  assert (P1 : getCurrentConversationId env1 = getCurrentConversationId env).
  { unfold getCurrentConversationId, env1. simpl. rewrite W. simpl.
    apply getItem_setItem_ne, key_ne. }
  assert (G0 : forall v, getUserConversations v env = List.filter (of_user v) all).
  { intros v. by apply getUserConversations_parsed. }
  set (env2 := if negb (falsy (getCurrentConversationId env1)) then _ else _).
  assert (G2 : forall v, getUserConversations v env2 = getUserConversations v env1).
  { intros v. unfold env2. destruct (negb (falsy _)); [| done].
    destruct (getCurrentConversationId env1); [| done].
    destruct (List.find _ all); [| done].
    apply setCurrentConversationId_conversations. }
  split_and!.
  - rewrite G2, G1. apply filter_same_user_removed.
  - intros v Hne. rewrite G2, G1, G0. by apply filter_other_user.
  - intros Wf c Hc Hp. unfold env2. rewrite P1, Hp.
    assert (Hne : id c <> EmptyString).
    { intros E. apply Wf. unfold getCurrentConversationId in Hp.
      rewrite W in Hp. simpl in Hp. by rewrite Hp, E. }
    cbn [falsy]. rewrite (proj2 (String.eqb_neq _ _) Hne). cbn [negb].
    rewrite G0 in Hc. apply list_elem_of_In, List.filter_In in Hc as [Hin Hu].
    destruct (find_some_of_elem (fun conv => has_id (id c) conv && of_user u conv) all c)
      as [x ->].
    + by apply list_elem_of_In.
    + rewrite Hu. unfold has_id. by rewrite String.eqb_refl.
    + apply getCurrentConversationId_cleared.
Qed.
End Writing.

(** ** The invariants the cache keeps *)

Section Invariants.
Context `{JsonCodec (list ConversationMetadata)} `{!JsonLaws}.

(** [saveConversation] keeps the ids of a user's conversations distinct. *)
Lemma saveConversation_keeps_ids_unique (c : ConversationMetadata) (env : Env) :
  window_defined env = true ->
  (forall j, (count_id j (getUserConversations (userId c) env) <= 1)%nat) ->
  forall v j, (count_id j (getUserConversations v (saveConversation c env)) <= 1)%nat.
Proof.
  intros W U v j.
  destruct (saveConversation_result c env W) as (l' & _ & _ & Up & Own & Read).
  rewrite Read. destruct (decide (v = userId c)) as [-> | Hne].
  - rewrite (Forall_user_filter _ _ Own).
    destruct (decide (j = id c)) as [-> | Hj].
    + rewrite (upserted_count_same _ _ _ Up). specialize (U (id c)). lia.
    + rewrite (upserted_count_other _ _ _ _ Up Hj). apply U.
  - rewrite (Forall_user_filter_other _ _ _ Hne Own). unfold count_id. simpl. lia.
Qed.

Lemma pointer_wf_setCurrentConversationId (cid : option string) (env : Env) :
  pointer_wf env -> pointer_wf (setCurrentConversationId cid env).
Proof.
  intros Wf. unfold setCurrentConversationId.
  destruct (negb (window_defined env)); [done |].
  destruct cid as [cid |]; simpl.
  - destruct (String.eqb_spec cid "") as [-> | Hne]; simpl; unfold pointer_wf.
    + by rewrite getItem_removeItem.
    + rewrite getItem_setItem. congruence.
  - unfold pointer_wf. by rewrite getItem_removeItem.
Qed.

Lemma pointer_wf_saveConversation (c : ConversationMetadata) (env : Env) :
  pointer_wf env -> pointer_wf (saveConversation c env).
Proof.
  intros Wf. destruct (window_defined env) eqn:W.
  - destruct (saveConversation_writes c env W) as (l' & env0 & -> & _ & L & _).
    unfold pointer_wf. rewrite getItem_setItem_ne by apply key_ne.
    unfold getItem. by rewrite L.
  - unfold saveConversation. by rewrite W.
Qed.

Lemma pointer_wf_removeConversation (conversationId u : string) (env : Env) :
  pointer_wf env -> pointer_wf (removeConversation conversationId u env).
Proof.
  intros Wf. unfold removeConversation.
  destruct (negb (window_defined env)); [done |].
  destruct (JSON_parse_as _) as [all |]; [| done].
  unfold pointer_wf. by rewrite getItem_setItem_ne by apply key_ne.
Qed.

Lemma pointer_wf_clearUserConversations (u : string) (env : Env) :
  pointer_wf env -> pointer_wf (clearUserConversations u env).
Proof.
  intros Wf. unfold clearUserConversations.
  destruct (negb (window_defined env)); [done |].
  destruct (JSON_parse_as _) as [all |]; [| done].
  set (env1 := setItem _ _ env).
  assert (Wf1 : pointer_wf env1).
  { unfold pointer_wf, env1. by rewrite getItem_setItem_ne by apply key_ne. }
  destruct (negb (falsy _)); [| done].
  destruct (getCurrentConversationId env1); [| done].
  destruct (List.find _ all); [| done].
  by apply pointer_wf_setCurrentConversationId.
Qed.

End Invariants.

(** ** On a concrete store *)

Import Examples BinaryCodec BinaryCodecFacts.

(** Saving a conversation of Alice drops Bob's record from the cache. *)
Lemma saveConversation_drops_other_user :
  getUserConversations "bob" shared_browser = [bob_chat]
  /\ getUserConversations "bob" (saveConversation alice_chat shared_browser) = [].
Proof. by vm_compute. Qed.

Lemma saveConversation_keeps_only_one_user_witness :
  exists l',
    getItem CONVERSATION_STORAGE_KEY (saveConversation alice_chat shared_browser)
      = Some (JSON_stringify_as l')
    /\ upserted alice_chat (getUserConversations (userId alice_chat) shared_browser) l'
    /\ Forall (fun r => userId r = userId alice_chat) l'
    /\ getUserConversations (userId alice_chat) (saveConversation alice_chat shared_browser) = l'
    /\ (forall v, v <> userId alice_chat ->
                  getUserConversations v (saveConversation alice_chat shared_browser) = []).
Proof.
  apply (saveConversation_keeps_only_one_user alice_chat shared_browser).
  reflexivity.
Defined.

Lemma saveConversation_twice_one_record_witness :
  let env := browser [] in
  let once := getUserConversations "alice" (saveConversation alice_chat env) in
  let twice :=
    getUserConversations "alice" (saveConversation alice_chat (saveConversation alice_chat env)) in
  List.length twice = List.length once
  /\ count_id "c-1" twice = count_id "c-1" once
  /\ count_id "c-1" twice = 1%nat.
Proof.
  destruct (saveConversation_twice_one_record alice_chat alice_chat (browser []))
    as (L & C & One); try reflexivity.
  split_and!; [exact L | exact C |].
  apply One. vm_compute. lia.
Defined.

Lemma clearUserConversations_clears_one_user_witness :
  let env' := clearUserConversations "alice" shared_browser in
  getUserConversations "alice" env' = []
  /\ getUserConversations "bob" env' = getUserConversations "bob" shared_browser
  /\ getCurrentConversationId shared_browser = Some "c-1"
  /\ getCurrentConversationId env' = None.
Proof.
  destruct (clearUserConversations_clears_one_user "alice" shared_browser)
    as (Gone & Others & Pointer).
  split_and!.
  - exact Gone.
  - apply Others. discriminate.
  - reflexivity.
  - apply (Pointer ltac:(by vm_compute) alice_chat).
    + vm_compute. apply list_elem_of_here.
    + reflexivity.
Defined.

End StorageFacts.

(* ===================================================================== *)
(** * Properties of the request clients *)
(* ===================================================================== *)

Module ClientsFacts.
Import Js Browser AuthHelper Http Clients Spec.

Lemma clearAuth_cleared (env : Env) :
  window_defined env = true -> auth_cleared (clearAuth env).
Proof.
  intros W. unfold auth_cleared, clearAuth, getItem, removeItem. rewrite W. simpl.
  split.
  - rewrite lookup_delete_ne by discriminate. apply lookup_delete_eq.
  - apply lookup_delete_eq.
Qed.

Lemma clearAuth_window (env : Env) : window_defined (clearAuth env) = window_defined env.
Proof. unfold clearAuth. by destruct (window_defined env) eqn:W. Qed.

Lemma getToken_clearAuth (env : Env) : getToken (clearAuth env) = None.
Proof.
  unfold getToken. rewrite clearAuth_window.
  destruct (window_defined env) eqn:W; simpl; [| done].
  by apply clearAuth_cleared.
Qed.

Lemma getStoredUser_clearAuth `{JsonCodec StoredUser} (env : Env) :
  getStoredUser (clearAuth env) = None.
Proof.
  unfold getStoredUser. rewrite clearAuth_window.
  destruct (window_defined env) eqn:W; simpl; [| done].
  destruct (clearAuth_cleared env W) as [_ U]. by rewrite U.
Qed.

Lemma handleUnauthorized_cleared (env : Env) :
  window_defined env = true -> auth_cleared (handleUnauthorized env).
Proof.
  intros W. unfold handleUnauthorized. rewrite clearAuth_window, W.
  by apply clearAuth_cleared.
Qed.

Lemma getToken_handleUnauthorized (env : Env) : getToken (handleUnauthorized env) = None.
Proof.
  unfold handleUnauthorized.
  destruct (window_defined (clearAuth env)); [| apply getToken_clearAuth].
  change (getToken (set_location_href ?h ?e)) with (getToken e).
  apply getToken_clearAuth.
Qed.

Lemma getStoredUser_handleUnauthorized `{JsonCodec StoredUser} (env : Env) :
  getStoredUser (handleUnauthorized env) = None.
Proof.
  unfold handleUnauthorized.
  destruct (window_defined (clearAuth env)); [| apply getStoredUser_clearAuth].
  change (getStoredUser (set_location_href ?h ?e)) with (getStoredUser e).
  apply getStoredUser_clearAuth.
Qed.

(** On a 401 the primary API module also sends the browser to the login
    page, with the current path as the [redirect] parameter. *)
Lemma handleUnauthorized_redirects (env : Env) :
  window_defined env = true ->
  location_href (handleUnauthorized env)
  = "/login?redirect=" +:+ encodeURIComponent (location_pathname env).
Proof.
  intros W. unfold handleUnauthorized. rewrite clearAuth_window, W. simpl.
  unfold clearAuth. by rewrite W.
Qed.

Lemma not_ok_401 (response : Response) : status response = 401 -> ok response = false.
Proof. intros E. unfold ok. by rewrite E. Qed.

(** The error branch of the conversation wrapper always throws. *)
Lemma throw_detail_or_error_throws {A} (response : Response) :
  exists e, @throw_detail_or_error A response = Throw e.
Proof.
  unfold throw_detail_or_error.
  destruct (get _ "detail") as [detail |]; cbn [bind]; [| by eexists].
  destruct (truthy detail).
  - destruct (ToString detail); cbn [bind]; by eexists.
  - destruct (get _ "error") as [error |]; cbn [bind]; [| by eexists].
    destruct (truthy error).
    + destruct (ToString error); cbn [bind]; by eexists.
    + cbn [bind]. by eexists.
Qed.

(** A call that sends no request at all meets [on_401] with any outcome its
    result has. *)
Lemma on_401_constant {R : Type} (result : R) (address : string) (outcome : R -> Prop) :
  outcome result -> on_401 (fun _ => result) address outcome.
Proof.
  intros O. exists {| url := address; method := None; headers := []; body := None |}.
  by split.
Qed.

(** Solves [on_401] for a call that does send its request: the request is
    read off the call. *)
Ltac on_sent_request :=
  eexists; split; cycle 1;
  [ intros fetch (response & F & E); cbv beta;
    rewrite F, ?(not_ok_401 _ E), ?E; cbv beta iota
  | reflexivity ].

Section OnUnauthorized.
Context `{JsonCodec StoredUser}.

Lemma ReminderClient_request_401 (this : ReminderClient) (endpoint : string)
    (options : RequestInit) (env : Env) :
  on_401 (fun fetch => ReminderClient_request fetch this endpoint options env)
    (reminder_baseUrl this +:+ endpoint)
    (fun r => r = (clearAuth env,
                   Throw (Error "Authentication failed. Please log in again."))).
Proof. unfold ReminderClient_request. on_sent_request. reflexivity. Qed.

Lemma ReminderClient_deleteReminder_401 (this : ReminderClient) (userId reminderId : string)
    (env : Env) :
  on_401 (fun fetch => ReminderClient_deleteReminder fetch this userId reminderId env)
    (reminder_baseUrl this +:+ "/api/" +:+ userId +:+ "/reminders/" +:+ reminderId)
    (fun r => r = (clearAuth env,
                   Throw (Error "Authentication failed. Please log in again."))).
Proof. unfold ReminderClient_deleteReminder. on_sent_request. reflexivity. Qed.

Lemma apiRequest_401 (base endpoint : string) (options : RequestInit) (env : Env) :
  on_401 (fun fetch => apiRequest fetch base endpoint options env)
    (base +:+ endpoint)
    (fun r => r = (handleUnauthorized env,
                   {| data := Null; error := Str "Unauthorized - Please log in again";
                      response_status := 401 |})).
Proof. unfold apiRequest. on_sent_request. reflexivity. Qed.

Lemma ChatAPIClient_sendMessage_401 (this : ChatAPIClient) (userId : string)
    (request : ChatRequest) (env : Env) :
  on_401 (fun fetch => ChatAPIClient_sendMessage fetch this userId request env)
    (chat_baseUrl this +:+ "/api/" +:+ userId +:+ "/chat")
    (fun r => r = (env, Throw (Error "HTTP error! status: 401"))).
Proof.
  unfold ChatAPIClient_sendMessage. on_sent_request.
  unfold http_error_status. by rewrite E.
Qed.

(** The five functions of the conversation wrapper: with a token they send
    their request and, on a 401, throw what the error branch makes of the
    body; without one they throw before sending anything. Either way the
    browser is as it was. *)
Ltac wrapper_on_401 env :=
  destruct (getToken env) as [token |];
  [ destruct (String.eqb token "");
    [ by apply on_401_constant; split; [| eexists]
    | on_sent_request; split; [reflexivity | apply throw_detail_or_error_throws] ]
  | by apply on_401_constant; split; [| eexists] ].

Lemma fetchUserConversations_401 (base userId : string) (env : Env) :
  on_401 (fun fetch => fetchUserConversations fetch base userId env)
    (base +:+ "/api/" +:+ userId +:+ "/conversations")
    (fun r => r.1 = env /\ exists e, r.2 = Throw e).
Proof. unfold fetchUserConversations. wrapper_on_401 env. Qed.

Lemma fetchConversation_401 (base userId conversationId : string) (env : Env) :
  on_401 (fun fetch => fetchConversation fetch base userId conversationId env)
    (base +:+ "/api/" +:+ userId +:+ "/conversations/" +:+ conversationId)
    (fun r => r.1 = env /\ exists e, r.2 = Throw e).
Proof. unfold fetchConversation. wrapper_on_401 env. Qed.

Lemma createConversation_401 (base userId : string) (title : option string) (env : Env) :
  on_401 (fun fetch => createConversation fetch base userId title env)
    (base +:+ "/api/" +:+ userId +:+ "/conversations")
    (fun r => r.1 = env /\ exists e, r.2 = Throw e).
Proof. unfold createConversation. wrapper_on_401 env. Qed.

Lemma updateConversation_401 (base userId conversationId : string) (updates : JsValue)
    (env : Env) :
  on_401 (fun fetch => updateConversation fetch base userId conversationId updates env)
    (base +:+ "/api/" +:+ userId +:+ "/conversations/" +:+ conversationId)
    (fun r => r.1 = env /\ exists e, r.2 = Throw e).
Proof. unfold updateConversation. wrapper_on_401 env. Qed.

Lemma deleteConversation_401 (base userId conversationId : string) (env : Env) :
  on_401 (fun fetch => deleteConversation fetch base userId conversationId env)
    (base +:+ "/api/" +:+ userId +:+ "/conversations/" +:+ conversationId)
    (fun r => r.1 = env /\ exists e, r.2 = Throw e).
Proof. unfold deleteConversation. wrapper_on_401 env. Qed.

(** An outcome that holds on a 401 may be replaced by one it implies. *)
Lemma on_401_impl {R : Type} (call : (Request -> FetchResult) -> R) (address : string)
    (outcome outcome' : R -> Prop) :
  (forall r, outcome r -> outcome' r) ->
  on_401 call address outcome -> on_401 call address outcome'.
Proof.
  intros I (request & U & O). exists request. split; [exact U |].
  intros fetch A. by apply I, O.
Qed.

End OnUnauthorized.

(** The chat client and the conversation wrapper never write to the store,
    whatever the network answers. *)
Lemma ChatAPIClient_sendMessage_keeps_env (fetch : Request -> FetchResult)
    (this : ChatAPIClient) (userId : string) (request : ChatRequest) (env : Env) :
  (ChatAPIClient_sendMessage fetch this userId request env).1 = env.
Proof.
  unfold ChatAPIClient_sendMessage.
  destruct (fetch _) as [response |]; [| done]. by destruct (negb (ok response)).
Qed.

Lemma fetchConversation_keeps_env (fetch : Request -> FetchResult)
    (base userId conversationId : string) (env : Env) :
  (fetchConversation fetch base userId conversationId env).1 = env.
Proof.
  unfold fetchConversation.
  destruct (getToken env) as [token |]; [| done].
  destruct (String.eqb token ""); [done |].
  destruct (fetch _) as [response |]; [| done]. by destruct (negb (ok response)).
Qed.

(** C3, as the code has it. Each call sends one request, and whenever this
    request is answered with status 401:
    - [ReminderClient.request] and [ReminderClient.deleteReminder] return
      the browser with the auth store cleared, no token and no stored user
      left, and throw [Authentication failed. Please log in again.];
    - [apiRequest] returns the browser with the auth store cleared and, in
      a browser, with the page sent to [/login?redirect=] followed by the
      encoded current path, beside the error result with status 401;
    - [ChatAPIClient.sendMessage] throws [HTTP error! status: 401], and the
      five functions of the conversation wrapper throw their error, and all
      six leave the browser, and so the auth store, as it was. *)
Theorem reminder_and_api_clients_clear_auth_on_401 `{JsonCodec StoredUser} (env : Env) :
  (forall this endpoint options,
      on_401 (fun fetch => ReminderClient_request fetch this endpoint options env)
        (reminder_baseUrl this +:+ endpoint)
        (fun r => r.1 = clearAuth env
                  /\ getToken r.1 = None /\ getStoredUser r.1 = None
                  /\ (window_defined env = true -> auth_cleared r.1)
                  /\ r.2 = Throw (Error "Authentication failed. Please log in again.")))
  /\ (forall this userId reminderId,
         on_401 (fun fetch => ReminderClient_deleteReminder fetch this userId reminderId env)
           (reminder_baseUrl this +:+ "/api/" +:+ userId +:+ "/reminders/" +:+ reminderId)
           (fun r => r.1 = clearAuth env
                     /\ getToken r.1 = None /\ getStoredUser r.1 = None
                     /\ (window_defined env = true -> auth_cleared r.1)
                     /\ r.2 = Throw (Error "Authentication failed. Please log in again.")))
  /\ (forall base endpoint options,
         on_401 (fun fetch => apiRequest fetch base endpoint options env)
           (base +:+ endpoint)
           (fun r => getToken r.1 = None /\ getStoredUser r.1 = None
                     /\ (window_defined env = true ->
                         auth_cleared r.1
                         /\ location_href r.1
                            = "/login?redirect=" +:+ encodeURIComponent (location_pathname env))
                     /\ r.2 = {| data := Null;
                                 error := Str "Unauthorized - Please log in again";
                                 response_status := 401 |}))
  /\ (forall this userId request,
         on_401 (fun fetch => ChatAPIClient_sendMessage fetch this userId request env)
           (chat_baseUrl this +:+ "/api/" +:+ userId +:+ "/chat")
           (fun r => r = (env, Throw (Error "HTTP error! status: 401"))))
  /\ (forall base userId,
         on_401 (fun fetch => fetchUserConversations fetch base userId env)
           (base +:+ "/api/" +:+ userId +:+ "/conversations")
           (fun r => r.1 = env /\ exists e, r.2 = Throw e))
  /\ (forall base userId conversationId,
         on_401 (fun fetch => fetchConversation fetch base userId conversationId env)
           (base +:+ "/api/" +:+ userId +:+ "/conversations/" +:+ conversationId)
           (fun r => r.1 = env /\ exists e, r.2 = Throw e))
  /\ (forall base userId title,
         on_401 (fun fetch => createConversation fetch base userId title env)
           (base +:+ "/api/" +:+ userId +:+ "/conversations")
           (fun r => r.1 = env /\ exists e, r.2 = Throw e))
  /\ (forall base userId conversationId updates,
         on_401 (fun fetch => updateConversation fetch base userId conversationId updates env)
           (base +:+ "/api/" +:+ userId +:+ "/conversations/" +:+ conversationId)
           (fun r => r.1 = env /\ exists e, r.2 = Throw e))
  /\ (forall base userId conversationId,
         on_401 (fun fetch => deleteConversation fetch base userId conversationId env)
           (base +:+ "/api/" +:+ userId +:+ "/conversations/" +:+ conversationId)
           (fun r => r.1 = env /\ exists e, r.2 = Throw e)).
Proof.
  split_and!.
  - intros this endpoint options.
    eapply on_401_impl; [| apply ReminderClient_request_401].
    intros r ->. simpl. split_and!; try done.
    + apply getToken_clearAuth.
    + apply getStoredUser_clearAuth.
    + apply clearAuth_cleared.
  - intros this userId reminderId.
    eapply on_401_impl; [| apply ReminderClient_deleteReminder_401].
    intros r ->. simpl. split_and!; try done.
    + apply getToken_clearAuth.
    + apply getStoredUser_clearAuth.
    + apply clearAuth_cleared.
  - intros base endpoint options.
    eapply on_401_impl; [| apply apiRequest_401].
    intros r ->. simpl. split_and!; try done.
    + apply getToken_handleUnauthorized.
    + apply getStoredUser_handleUnauthorized.
    + intros W. split; [by apply handleUnauthorized_cleared |].
      by apply handleUnauthorized_redirects.
  - intros. apply ChatAPIClient_sendMessage_401.
  - intros. apply fetchUserConversations_401.
  - intros. apply fetchConversation_401.
  - intros. apply createConversation_401.
  - intros. apply updateConversation_401.
  - intros. apply deleteConversation_401.
Qed.

Import Examples BinaryCodec.

Lemma refusing_network_answers_401 : answers_401 refusing_network.
Proof. intros request. by exists unauthorized. Qed.

Lemma reminder_and_api_clients_clear_auth_on_401_witness :
  let r := ReminderClient_request refusing_network {| reminder_baseUrl := "" |}
             "/api/alice/reminders/due" no_options signed_in_browser in
  getToken signed_in_browser = Some "secret-token"
  /\ getToken r.1 = None
  /\ getStoredUser r.1 = None
  /\ auth_cleared r.1
  /\ r.2 = Throw (Error "Authentication failed. Please log in again.").
Proof.
  destruct (reminder_and_api_clients_clear_auth_on_401 signed_in_browser) as (Reminder & _).
  destruct (Reminder {| reminder_baseUrl := "" |} "/api/alice/reminders/due" no_options)
    as (request & _ & On401).
  destruct (On401 refusing_network) as (_ & Token & User & Store & Thrown).
  { by exists unauthorized. }
  split_and!; [reflexivity | exact Token | exact User | by apply Store | exact Thrown].
Defined.

(** C3, as stated, fails for the chat client: the network answers 401 to a
    signed-in browser, [sendMessage] throws, and the token and the stored
    user are still in the store. *)
Lemma ChatAPIClient_sendMessage_keeps_auth_on_401 :
  let r := ChatAPIClient_sendMessage refusing_network
             {| chat_baseUrl := "http://localhost:8000" |} "alice"
             {| chat_message := "hello"; chat_conversation_id := None |}
             signed_in_browser in
  answers_401 refusing_network
  /\ window_defined signed_in_browser = true
  /\ r.2 = Throw (Error "HTTP error! status: 401")
  /\ getToken r.1 = Some "secret-token"
  /\ getStoredUser r.1 = Some alice.
Proof.
  split; [apply refusing_network_answers_401 |]. by vm_compute.
Qed.

End ClientsFacts.

(* ===================================================================== *)
(** * More properties of the validators *)
(* ===================================================================== *)

Module MoreValidationFacts.
Import Js Validation Spec MoreSpec Examples MoreExamples JsFacts ValidationFacts.

(** ** [validateMessage] *)

Lemma validateMessage_isValid (m : string) :
  isValid (validateMessage m) = negb (blank m) && (String_length m <=? 4000).
Proof.
  rewrite validateMessage_unfold. unfold result, isValid.
  destruct (blank m); destruct (Z.ltb_spec 4000 (String_length m));
    destruct (Z.leb_spec (String_length m) 4000); try lia; reflexivity.
Qed.

(** X1. [validateMessage] accepts a message exactly when it is not blank and
    has at most 4000 characters, and it warns, with one warning, exactly when
    the message has one of the characters [<], [>], the two quotes and [&];
    the warning does not depend on the message being accepted. *)
Theorem validateMessage_exact (m : string) :
  (isValid (validateMessage m) = true <-> blank m = false /\ String_length m <= 4000)
  /\ warnings (validateMessage m)
     = (if test_class special_character m then Some [special_characters_warning] else None).
Proof.
  split.
  - rewrite validateMessage_isValid, andb_true_iff, negb_true_iff, Z.leb_le. done.
  - rewrite validateMessage_unfold. simpl. by destruct (test_class special_character m).
Qed.

(** ** [validateUserId] *)

Lemma match_classes_get (classes : list (ascii -> bool)) (s : string) (i : nat)
    (cls : ascii -> bool) :
  match_classes classes s = true ->
  List.nth_error classes i = Some cls ->
  exists c, String.get i s = Some c /\ cls c = true.
Proof.
  revert s i. induction classes as [| cls0 classes IH]; intros [| a s] i; simpl; try done.
  - by destruct i.
  - intros M. apply andb_true_iff in M as [Ma Ms].
    destruct i as [| i]; simpl.
    + intros [= <-]. by exists a.
    + intros Hn. by apply IH.
Qed.

Lemma validateUserId_isValid (s : string) :
  isValid (validateUserId s) = Pattern_test uuidRegex s.
Proof.
  destruct (Pattern_test uuidRegex s) eqn:M.
  - by apply validateUserId_accepts_match.
  - by apply validateUserId_rejects_mismatch.
Qed.

(** X2. [validateUserId] accepts a string exactly when the UUID pattern
    matches it; an accepted string has 36 characters, and a string whose
    fifteenth character, the version digit, is not one of 0 to 5 is
    rejected. *)
Theorem validateUserId_exact (s : string) :
  (isValid (validateUserId s) = true <-> Pattern_test uuidRegex s = true)
  /\ (isValid (validateUserId s) = true -> String_length s = 36)
  /\ (forall v, String.get 14 s = Some v -> digit_0_5 v = false ->
                isValid (validateUserId s) = false).
Proof.
  rewrite validateUserId_isValid. split_and!.
  - done.
  - apply uuidRegex_length.
  - intros v G D. destruct (Pattern_test uuidRegex s) eqn:M; [| done].
    destruct (match_classes_get _ _ 14 digit_0_5 M eq_refl) as (c & Gc & Dc).
    congruence.
Qed.

Lemma validateUserId_exact_witness :
  isValid (validateUserId example_uuid_v7) = false
  /\ String_length example_uuid_v4 = 36.
Proof.
  destruct (validateUserId_exact example_uuid_v7) as (_ & _ & Version).
  destruct (validateUserId_exact example_uuid_v4) as (_ & Length & _).
  split.
  - apply (Version "7"%char); reflexivity.
  - apply Length. by vm_compute.
Defined.

(** ** [validateMetadata] *)

Lemma has_property_inherited (key : string) (fields : list (string * JsValue)) :
  mem_string key object_prototype_keys = true ->
  has_property key ObjectPrototype fields = true.
Proof. intros I. unfold has_property. destruct (lookup_field key fields); done. Qed.

Lemma has_property_null (key : string) (fields : list (string * JsValue)) :
  has_property key NullPrototype fields = has_own key fields.
Proof. unfold has_property, has_own. by destruct (lookup_field key fields). Qed.

Lemma no_errors_push_if (b : bool) (x : string) (l : list string) :
  no_errors (push_if b x l) = negb b && no_errors l.
Proof.
  destruct b; simpl; [apply no_errors_snoc | done].
Qed.

Lemma validateMetadata_object_isValid (proto : Proto) (fields : list (string * JsValue)) :
  isValid (validateMetadata (Object proto fields))
  = (metadata_size (Object proto fields) <=? 10000)
    && negb (has_property "__proto__" proto fields)
    && negb (has_property "constructor" proto fields)
    && negb (has_property "prototype" proto fields).
Proof.
  unfold validateMetadata, result_without_warnings, isValid, forbiddenKeys.
  cbn [fold_left]. rewrite !no_errors_push_if.
  fold (metadata_size (Object proto fields)).
  replace (negb (10000 <? metadata_size (Object proto fields)))
    with (metadata_size (Object proto fields) <=? 10000) by (rewrite Z.leb_antisym; reflexivity).
  cbn [no_errors List.length Nat.eqb]. rewrite andb_true_r.
  repeat rewrite <- andb_assoc. 
  destruct (metadata_size _ <=? 10000), (has_property "__proto__" proto fields),
    (has_property "constructor" proto fields), (has_property "prototype" proto fields);
    reflexivity.
Qed.

(** X3. [validateMetadata] accepts an object exactly when it has no
    prototype, its text has at most 10000 characters and it has no own key
    [__proto__], [constructor] or [prototype]. An ordinary object, which
    inherits the first two, gets the error of both. *)
Theorem validateMetadata_exact (proto : Proto) (fields : list (string * JsValue)) :
  (isValid (validateMetadata (Object proto fields)) = true
   <-> proto = NullPrototype
       /\ metadata_size (Object proto fields) <= 10000
       /\ has_own "__proto__" fields = false
       /\ has_own "constructor" fields = false
       /\ has_own "prototype" fields = false)
  /\ (proto = ObjectPrototype ->
      forbidden_key_message "__proto__" ∈ errors (validateMetadata (Object proto fields))
      /\ forbidden_key_message "constructor" ∈ errors (validateMetadata (Object proto fields))).
Proof.
  split.
  - rewrite validateMetadata_object_isValid. destruct proto.
    + rewrite (has_property_inherited "__proto__") by reflexivity.
      rewrite andb_false_r. simpl. split; [done | by intros [? _]].
    + rewrite !has_property_null, !andb_true_iff, !negb_true_iff, Z.leb_le. 
      split; [intros [[[? ?] ?] ?] | intros (_ & ? & ? & ? & ?)]; done.
  - intros ->. unfold validateMetadata, result_without_warnings, errors, forbiddenKeys.
    cbn [fold_left].
    rewrite (has_property_inherited "__proto__"), (has_property_inherited "constructor")
      by reflexivity.
    unfold push_if at 2 3. 
    split; destruct (has_property "prototype" _ _); simpl; set_solver.
Qed.

Lemma validateMetadata_exact_witness :
  forbidden_key_message "constructor"
    ∈ errors (validateMetadata (Object ObjectPrototype [("topic", Str "food")]))
  /\ isValid (validateMetadata (Object NullPrototype [("topic", Str "food")])) = true.
Proof.
  destruct (validateMetadata_exact ObjectPrototype [("topic", Str "food")]) as [_ Ordinary].
  destruct (validateMetadata_exact NullPrototype [("topic", Str "food")]) as [Valid _].
  split.
  - by apply Ordinary.
  - apply Valid. split_and!; try reflexivity. by vm_compute.
Defined.

(** ** [validateChatRequest] *)

(** X4. The errors of [validateChatRequest] are those of the message, then of
    the conversation id when the request has one, then of the metadata when
    the request has some; so the request is accepted exactly when each of
    these parts is. *)
Theorem validateChatRequest_valid_iff_parts_valid (r : ChatRequest) :
  errors (validateChatRequest r) = sub_validator_errors r
  /\ (isValid (validateChatRequest r) = true
      <-> isValid (validateMessage (message r)) = true
          /\ (forall id, conversation_id r = Some id ->
                         isValid (validateConversationId id) = true)
          /\ (metadata r <> Undefined -> isValid (validateMetadata (metadata r)) = true)).
Proof.
  split; [apply validateChatRequest_errors |].
  rewrite validateChatRequest_sound, validateChatRequest_errors.
  unfold sub_validator_errors.
  rewrite validateMessage_sound.
  split.
  - intros E. apply app_eq_nil in E as [Em E]. apply app_eq_nil in E as [Ec Ed].
    split_and!; [done | |].
    + intros id Hid. rewrite Hid in Ec. by apply validateConversationId_sound.
    + intros Hm. apply validateMetadata_sound. by destruct (metadata r).
  - intros (Em & Ec & Ed). rewrite Em. cbn [app].
    assert (match conversation_id r with
            | Some id => errors (validateConversationId id)
            | None => []
            end = []) as ->.
    { destruct (conversation_id r) as [id |]; [| done].
      by apply validateConversationId_sound, Ec. }
    cbn [app].
    destruct (metadata r) eqn:M; first [reflexivity | by apply validateMetadata_sound, Ed].
Qed.

Lemma validateChatRequest_valid_iff_parts_valid_witness :
  isValid (validateChatRequest
             {| message := "hello"; conversation_id := Some (Some "c-1");
                metadata := Undefined |}) = true.
Proof.
  destruct (validateChatRequest_valid_iff_parts_valid
              {| message := "hello"; conversation_id := Some (Some "c-1");
                 metadata := Undefined |}) as [_ Parts].
  apply Parts. split_and!.
  - reflexivity.
  - by intros id [= <-].
  - by intros Hm.
Defined.

(** X5. A request whose metadata is an ordinary object is never accepted,
    so [prepareChatRequest] hands it back as it came, its message not
    sanitised. *)
Theorem ordinary_metadata_blocks_sanitising (r : ChatRequest) (fields : list (string * JsValue)) :
  metadata r = Object ObjectPrototype fields ->
  isValid (validateChatRequest r) = false
  /\ prepareChatRequest r = (r, validateChatRequest r).
Proof.
  intros M.
  assert (V : isValid (validateChatRequest r) = false).
  { destruct (isValid (validateChatRequest r)) eqn:V; [| done].
    apply validateChatRequest_sound in V. rewrite validateChatRequest_errors in V.
    unfold sub_validator_errors in V. rewrite M in V.
    apply app_eq_nil in V as [_ V]. apply app_eq_nil in V as [_ V].
    apply validateMetadata_sound in V.
    unfold validateMetadata, result_without_warnings, isValid, forbiddenKeys in V.
    cbn [fold_left] in V.
    assert (P : has_property "__proto__" ObjectPrototype fields = true).
    { unfold has_property. by destruct (lookup_field "__proto__" fields). }
    rewrite P in V. unfold push_if at 3 in V.
    destruct (has_property "constructor" _ _), (has_property "prototype" _ _);
      simpl in V; by rewrite ?no_errors_snoc in V. }
  split; [done |]. by apply prepareChatRequest_invalid.
Qed.

Lemma ordinary_metadata_blocks_sanitising_witness :
  let request := {| message := "<b>hello</b>"; conversation_id := None;
                    metadata := Object ObjectPrototype [] |} in
  message (prepareChatRequest request).1 = "<b>hello</b>".
Proof.
  intros request.
  destruct (ordinary_metadata_blocks_sanitising request [] eq_refl) as [_ Same].
  by rewrite Same.
Defined.

(** ** [sanitizeMessage] *)

Lemma test_class_replace_all_self (cls : ascii -> bool) (r s : string) :
  test_class cls r = false -> test_class cls (replace_all cls r s) = false.
Proof.
  intros Hr. induction s as [| c s IH]; simpl; [done |].
  destruct (cls c) eqn:E; simpl.
  - by rewrite test_class_app, Hr, IH.
  - by rewrite E, IH.
Qed.

Lemma replace_all_id (cls : ascii -> bool) (r s : string) :
  test_class cls s = false -> replace_all cls r s = s.
Proof.
  induction s as [| c s IH]; simpl; [done |].
  intros T. apply orb_false_iff in T as [Tc Ts]. by rewrite Tc, IH.
Qed.

Lemma prefix_empty (s : string) : String.prefix "" s = true.
Proof. by destruct s. Qed.

Lemma ampersands_escaped_replace_all (s : string) :
  ampersands_escaped (replace_all (is_char "&") "&amp;" s) = true.
Proof.
  induction s as [| c s IH]; [done |].
  cbn [replace_all]. unfold is_char at 1.
  destruct (Ascii.eqb_spec "&" c) as [<- | Hne].
  - change ("&amp;" +:+ ?r) with (String "&" (String "a" (String "m" (String "p" (String ";" r))))).
    cbn. by rewrite prefix_empty, IH.
  - cbn [ampersands_escaped]. rewrite IH.
    destruct (Ascii.eqb_spec c "&") as [-> | _]; [done | reflexivity].
Qed.

Lemma sanitizeMessage_has_no_quote (m : string) :
  test_class (is_char double_quote) (sanitizeMessage m) = false
  /\ test_class (is_char "'") (sanitizeMessage m) = false.
Proof.
  split.
  - unfold sanitizeMessage.
    do 2 (apply test_class_replace_all_other; [by vm_compute |]).
    by apply test_class_replace_all_self.
  - unfold sanitizeMessage.
    apply test_class_replace_all_other; [by vm_compute |].
    by apply test_class_replace_all_self.
Qed.

(** X6. What [sanitizeMessage] returns has no angle bracket and no quote of
    either kind, and each of its ampersands starts one of the five entities
    the function writes. *)
Theorem sanitizeMessage_output_is_escaped (m : string) :
  test_class (one_of "<>") (sanitizeMessage m) = false
  /\ test_class (is_char double_quote) (sanitizeMessage m) = false
  /\ test_class (is_char "'") (sanitizeMessage m) = false
  /\ ampersands_escaped (sanitizeMessage m) = true.
Proof.
  split_and!.
  - apply sanitizeMessage_has_no_angle_bracket.
  - apply sanitizeMessage_has_no_quote.
  - apply sanitizeMessage_has_no_quote.
  - apply ampersands_escaped_replace_all.
Qed.

Lemma special_character_cases (c : ascii) :
  special_character c
  = one_of "<>" c || is_char double_quote c || is_char "'" c || is_char "&" c.
Proof. destruct c as [[] [] [] [] [] [] [] []]; reflexivity. Qed.

Lemma special_character_split (m : string) :
  test_class special_character m
  = test_class (one_of "<>") m || test_class (is_char double_quote) m
    || test_class (is_char "'") m || test_class (is_char "&") m.
Proof.
  induction m as [| c m IH]; [reflexivity |].
  cbn [test_class]. rewrite IH, special_character_cases.
  generalize (one_of "<>" c), (is_char double_quote c), (is_char "'" c), (is_char "&" c),
    (test_class (one_of "<>") m), (test_class (is_char double_quote) m),
    (test_class (is_char "'") m), (test_class (is_char "&") m).
  by intros [] [] [] [] [] [] [] [].
Qed.

Lemma length_append (a b : string) :
  String.length (a +:+ b) = (String.length a + String.length b)%nat.
Proof. induction a as [| c a IH]; simpl; [done | by rewrite IH]. Qed.

Lemma length_replace_ampersand (s : string) :
  (String.length s <= String.length (replace_all (is_char "&") "&amp;" s))%nat
  /\ (test_class (is_char "&") s = true ->
      String.length s < String.length (replace_all (is_char "&") "&amp;" s))%nat.
Proof.
  induction s as [| c s [IH1 IH2]]; [split; [reflexivity | done] |].
  cbn [replace_all test_class]. destruct (is_char "&" c);
    rewrite ?length_append; simpl.
  - split; [lia |]. intros _. lia.
  - split; [lia |]. intros T. apply IH2 in T. lia.
Qed.

(** X7. [sanitizeMessage] returns a message unchanged exactly when the
    message has none of the characters [validateMessage] warns about. *)
Theorem sanitizeMessage_fixed_iff_no_special (m : string) :
  sanitizeMessage m = m <-> test_class special_character m = false.
Proof.
  rewrite special_character_split. split.
  - intros E.
    pose proof (sanitizeMessage_has_no_angle_bracket m) as A.
    destruct (sanitizeMessage_has_no_quote m) as [Q P].
    rewrite E in A, Q, P. rewrite A, Q, P. simpl.
    destruct (test_class (is_char "&") m) eqn:T; [| done].
    unfold sanitizeMessage in E.
    rewrite (replace_all_id (one_of "<>")), (replace_all_id (is_char double_quote)),
      (replace_all_id (is_char "'")) in E by done.
    destruct (length_replace_ampersand m) as [_ L]. specialize (L T).
    rewrite E in L. lia.
  - intros T. repeat (apply orb_false_iff in T as [T ?]).
    unfold sanitizeMessage.
    by rewrite (replace_all_id (one_of "<>")), (replace_all_id (is_char double_quote)),
      (replace_all_id (is_char "'")), (replace_all_id (is_char "&")).
Qed.

(** ** [prepareChatRequest] *)

Lemma replace_all_all (cls : ascii -> bool) (s : string) :
  all_in cls s = true -> replace_all cls "" s = "".
Proof.
  induction s as [| c s IH]; simpl; [done |].
  intros A. apply andb_true_iff in A as [Ac As]. by rewrite Ac, IH.
Qed.

Lemma all_in_not_blank (s : string) :
  s <> "" -> all_in (one_of "<>") s = true -> blank s = false.
Proof.
  destruct s as [| c s]; [done |]. intros _. simpl. intros A.
  apply andb_true_iff in A as [Ac _].
  destruct c as [[] [] [] [] [] [] [] []]; try discriminate Ac; reflexivity.
Qed.

(** X8. A message made of angle brackets only, not empty and of at most
    4000 characters, is accepted, and [prepareChatRequest] returns it with an
    empty message beside a result that says valid: the request it returns
    would not pass [validateChatRequest]. *)
Theorem prepareChatRequest_can_return_an_empty_message (m : string) :
  m <> "" -> String_length m <= 4000 -> all_in (one_of "<>") m = true ->
  let request := {| message := m; conversation_id := None; metadata := Undefined |} in
  isValid (prepareChatRequest request).2 = true
  /\ message (prepareChatRequest request).1 = ""
  /\ isValid (validateChatRequest (prepareChatRequest request).1) = false.
Proof.
  intros Hne L A request.
  assert (V : isValid (validateChatRequest request) = true).
  { apply validateChatRequest_sound. rewrite validateChatRequest_errors.
    unfold sub_validator_errors. simpl. rewrite app_nil_r.
    apply validateMessage_accepts; [by apply all_in_not_blank | done]. }
  rewrite (prepareChatRequest_valid _ V). simpl.
  assert (S : sanitizeMessage m = "").
  { unfold sanitizeMessage. by rewrite replace_all_all. }
  rewrite S. split_and!; try done.
Qed.

Lemma prepareChatRequest_can_return_an_empty_message_witness :
  let request := {| message := "<>"; conversation_id := None; metadata := Undefined |} in
  isValid (prepareChatRequest request).2 = true
  /\ message (prepareChatRequest request).1 = "".
Proof.
  intros request.
  destruct (prepareChatRequest_can_return_an_empty_message "<>") as (Valid & Empty & _).
  - discriminate.
  - by vm_compute.
  - reflexivity.
  - by split.
Defined.

End MoreValidationFacts.

(* ===================================================================== *)
(** * More properties of the error handler *)
(* ===================================================================== *)

Module MoreErrorFacts.
Import Js ErrorHandler ErrorBoundary Http Spec MoreSpec ErrorHandlerFacts Examples MoreExamples.

(** ** [handleChatKitError] *)

(** X9. Whatever [handleChatKitError] returns has a [type] and a [message]
    that are both truthy, and the function returns it unchanged when it is
    applied to it again. *)
Theorem handleChatKitError_result_is_classified (e e' : JsValue) :
  handleChatKitError e = Return e' ->
  (exists ty msg, get e' "type" = Return ty /\ truthy ty = true
                  /\ get e' "message" = Return msg /\ truthy msg = true)
  /\ handleChatKitError e' = Return e'.
Proof.
  intros H. destruct (handleChatKitError_output e e' H)
    as [[-> (ty & msg & Gt & Tt & Gm & Tm)] | (ty & msg & st & d & -> & Hty & Hmsg)].
  - split; [by exists ty, msg |]. by apply (handleChatKitError_passes_classified _ ty msg).
  - split; [| by apply handleChatKitError_passes_created].
    exists (Str ty), (Str msg). simpl.
    by rewrite (proj2 (String.eqb_neq _ _) Hty), (proj2 (String.eqb_neq _ _) Hmsg).
Qed.

Lemma handleChatKitError_result_is_classified_witness :
  exists e', handleChatKitError (http_error 500 "boom") = Return e'
             /\ handleChatKitError e' = Return e'.
Proof.
  eexists. split; [reflexivity |].
  by apply (handleChatKitError_result_is_classified (http_error 500 "boom")).
Defined.

(** X10. An error that is not classified yet and is no network error, and
    whose [status] is a number other than 0, becomes an error of the kind
    the status table gives to this status — authentication for 401 and 403,
    validation for 422, server for every other one — with the same status and
    with the error itself as details. *)
Theorem handleChatKitError_classifies_by_status (e ty name : JsValue) (m : string) (n : Z) :
  get e "type" = Return ty -> truthy ty = false ->
  get e "name" = Return name -> strict_equals_string name "TypeError" = false ->
  get e "message" = Return (Str m) -> includes "fetch" m = false ->
  get e "status" = Return (Number n) -> n <> 0 ->
  exists e', handleChatKitError e = Return e'
             /\ get e' "type" = Return (Str (status_kind n))
             /\ get e' "status" = Return (Number n)
             /\ get e' "details" = Return e.
Proof.
  intros Gt Tt Gn Tn Gm F Gs Hn. unfold handleChatKitError.
  rewrite Gt. cbn [bind]. rewrite Tt. cbn [bind]. rewrite Gn. cbn [bind]. rewrite Tn.
  rewrite Gm. cbn [bind call_includes]. rewrite F. rewrite Gs. cbn [bind truthy].
  rewrite (proj2 (Z.eqb_neq n 0) Hn). cbn [negb].
  destruct n as [| p | p]; [done | |];
    repeat match goal with
           | |- context [match ?q with xH => _ | _ => _ end] => destruct q
           end;
    eexists; (split; [reflexivity | by split_and!]).
Qed.

Lemma handleChatKitError_classifies_by_status_witness :
  exists e', handleChatKitError (http_error 403 "Forbidden") = Return e'
             /\ get e' "type" = Return (Str "authentication").
Proof.
  destruct (handleChatKitError_classifies_by_status (http_error 403 "Forbidden")
              Undefined (Str "Error") "Forbidden" 403)
    as (e' & H & Ty & _); try reflexivity; [lia |].
  by exists e'.
Defined.

(** X11. The network test comes before the status table: an error that is
    not classified yet and whose name is [TypeError], or whose message
    contains [fetch], becomes a network error without a status, whatever
    status it carries. *)
Theorem handleChatKitError_network_before_status (e ty name message : JsValue) :
  get e "type" = Return ty -> truthy ty = false ->
  get e "name" = Return name -> get e "message" = Return message ->
  strict_equals_string name "TypeError" = true
  \/ (exists m, message = Str m /\ includes "fetch" m = true) ->
  handleChatKitError e = Return (network_error e).
Proof.
  intros Gt Tt Gn Gm Hnet. unfold handleChatKitError.
  rewrite Gt. cbn [bind]. rewrite Tt. cbn [bind]. rewrite Gn. cbn [bind].
  destruct Hnet as [-> | (m & -> & F)]; [done |].
  destruct (strict_equals_string name "TypeError"); [done |].
  rewrite Gm. cbn [bind call_includes]. by rewrite F.
Qed.

Lemma handleChatKitError_network_before_status_witness :
  handleChatKitError (http_error 401 "Failed to fetch")
  = Return (network_error (http_error 401 "Failed to fetch")).
Proof.
  apply (handleChatKitError_network_before_status _ Undefined (Str "Error")
           (Str "Failed to fetch")); try reflexivity.
  right. by exists "Failed to fetch".
Defined.

(** ** [validateApiResponse] *)

Lemma truthy_or_else (a b : JsValue) : truthy b = true -> truthy (or_else a b) = true.
Proof. intros Tb. unfold or_else. by destruct (truthy a) eqn:Ta. Qed.

(** X12. A value [validateApiResponse] throws comes from a response that is
    not ok; it is a server error with the status of the response, and
    [handleChatKitError] returns it as it is. *)
Theorem validateApiResponse_throws_classified_errors (response : Response) (e : JsValue) :
  validateApiResponse response = RejectedWithValue e ->
  ok response = false
  /\ get e "type" = Return (Str "server")
  /\ get e "status" = Return (Number (status response))
  /\ handleChatKitError e = Return e.
Proof.
  unfold validateApiResponse. destruct (ok response); simpl.
  { destruct (json response); discriminate. }
  destruct (get (json_or _ response) "error") as [err |]; cbn [bind]; [| discriminate].
  destruct (get_optional err "message") as [msg |]; cbn [bind]; [| discriminate].
  destruct (get (json_or _ response) "detail") as [detail |]; cbn [bind]; [| discriminate].
  intros [= <-]. split_and!; try reflexivity.
  eapply handleChatKitError_passes_classified; try reflexivity.
  by apply truthy_or_else.
Qed.

Lemma validateApiResponse_throws_classified_errors_witness :
  let response := response_with 503 (Object ObjectPrototype [("detail", Str "busy")]) in
  exists e, validateApiResponse response = RejectedWithValue e
            /\ get e "message" = Return (Str "busy")
            /\ handleChatKitError e = Return e.
Proof.
  eexists. split; [reflexivity |]. split; [reflexivity |].
  eapply (validateApiResponse_throws_classified_errors
            (response_with 503 (Object ObjectPrototype [("detail", Str "busy")]))).
  reflexivity.
Defined.

(** ** [ChatKitErrorBoundary.execute] *)

Section Execute.
Context {World : Type}.

(** X13. [execute] resolves with the data when the function succeeds, and
    leaves the callback alone. When it resolves with a failure, the callback,
    if there is one, has run once, on the error of the result, and this
    error is one [handleChatKitError] leaves as it is. When [execute] itself
    throws, the callback has not run. A thrown [TypeError] is reported as a
    network error. *)
Theorem execute_reports_each_failure_once (this : ChatKitErrorBoundary World)
    (settled : Settled JsValue) (world : World) :
  (forall data, settled = Fulfilled data ->
     execute this settled world = (Return (Success data), world))
  /\ (forall error world', execute this settled world = (Return (Failure error), world') ->
        world' = match onErrorCallback this with
                 | Some callback => callback error world
                 | None => world
                 end
        /\ handleChatKitError error = Return error)
  /\ (forall e world', execute this settled world = (Throw e, world') -> world' = world)
  /\ (forall m, settled = RejectedWith (TypeError m) ->
        exists error, (execute this settled world).1 = Return (Failure error)
                      /\ get error "type" = Return (Str "network")).
Proof.
  split_and!.
  - by intros data ->.
  - intros error world'. unfold execute, execute_catch.
    destruct settled as [data | e | v]; [done | |];
      (destruct (handleChatKitError _) as [error' |] eqn:Hh; [| done];
       intros [= <- <-]; split; [done |]; by eapply handleChatKitError_idempotent).
  - intros e world'. unfold execute, execute_catch.
    destruct settled as [data | e0 | v]; [done | |];
      (destruct (handleChatKitError _) as [error' |] eqn:Hh; [done |]; by intros [= _ <-]).
  - intros m ->. eexists. split; reflexivity.
Qed.

End Execute.

Lemma execute_reports_each_failure_once_witness :
  let boundary := onError (fun error seen => error :: seen) (new_ChatKitErrorBoundary None) in
  exists error,
    execute boundary (RejectedWith (Error "boom")) [] = (Return (Failure error), [error])
    /\ handleChatKitError error = Return error.
Proof.
  intros boundary. eexists. split; [reflexivity |].
  destruct (execute_reports_each_failure_once boundary (RejectedWith (Error "boom")) [])
    as (_ & Reported & _).
  by eapply Reported.
Defined.

End MoreErrorFacts.

(* ===================================================================== *)
(** * More properties of the stores *)
(* ===================================================================== *)

Module MoreStorageFacts.
Import Js Browser AuthHelper ConversationStorage Spec MoreSpec StorageFacts ClientsFacts.

(** ** The auth store *)

Lemma user_key_ne : TOKEN_KEY <> USER_KEY.
Proof. discriminate. Qed.

Section Auth.
Context `{JsonCodec StoredUser}.

(** X14. In a browser, after [storeAuth token user], [getToken] returns the
    token, [getStoredUser] returns the user and [isAuthenticated] is true,
    whatever was stored before. *)
Theorem storeAuth_then_read `{!JsonUserLaws} (token : string) (user : StoredUser) (env : Env) :
  window_defined env = true ->
  getToken (storeAuth token user env) = Some token
  /\ getStoredUser (storeAuth token user env) = Some user
  /\ isAuthenticated (storeAuth token user env) = true.
Proof.
  intros W.
  assert (T : getToken (storeAuth token user env) = Some token).
  { unfold getToken, storeAuth. rewrite W. simpl. rewrite W. simpl.
    rewrite getItem_setItem_ne by (intros E; symmetry in E; by apply user_key_ne in E).
    apply getItem_setItem. }
  split_and!; [exact T | | unfold isAuthenticated; by rewrite T].
  unfold getStoredUser, storeAuth. rewrite W. simpl. rewrite W. simpl.
  rewrite getItem_setItem. simpl.
  rewrite (proj2 (String.eqb_neq _ _) (stringify_user_not_empty user)). simpl.
  apply parse_stringify_user.
Qed.

(** X15. After [clearAuth] there is no token and no stored user and
    [isAuthenticated] is false, and every other key of the store reads as
    before: the conversation cache survives signing out. *)
Theorem clearAuth_removes_only_the_auth_keys (env : Env) :
  getToken (clearAuth env) = None
  /\ getStoredUser (clearAuth env) = None
  /\ isAuthenticated (clearAuth env) = false
  /\ (forall key, key <> TOKEN_KEY -> key <> USER_KEY ->
                  getItem key (clearAuth env) = getItem key env).
Proof.
  split_and!.
  - apply getToken_clearAuth.
  - apply getStoredUser_clearAuth.
  - unfold isAuthenticated. by rewrite getToken_clearAuth.
  - intros key Ht Hu. unfold clearAuth. destruct (window_defined env); [| done].
    by rewrite !getItem_removeItem_ne.
Qed.

End Auth.

(** ** Lists of records, continued *)

Lemma filter_insert_out {A} (p : A -> bool) (l : list A) (i : nat) (x y : A) :
  l !! i = Some x -> p x = false -> p y = false ->
  List.filter p (<[i := y]> l) = List.filter p l.
Proof.
  revert i. induction l as [| z l IH]; intros [| i]; simpl; try done.
  - intros [= ->] Px Py. by rewrite Px, Py.
  - intros Hx Px Py. by rewrite (IH i).
Qed.

Lemma upserted_without_id (c : ConversationMetadata) (existing l' : list ConversationMetadata) :
  upserted c existing l' -> without_id (id c) l' = without_id (id c) existing.
Proof.
  unfold without_id.
  intros [(i & old & now & Fi & Hold & ->) | (created & now & _ & ->)].
  - apply findIndex_Some in Fi as (x & Hx & Px).
    assert (x = old) as -> by congruence.
    apply (filter_insert_out _ _ _ old); [done | by rewrite Px |].
    unfold has_id. simpl. by rewrite String.eqb_refl.
  - rewrite List.filter_app. simpl. unfold has_id at 2. simpl.
    rewrite String.eqb_refl. simpl. apply app_nil_r.
Qed.

Lemma upserted_found (c : ConversationMetadata) (existing l' : list ConversationMetadata) :
  upserted c existing l' ->
  exists r, r ∈ l' /\ id r = id c /\ userId r = userId c
            /\ (forall t, title c = Some t -> title r = Some t)
            /\ (forall m, lastMessage c = Some m -> lastMessage r = Some m).
Proof.
  intros [(i & old & now & Fi & Hold & ->) | (created & now & _ & ->)].
  - exists (spread_update old c now). split_and!; try done.
    + apply list_elem_of_lookup. exists i. apply list_lookup_insert_eq.
      by eapply lookup_lt_Some.
    + intros t Ht. simpl. by rewrite Ht.
    + intros m Hm. simpl. by rewrite Hm.
  - exists (spread_new c created now). split_and!; try done.
    apply elem_of_app. right. apply list_elem_of_here.
Qed.

Lemma filter_filter_comm {A} (p q : A -> bool) (l : list A) :
  List.filter p (List.filter q l) = List.filter q (List.filter p l).
Proof.
  induction l as [| x l IH]; simpl; [done |].
  destruct (p x) eqn:Px, (q x) eqn:Qx; simpl; by rewrite ?Px, ?Qx, ?IH.
Qed.

Lemma count_id_without_id (i : string) (l : list ConversationMetadata) :
  count_id i (without_id i l) = 0%nat.
Proof.
  unfold count_id, without_id. induction l as [| c l IH]; [done |].
  cbn [List.filter]. destruct (has_id i c) eqn:E; cbn [negb]; [exact IH |].
  cbn [List.filter]. by rewrite E.
Qed.

Lemma without_id_absent (i : string) (l : list ConversationMetadata) :
  count_id i l = 0%nat -> without_id i l = l.
Proof.
  unfold count_id, without_id. induction l as [| c l IH]; [done |].
  cbn [List.filter]. destruct (has_id i c) eqn:E; cbn [negb List.length]; [done |].
  intros C. by rewrite IH.
Qed.

Lemma count_id_without_id_le (i j : string) (l : list ConversationMetadata) :
  (count_id j (without_id i l) <= count_id j l)%nat.
Proof.
  unfold count_id, without_id. induction l as [| c l IH]; [done |].
  cbn [List.filter]. destruct (has_id i c); cbn [negb List.filter];
    destruct (has_id j c); cbn [List.length]; lia.
Qed.

Section Cache.
Context `{JsonCodec (list ConversationMetadata)} `{!JsonLaws}.

(** What [removeConversation] leaves to read. *)
Lemma removeConversation_reads (cid u : string) (env : Env) :
  getUserConversations u (removeConversation cid u env)
  = without_id cid (getUserConversations u env)
  /\ (forall v, v <> u ->
        getUserConversations v (removeConversation cid u env) = getUserConversations v env).
Proof.
  unfold removeConversation.
  destruct (window_defined env) eqn:W; cbn [negb].
  2:{ rewrite !getUserConversations_no_window by done. by split; [| intros]. }
  destruct (JSON_parse_as (stored_or_empty_array env)) as [all |] eqn:P.
  2:{ rewrite !getUserConversations_unparsed by done. by split; [| intros]. }
  assert (G0 : forall v, getUserConversations v env = List.filter (of_user v) all).
  { intros v. by apply getUserConversations_parsed. }
  split.
  - rewrite getUserConversations_written by done. rewrite G0.
    rewrite List.filter_app, filter_same_user_removed. simpl.
    unfold without_id. rewrite filter_filter_comm.
    by rewrite (Forall_user_filter u _ (filter_of_user_Forall u all)).
  - intros v Hne. rewrite getUserConversations_written by done. rewrite !G0.
    rewrite List.filter_app, filter_other_user by done.
    rewrite filter_filter_comm.
    rewrite (Forall_user_filter_other u v _ Hne (filter_of_user_Forall u all)).
    simpl. apply app_nil_r.
Qed.

(** X16. After [removeConversation cid u], user [u] reads the records read
    before without those with id [cid], so none has this id, and every other
    user reads what they read before. *)
Theorem removeConversation_removes_one_id (cid u : string) (env : Env) :
  getUserConversations u (removeConversation cid u env)
  = without_id cid (getUserConversations u env)
  /\ count_id cid (getUserConversations u (removeConversation cid u env)) = 0%nat
  /\ (forall v, v <> u ->
        getUserConversations v (removeConversation cid u env) = getUserConversations v env).
Proof.
  destruct (removeConversation_reads cid u env) as [Own Others].
  split_and!; [exact Own | | exact Others].
  rewrite Own. apply count_id_without_id.
Qed.

(** X17. In a browser, [getCurrentConversationId] returns the id that
    [setCurrentConversationId] was given, unless that id is the empty string
    or [null], which both remove the pointer; setting the pointer changes no
    user's conversations. *)
Theorem setCurrentConversationId_then_read (cid : string) (env : Env) :
  window_defined env = true ->
  (cid <> "" -> getCurrentConversationId (setCurrentConversationId (Some cid) env) = Some cid)
  /\ getCurrentConversationId (setCurrentConversationId (Some "") env) = None
  /\ getCurrentConversationId (setCurrentConversationId None env) = None
  /\ (forall u, getUserConversations u (setCurrentConversationId (Some cid) env)
                = getUserConversations u env).
Proof.
  intros W. unfold getCurrentConversationId, setCurrentConversationId. rewrite W. simpl.
  split_and!.
  - intros Hne. rewrite (proj2 (String.eqb_neq _ _) Hne). simpl. rewrite W. simpl.
    apply getItem_setItem.
  - rewrite W. simpl. apply getItem_removeItem.
  - rewrite W. simpl. apply getItem_removeItem.
  - intros u. pose proof (setCurrentConversationId_conversations (Some cid) u env) as S.
    unfold setCurrentConversationId in S. rewrite W in S. exact S.
Qed.

(** X18. In a browser, after [saveConversation c] the user of [c] reads a
    record with the id and the user of [c], and with the title and the last
    message of [c] when [c] has them; the records with another id are the
    ones that were read before. *)
Theorem saveConversation_then_read (c : ConversationMetadata) (env : Env) :
  window_defined env = true ->
  (exists r, r ∈ getUserConversations (userId c) (saveConversation c env)
             /\ id r = id c /\ userId r = userId c
             /\ (forall t, title c = Some t -> title r = Some t)
             /\ (forall m, lastMessage c = Some m -> lastMessage r = Some m))
  /\ without_id (id c) (getUserConversations (userId c) (saveConversation c env))
     = without_id (id c) (getUserConversations (userId c) env).
Proof.
  intros W. destruct (saveConversation_result c env W) as (l' & _ & _ & Up & Own & Read).
  rewrite Read, (Forall_user_filter _ _ Own). split.
  - by eapply upserted_found.
  - by apply upserted_without_id.
Qed.

(** X19. [saveConversation] and [removeConversation] keep the ids of the
    records each user reads distinct. *)
Theorem cache_ids_stay_unique (env : Env) :
  ids_unique env ->
  (forall c, ids_unique (saveConversation c env))
  /\ (forall cid u, ids_unique (removeConversation cid u env)).
Proof.
  intros U. split.
  - intros c v j. destruct (window_defined env) eqn:W.
    + apply saveConversation_keeps_ids_unique; [done |]. intros i. apply U.
    + unfold saveConversation. rewrite W. apply U.
  - intros cid u v j. destruct (removeConversation_reads cid u env) as [Own Others].
    destruct (decide (v = u)) as [-> | Hne].
    + rewrite Own. etransitivity; [apply count_id_without_id_le | apply U].
    + rewrite Others by done. apply U.
Qed.

(** X20. Every writer of the cache keeps the pointer well formed: the
    stored current id is never the empty string. *)
Theorem writers_keep_the_pointer_well_formed (env : Env) :
  pointer_wf env ->
  (forall cid, pointer_wf (setCurrentConversationId cid env))
  /\ (forall c, pointer_wf (saveConversation c env))
  /\ (forall cid u, pointer_wf (removeConversation cid u env))
  /\ (forall u, pointer_wf (clearUserConversations u env)).
Proof.
  intros Wf. split_and!; intros.
  - by apply pointer_wf_setCurrentConversationId.
  - by apply pointer_wf_saveConversation.
  - by apply pointer_wf_removeConversation.
  - by apply pointer_wf_clearUserConversations.
Qed.

(** X21. In a browser, removing a conversation that has just been saved
    leaves its user with the records read before the save, without those of
    this id: exactly the records read before when the id is new. Every other
    user reads nothing afterwards. *)
Theorem removeConversation_undoes_saveConversation (c : ConversationMetadata) (env : Env) :
  window_defined env = true ->
  getUserConversations (userId c) (removeConversation (id c) (userId c) (saveConversation c env))
  = without_id (id c) (getUserConversations (userId c) env)
  /\ (count_id (id c) (getUserConversations (userId c) env) = 0%nat ->
      getUserConversations (userId c)
        (removeConversation (id c) (userId c) (saveConversation c env))
      = getUserConversations (userId c) env)
  /\ (forall v, v <> userId c ->
        getUserConversations v
          (removeConversation (id c) (userId c) (saveConversation c env)) = []).
Proof.
  intros W. destruct (saveConversation_result c env W) as (l' & _ & _ & Up & Own & Read).
  destruct (removeConversation_reads (id c) (userId c) (saveConversation c env)) as [R O].
  rewrite R, Read, (Forall_user_filter _ _ Own), (upserted_without_id _ _ _ Up).
  split_and!; [done | apply without_id_absent |].
  intros v Hne. rewrite (O v Hne), Read. by apply Forall_user_filter_other with (u := userId c).
Qed.

End Cache.

(** ** The properties at work *)

Import BinaryCodec BinaryCodecFacts Examples MoreExamples.

#[export] Instance user_codec_laws : JsonUserLaws.
Proof.
  split.
  - intros u. cbn. rewrite of_bits_bits. cbn. apply decode_encode.
  - discriminate.
Qed.

Lemma storeAuth_then_read_witness :
  getToken signed_in_browser = Some "secret-token"
  /\ getStoredUser signed_in_browser = Some alice
  /\ isAuthenticated signed_in_browser = true.
Proof. apply (storeAuth_then_read "secret-token" alice (browser [])). reflexivity. Defined.

Lemma clearAuth_removes_only_the_auth_keys_witness :
  let env := storeAuth "secret-token" alice shared_browser in
  getToken (clearAuth env) = None
  /\ getItem CONVERSATION_STORAGE_KEY (clearAuth env) = getItem CONVERSATION_STORAGE_KEY env.
Proof.
  intros env. destruct (clearAuth_removes_only_the_auth_keys env) as (Token & _ & _ & Rest).
  split; [exact Token |]. apply Rest; discriminate.
Defined.

Lemma removeConversation_removes_one_id_witness :
  count_id "c-1" (getUserConversations "alice" (removeConversation "c-1" "alice" shared_browser))
  = 0%nat
  /\ getUserConversations "bob" (removeConversation "c-1" "alice" shared_browser)
     = getUserConversations "bob" shared_browser.
Proof.
  destruct (removeConversation_removes_one_id "c-1" "alice" shared_browser)
    as (_ & Gone & Others).
  split; [exact Gone |]. apply Others. discriminate.
Defined.

Lemma setCurrentConversationId_then_read_witness :
  getCurrentConversationId (setCurrentConversationId (Some "c-2") shared_browser) = Some "c-2"
  /\ getCurrentConversationId (setCurrentConversationId (Some "") shared_browser) = None.
Proof.
  destruct (setCurrentConversationId_then_read "c-2" shared_browser eq_refl)
    as (Set_ & _ & _ & _).
  destruct (setCurrentConversationId_then_read "" shared_browser eq_refl)
    as (_ & Empty & _ & _).
  split; [apply Set_; discriminate | exact Empty].
Defined.

Lemma saveConversation_then_read_witness :
  exists r, r ∈ getUserConversations "alice" (saveConversation alice_chat (browser []))
            /\ id r = "c-1" /\ title r = Some "Groceries".
Proof.
  destruct (saveConversation_then_read alice_chat (browser []) eq_refl)
    as [(r & In & Id & _ & Title & _) _].
  exists r. split_and!; [exact In | exact Id | by apply Title].
Defined.

Lemma cache_ids_stay_unique_witness :
  ids_unique (saveConversation alice_chat (browser []))
  /\ ids_unique (removeConversation "c-1" "alice" (browser [])).
Proof.
  assert (U : ids_unique (browser [])).
  { intros u i. rewrite (getUserConversations_parsed u (browser []) []) by reflexivity.
    unfold count_id. simpl. lia. }
  destruct (cache_ids_stay_unique (browser []) U) as [Save Remove].
  split; [apply Save | apply Remove].
Defined.

Lemma writers_keep_the_pointer_well_formed_witness :
  pointer_wf (setCurrentConversationId (Some "") shared_browser)
  /\ pointer_wf (clearUserConversations "alice" shared_browser).
Proof.
  assert (Wf : pointer_wf shared_browser) by (by vm_compute).
  destruct (writers_keep_the_pointer_well_formed shared_browser Wf) as (Set_ & _ & _ & Clear).
  split; [apply Set_ | apply Clear].
Defined.

Lemma removeConversation_undoes_saveConversation_witness :
  getUserConversations "alice"
    (removeConversation "c-1" "alice" (saveConversation alice_chat (browser [])))
  = getUserConversations "alice" (browser []).
Proof.
  destruct (removeConversation_undoes_saveConversation alice_chat (browser []) eq_refl)
    as (_ & New & _).
  apply New. rewrite (getUserConversations_parsed "alice" (browser []) []) by reflexivity.
  reflexivity.
Defined.

End MoreStorageFacts.

(* ===================================================================== *)
(** * More properties of the request clients *)
(* ===================================================================== *)

Module MoreClientsFacts.
Import Js Browser AuthHelper Http Clients MoreClients Spec MoreSpec ClientsFacts.

(** ** Headers *)

Lemma header_set_header (name value : string) (headers : Headers) :
  header name (set_header name value headers) = Some value.
Proof.
  induction headers as [| [k v] rest IH]; simpl.
  - by rewrite String.eqb_refl.
  - destruct (String.eqb k name) eqn:E; simpl; by rewrite E.
Qed.

Lemma header_set_header_ne (name other value : string) (headers : Headers) :
  other <> name ->
  header name (set_header other value headers) = header name headers.
Proof.
  intros Hne. induction headers as [| [k v] rest IH]; simpl.
  - by rewrite (proj2 (String.eqb_neq _ _) Hne).
  - destruct (String.eqb_spec k other) as [-> | Hk]; simpl.
    + by rewrite (proj2 (String.eqb_neq _ _) Hne).
    + by rewrite IH.
Qed.

Lemma header_spread_headers_absent (name : string) (base extra : Headers) :
  header name extra = None ->
  header name (spread_headers base extra) = header name base.
Proof.
  unfold spread_headers. revert base.
  induction extra as [| [k v] rest IH]; intros base; simpl; [done |].
  destruct (String.eqb_spec k name) as [-> | Hk]; [done |].
  intros A. rewrite IH by done. by apply header_set_header_ne.
Qed.

Lemma sent_headers_signed_in (options : RequestInit) (env : Env) (t : string) :
  getToken env = Some t -> t <> "" ->
  header "Authorization" (sent_headers options env) = Some (bearer t).
Proof.
  intros T Hne. unfold sent_headers. rewrite T.
  rewrite (proj2 (String.eqb_neq _ _) Hne). simpl. apply header_set_header.
Qed.

Lemma sent_headers_signed_out (options : RequestInit) (env : Env) :
  falsy (getToken env) = true ->
  header "Authorization" (init_headers options) = None ->
  header "Authorization" (sent_headers options env) = None.
Proof.
  intros F A. unfold sent_headers.
  assert (B : header "Authorization"
                (spread_headers [("Content-Type", "application/json")] (init_headers options))
              = None).
  { by rewrite header_spread_headers_absent. }
  destruct (getToken env) as [t |]; [| done].
  simpl in F. by rewrite F.
Qed.

Lemma sent_headers_expected (options : RequestInit) (env : Env) :
  (falsy (getToken env) = true -> header "Authorization" (init_headers options) = None) ->
  header "Authorization" (sent_headers options env) = expected_authorization env.
Proof.
  intros Hopt. unfold expected_authorization.
  destruct (getToken env) as [t |] eqn:T.
  - destruct (String.eqb_spec t "") as [-> | Hne].
    + apply sent_headers_signed_out; [by rewrite T | by apply Hopt].
    + by apply sent_headers_signed_in.
  - apply sent_headers_signed_out; [by rewrite T | by apply Hopt].
Qed.

(** X22. [ReminderClient.request] and [apiRequest] send the stored token as
    a bearer [Authorization] header, and no such header when no token or an
    empty one is stored and the caller's options bring none: a server that
    answers exactly the requests with the expected header, with a JSON body
    and an ok status, gets its body returned and the browser left as it
    was. *)
Theorem requests_carry_the_stored_token (fetch : Request -> FetchResult)
    (this : ReminderClient) (base endpoint : string) (options : RequestInit) (env : Env)
    (response : Response) (d : JsValue) :
  (falsy (getToken env) = true -> header "Authorization" (init_headers options) = None) ->
  (forall request,
      header "Authorization" (headers request) = expected_authorization env ->
      fetch request = Resolves response) ->
  ok response = true -> json response = Return d ->
  ReminderClient_request fetch this endpoint options env = (env, Return d)
  /\ apiRequest fetch base endpoint options env
     = (env, {| data := d; error := Null; response_status := status response |}).
Proof.
  intros Hopt Server Ok Body.
  pose proof (sent_headers_expected options env Hopt) as A.
  unfold sent_headers in A. cbv zeta in A.
  assert (S401 : (status response =? 401) = false).
  { unfold ok in Ok. apply andb_true_iff in Ok as [_ Hi]. apply Z.leb_le in Hi.
    apply Z.eqb_neq. lia. }
  split.
  - unfold ReminderClient_request. rewrite Server by exact A. by rewrite Ok, Body.
  - unfold apiRequest. rewrite Server by exact A. by rewrite S401, Ok, Body.
Qed.

(** ** Failures other than 401 *)

Lemma throw_detail_or_status_throws {A} (response : Response) :
  exists e, @throw_detail_or_status A response = Throw e.
Proof.
  unfold throw_detail_or_status.
  destruct (get _ "detail") as [detail |]; cbn [bind]; [| by eexists].
  destruct (truthy detail).
  - destruct (ToString detail); cbn [bind]; by eexists.
  - cbn [bind]. by eexists.
Qed.

(** X23. When the server answers [ReminderClient.request] with a status
    that is neither ok nor 401, the call throws and leaves the browser, and
    so the stored token, as it was. The message is the status line when the
    body is no JSON, and the [detail] of the body when this is a string that
    is not empty. *)
Theorem ReminderClient_request_fails_without_clearing (fetch : Request -> FetchResult)
    (this : ReminderClient) (endpoint : string) (options : RequestInit) (env : Env)
    (response : Response) :
  (forall request, fetch request = Resolves response) ->
  ok response = false -> status response <> 401 ->
  let r := ReminderClient_request fetch this endpoint options env in
  r.1 = env
  /\ (exists e, r.2 = Throw e)
  /\ (forall e, json response = Throw e -> r.2 = Throw (Error (http_error_status response)))
  /\ (forall proto fields d,
        json response = Return (Object proto fields) ->
        lookup_field "detail" fields = Some (Str d) -> d <> "" ->
        r.2 = Throw (Error d)).
Proof.
  intros Server Ok S. cbv zeta. unfold ReminderClient_request.
  rewrite Server, Ok, (proj2 (Z.eqb_neq _ _) S). simpl.
  split_and!; [done | apply throw_detail_or_status_throws | |].
  - intros e J. unfold throw_detail_or_status, json_or. by rewrite J.
  - intros proto fields d J L Hd. unfold throw_detail_or_status, json_or.
    rewrite J. cbn [get]. rewrite L. cbn [bind truthy].
    by rewrite (proj2 (String.eqb_neq _ _) Hd).
Qed.

(** ** Calls that need a token *)

(** X24. Without a token, or with an empty one, [fetchConversation] and the
    chat adapter's [sendMessage] throw [User not authenticated] whatever the
    network would answer, and leave the browser as it was. *)
Theorem signed_out_calls_never_reach_the_network (fetch : Request -> FetchResult)
    (base : string) (env : Env) :
  falsy (getToken env) = true ->
  (forall userId conversationId,
      fetchConversation fetch base userId conversationId env
      = (env, Throw (Error "User not authenticated")))
  /\ (forall userId message conversationId,
         sendMessage fetch base userId message conversationId env
         = (env, Throw (Error "User not authenticated"))).
Proof.
  intros F. split; intros; unfold fetchConversation, sendMessage;
    destruct (getToken env) as [t |]; try done; simpl in F; by rewrite F.
Qed.

(** ** [apiRequest] *)

(** X25. With a network that answers every request alike, [apiRequest]
    returns a null [error] exactly when the answer is a response with an ok
    status and a JSON body, which is then the [data] returned beside the
    status; and it changes the browser only when the status is 401. *)
Theorem apiRequest_succeeds_exactly_on_ok_json (fetch : Request -> FetchResult)
    (base endpoint : string) (options : RequestInit) (env : Env) (outcome : FetchResult) :
  (forall request, fetch request = outcome) ->
  let r := apiRequest fetch base endpoint options env in
  (error r.2 = Null
   <-> exists response d, outcome = Resolves response /\ ok response = true
                          /\ json response = Return d
                          /\ r = (env, {| data := d; error := Null;
                                          response_status := status response |}))
  /\ (r.1 <> env -> exists response, outcome = Resolves response /\ status response = 401).
Proof.
  intros Server. cbv zeta. unfold apiRequest. rewrite Server.
  destruct outcome as [response | e].
  2:{ simpl. split; [| done]. split; [done | by intros (? & ? & ? & _)]. }
  destruct (Z.eqb_spec (status response) 401) as [S | S].
  { simpl. split; [| by exists response]. split; [done |].
    intros (response' & d & [= <-] & Ok & _). unfold ok in Ok. rewrite S in Ok. done. }
  destruct (ok response) eqn:Ok; simpl.
  - destruct (json response) as [d | e] eqn:J; simpl.
    + split; [| done]. split; [| done]. intros _. by exists response, d.
    + split; [| done]. split; [done |].
      intros (response' & d & E & _ & J' & _). inversion E; subst. congruence.
  - split; [| done]. split.
    + destruct (bind (json response) _) as [detail |]; [| done].
      destruct (truthy detail) eqn:T; [| done]. simpl. intros ->. done.
    + intros (response' & d & E & Ok' & _). inversion E; subst. congruence.
Qed.

(** ** [encodeURIComponent] and [handleUnauthorized] *)

Lemma all_in_app (cls : ascii -> bool) (s t : string) :
  all_in cls (s +:+ t) = all_in cls s && all_in cls t.
Proof.
  induction s as [| c s IH]; simpl; [done |]. by rewrite IH, andb_assoc.
Qed.

Lemma encoded_character_is_safe (c : ascii) :
  all_in uri_safe
    (if uri_unreserved c then String c EmptyString
     else if (nat_of_ascii c <? 128)%nat then percent_byte (nat_of_ascii c)
          else percent_byte (192 + nat_of_ascii c / 64)
               +:+ percent_byte (128 + nat_of_ascii c mod 64)) = true.
Proof. destruct c as [[] [] [] [] [] [] [] []]; vm_compute; reflexivity. Qed.

Lemma encodeURIComponent_safe (s : string) :
  all_in uri_safe (encodeURIComponent s) = true.
Proof.
  induction s as [| c s IH]; [reflexivity |].
  cbn [encodeURIComponent]. cbv zeta.
  by rewrite all_in_app, encoded_character_is_safe, IH.
Qed.

Lemma encodeURIComponent_unreserved (s : string) :
  all_in uri_unreserved s = true -> encodeURIComponent s = s.
Proof.
  induction s as [| c s IH]; [reflexivity |].
  cbn [encodeURIComponent all_in]. cbv zeta. intros A.
  apply andb_true_iff in A as [Ac As]. by rewrite Ac, IH.
Qed.

(** X26. In a browser, [handleUnauthorized] sends the page to
    [/login?redirect=] followed by the encoded path, in which every
    character is unreserved or part of a percent escape, so the path cannot
    add a parameter or a fragment to the login URL; a path of unreserved
    characters is sent as it is. *)
Theorem login_redirect_is_one_safe_parameter (env : Env) :
  window_defined env = true ->
  exists parameter,
    location_href (handleUnauthorized env) = "/login?redirect=" +:+ parameter
    /\ parameter = encodeURIComponent (location_pathname env)
    /\ all_in uri_safe parameter = true
    /\ (all_in uri_unreserved (location_pathname env) = true ->
        parameter = location_pathname env).
Proof.
  intros W. exists (encodeURIComponent (location_pathname env)). split_and!.
  - by apply handleUnauthorized_redirects.
  - done.
  - apply encodeURIComponent_safe.
  - apply encodeURIComponent_unreserved.
Qed.

(** ** [createReminder] *)

(** X27. [createReminder] posts a body with the task id and the time of the
    reminder and without the user id, which goes into the URL; the body has
    the two repeat fields together or not at all, and has them exactly when
    both are given and neither is 0. *)
Theorem createReminder_sends_repeat_fields_together (reminderData : CreateReminderRequest) :
  exists body,
    (forall fetch this env,
        createReminder fetch this reminderData env
        = ReminderClient_request fetch this
            ("/api/" +:+ user_id reminderData +:+ "/reminders")
            {| init_method := Some "POST";
               init_headers := [("Content-Type", "application/json")];
               init_body := JSON_stringify (Object ObjectPrototype body) |}
            env)
    /\ lookup_field "task_id" body = Some (Str (task_id reminderData))
    /\ lookup_field "remind_at" body = Some (Str (remind_at reminderData))
    /\ has_own "user_id" body = false
    /\ has_own "repeat_interval_minutes" body = has_own "repeat_count" body
    /\ (has_own "repeat_count" body = true
        <-> exists interval count,
              repeat_interval_minutes reminderData = Some interval
              /\ repeat_count reminderData = Some count
              /\ interval <> 0 /\ count <> 0).
Proof.
  destruct (both_repeat_fields reminderData) as [[interval count] |] eqn:B.
  - exists [ ("task_id", Str (task_id reminderData));
             ("remind_at", Str (remind_at reminderData));
             ("repeat_interval_minutes", Number interval);
             ("repeat_count", Number count) ].
    split_and!; try reflexivity.
    + intros. unfold createReminder. by rewrite B.
    + split; [intros _ | done]. unfold both_repeat_fields in B.
      destruct (repeat_interval_minutes reminderData) as [i |]; [| done].
      destruct (repeat_count reminderData) as [c |]; [| done].
      destruct (Z.eqb_spec i 0), (Z.eqb_spec c 0); simpl in B; try done.
      inversion B; subst. by exists interval, count.
  - exists [ ("task_id", Str (task_id reminderData));
             ("remind_at", Str (remind_at reminderData)) ].
    split_and!; try reflexivity.
    + intros. unfold createReminder. by rewrite B.
    + split; [done |]. intros (i & c & Hi & Hc & Ni & Nc).
      unfold both_repeat_fields in B. rewrite Hi, Hc in B.
      by rewrite (proj2 (Z.eqb_neq _ _) Ni), (proj2 (Z.eqb_neq _ _) Nc) in B.
Qed.

(** ** [getLastConversation] *)

(** X28. In a browser, [getLastConversation] returns an object whose
    [conversation_id] is the empty string or truthy; it is the object with
    empty fields when nothing is cached for the user and when the cached
    text is no JSON. *)
Theorem getLastConversation_defaults_to_no_conversation `{JsonCodec JsValue}
    (userId : string) (env : Env) :
  window_defined env = true ->
  (exists found conversation_id,
      getLastConversation userId env = Return found
      /\ get found "conversation_id" = Return conversation_id
      /\ (conversation_id = Str "" \/ truthy conversation_id = true))
  /\ (falsy (getItem (last_conversation_key userId) env) = true ->
      getLastConversation userId env = Return no_last_conversation)
  /\ (forall text, getItem (last_conversation_key userId) env = Some text ->
                   JSON_parse_as text = None ->
                   getLastConversation userId env = Return no_last_conversation).
Proof.
  intros W. unfold getLastConversation. rewrite W. cbn [negb].
  split_and!.
  - destruct (falsy _); [by exists no_last_conversation, (Str ""); split_and!; try left |].
    destruct (getItem _ env) as [text |];
      [| by exists no_last_conversation, (Str ""); split_and!; try left].
    unfold cached_last_conversation.
    destruct (JSON_parse_as text) as [cached |];
      [| by exists no_last_conversation, (Str ""); split_and!; try left].
    destruct (get cached "conversationId") as [cid |];
      [| by exists no_last_conversation, (Str ""); split_and!; try left].
    destruct (truthy cid) eqn:T;
      [| by exists no_last_conversation, (Str ""); split_and!; try left].
    destruct (get cached "title") as [title |];
      [| by exists no_last_conversation, (Str ""); split_and!; try left].
    destruct (get cached "lastActivity") as [last |];
      [| by exists no_last_conversation, (Str ""); split_and!; try left].
    eexists _, cid. split_and!; [reflexivity | reflexivity | by right].
  - by intros ->.
  - intros text G P. rewrite G. unfold cached_last_conversation. rewrite P.
    by destruct (falsy (Some text)).
Qed.

(** ** The properties at work *)

Import BinaryCodec Examples MoreExamples.

Lemma requests_carry_the_stored_token_witness :
  apiRequest (guarded_network "secret-token") "http://localhost:8000" "/api/tasks"
    no_options signed_in_browser
  = (signed_in_browser,
     {| data := Str "welcome"; error := Null; response_status := 200 |})
  /\ apiRequest open_network "http://localhost:8000" "/api/health" no_options (browser [])
     = (browser [], {| data := Str "welcome"; error := Null; response_status := 200 |}).
Proof.
  split.
  - assert (Server : forall request,
               header "Authorization" (headers request)
               = expected_authorization signed_in_browser ->
               guarded_network "secret-token" request
               = Resolves (response_with 200 (Str "welcome"))).
    { intros request A. unfold guarded_network. by rewrite bool_decide_eq_true_2. }
    destruct (requests_carry_the_stored_token (guarded_network "secret-token")
                {| reminder_baseUrl := "" |} "http://localhost:8000" "/api/tasks"
                no_options signed_in_browser (response_with 200 (Str "welcome"))
                (Str "welcome") (fun _ => eq_refl) Server eq_refl eq_refl) as [_ Api].
    exact Api.
  - assert (Server : forall request,
               header "Authorization" (headers request)
               = expected_authorization (browser []) ->
               open_network request = Resolves (response_with 200 (Str "welcome"))).
    { intros request A. unfold open_network. by rewrite bool_decide_eq_true_2. }
    destruct (requests_carry_the_stored_token open_network
                {| reminder_baseUrl := "" |} "http://localhost:8000" "/api/health"
                no_options (browser []) (response_with 200 (Str "welcome"))
                (Str "welcome") (fun _ => eq_refl) Server eq_refl eq_refl) as [_ Api].
    exact Api.
Defined.

Lemma ReminderClient_request_fails_without_clearing_witness :
  ReminderClient_request failing_network {| reminder_baseUrl := "" |} "/api/alice/reminders"
    no_options signed_in_browser
  = (signed_in_browser, Throw (Error "busy")).
Proof.
  assert (S : status (response_with 503 (Object ObjectPrototype [("detail", Str "busy")]))
              <> 401) by (simpl; lia).
  destruct (ReminderClient_request_fails_without_clearing failing_network
              {| reminder_baseUrl := "" |} "/api/alice/reminders" no_options
              signed_in_browser
              (response_with 503 (Object ObjectPrototype [("detail", Str "busy")]))
              (fun _ => eq_refl) eq_refl S)
    as (Same & _ & _ & Detail).
  apply injective_projections; [exact Same |].
  by apply (Detail ObjectPrototype [("detail", Str "busy")] "busy").
Defined.

Lemma signed_out_calls_never_reach_the_network_witness :
  fetchConversation refusing_network "http://localhost:8000" "alice" "c-1" (browser [])
  = (browser [], Throw (Error "User not authenticated")).
Proof.
  destruct (signed_out_calls_never_reach_the_network refusing_network
              "http://localhost:8000" (browser []) eq_refl) as [Fetch _].
  apply Fetch.
Defined.

Lemma apiRequest_succeeds_exactly_on_ok_json_witness :
  error (apiRequest failing_network "http://localhost:8000" "/api/tasks" no_options
           signed_in_browser).2 <> Null.
Proof.
  destruct (apiRequest_succeeds_exactly_on_ok_json failing_network
              "http://localhost:8000" "/api/tasks" no_options signed_in_browser
              (Resolves (response_with 503 (Object ObjectPrototype [("detail", Str "busy")]))))
    as [Exact _]; [done |].
  intros E. apply Exact in E as (response & d & [= <-] & Ok & _). discriminate Ok.
Defined.

Lemma login_redirect_is_one_safe_parameter_witness :
  location_href (handleUnauthorized signed_in_browser) = "/login?redirect=%2Ftasks".
Proof.
  destruct (login_redirect_is_one_safe_parameter signed_in_browser eq_refl)
    as (parameter & Href & -> & _).
  exact Href.
Defined.

Lemma getLastConversation_defaults_to_no_conversation_witness :
  getLastConversation "alice" (browser [(last_conversation_key "alice", "not json")])
  = Return no_last_conversation.
Proof.
  destruct (getLastConversation_defaults_to_no_conversation "alice"
              (browser [(last_conversation_key "alice", "not json")]) eq_refl)
    as (_ & _ & Unparsed).
  by apply (Unparsed "not json").
Defined.

End MoreClientsFacts.

(* ===================================================================== *)
(** * Properties of the loading state (src/src/lib/loadingState.tsx) *)
(* ===================================================================== *)

Module LoadingStateFacts.
Import LoadingStateHooks MoreSpec.

(** ** [useLoadingState] and [ChatKitLoadingIndicator] *)

Lemma apply_call_keeps_invariant (state : LoadingState) (call : Call) :
  error_means_stopped state -> error_means_stopped (apply_call state call).
Proof.
  unfold error_means_stopped. intros Inv.
  destruct call; simpl; done.
Qed.

Lemma fold_keeps_invariant (calls : list Call) (state : LoadingState) :
  error_means_stopped state -> error_means_stopped (fold_left apply_call calls state).
Proof.
  revert state. induction calls as [| call calls IH]; intros state Inv; simpl; [done |].
  by apply IH, apply_call_keeps_invariant.
Qed.

(** X29. Whatever callbacks of [useLoadingState] have been called, the
    state has an error only when it is not loading; so
    [ChatKitLoadingIndicator], which shows nothing unless the state is
    loading, never shows its error block for a state of this hook. *)
Theorem loading_indicator_never_shows_an_error (calls : list Call) :
  (error (after calls) <> None -> isLoading (after calls) = false)
  /\ (forall view, ChatKitLoadingIndicator (after calls) = Some view ->
                   shown_error view = None).
Proof.
  assert (Inv : error_means_stopped (after calls)).
  { apply fold_keeps_invariant. by intros ?. }
  split; [exact Inv |].
  intros view. unfold ChatKitLoadingIndicator.
  destruct (isLoading (after calls)) eqn:L; simpl; [| done].
  intros [= <-]. simpl.
  destruct (error (after calls)) as [e |] eqn:E; [| done].
  unfold error_means_stopped in Inv. rewrite E in Inv.
  assert (true = false) by (rewrite <- L; by apply Inv). done.
Qed.

Lemma loading_indicator_never_shows_an_error_witness :
  isLoading (after [StartLoading None; SetError "boom"; UpdateProgress 50 None]) = false.
Proof.
  destruct (loading_indicator_never_shows_an_error
              [StartLoading None; SetError "boom"; UpdateProgress 50 None]) as [Stopped _].
  apply Stopped. discriminate.
Defined.

(** ** [throttle] *)

Lemma runs_spaced (t : Throttle) (readings : list Z) :
  spaced (delay t) (runs t readings)
  /\ match runs t readings with
     | first :: _ => delay t <= first - lastCall t
     | [] => True
     end.
Proof.
  revert t. induction readings as [| now rest IH]; intros t; simpl; [done |].
  unfold throttled_call. destruct (Z.leb_spec (delay t) (now - lastCall t)) as [Hd | Hd].
  - destruct (IH {| delay := delay t; lastCall := now |}) as [IH1 IH2]. simpl in *.
    split; [| done].
    destruct (runs {| delay := delay t; lastCall := now |} rest) as [| b more]; [done |].
    split; [exact IH2 | exact IH1].
  - apply IH.
Qed.

Lemma runs_sublist (t : Throttle) (readings : list Z) :
  sublist (runs t readings) readings.
Proof.
  revert t. induction readings as [| now rest IH]; intros t; simpl; [constructor |].
  unfold throttled_call. destruct (delay t <=? now - lastCall t).
  - constructor. apply IH.
  - by constructor.
Qed.

(** X30. The calls a throttled function lets through are some of the calls
    made, in their order; the clock readings of two runs in a row differ by
    the delay at least; the first run happens at a reading that is the delay
    at least, and a first call made at such a reading runs. *)
Theorem throttle_spaces_the_runs (delay : Z) (readings : list Z) :
  spaced delay (runs (throttle delay) readings)
  /\ sublist (runs (throttle delay) readings) readings
  /\ (forall first more, runs (throttle delay) readings = first :: more -> delay <= first)
  /\ (forall now rest, readings = now :: rest -> delay <= now ->
                       exists more, runs (throttle delay) readings = now :: more).
Proof.
  destruct (runs_spaced (throttle delay) readings) as [S F]. split_and!.
  - exact S.
  - apply runs_sublist.
  - intros first more E. rewrite E in F. simpl in F. lia.
  - intros now rest -> Hd. simpl. unfold throttled_call. simpl.
    rewrite Z.sub_0_r, (proj2 (Z.leb_le _ _) Hd). by eexists.
Qed.

Lemma throttle_spaces_the_runs_witness :
  exists more, runs (throttle 500) [1000; 1100; 1500; 2600] = 1000 :: more
               /\ spaced 500 (1000 :: more).
Proof.
  destruct (throttle_spaces_the_runs 500 [1000; 1100; 1500; 2600]) as (Spaced & _ & _ & First).
  destruct (First 1000 [1100; 1500; 2600] eq_refl) as [more E]; [lia |].
  exists more. split; [exact E |]. by rewrite <- E.
Defined.

End LoadingStateFacts.
